(** * GitLab CI/CD helper scripts: a shallow embedding

  The repository holds three Bun scripts that talk to the GitLab REST API:
  - [remove-pipelines.ts]  deletes every pipeline of a project,
  - [set-env-vars.ts]      uploads the entries of a JSON file as variables,
  - [remove-env-vars.ts]   deletes the variables of one environment.

  Each script is embedded as the program it is: asynchronous functions are
  terms of a small free monad [Prog] whose nodes are the places where the
  source awaits ([fetch], [sleep]) or prints; [Promise.all] and
  [Promise.allSettled] run such terms side by side, resuming each when
  what it awaits arrives; the remote service is a state machine [handle]
  and the order of the arrivals is a list, both chosen by the caller. *)

From Stdlib Require Import ZArith String Ascii List Lia Bool.
From stdpp Require Import base numbers list strings pretty.

Set Warnings "-register-all".

Open Scope Z_scope.

(* ================================================================== *)
(** ** JavaScript values and the built-ins the scripts call            *)
(* ================================================================== *)

Module Js.

(** What [JSON.parse] and [response.json()] produce.  Numbers are the
    integers: a number with a fraction has no value here, and an integer
    stands for the double of JavaScript only as long as a double holds it
    exactly, that is below 2^53 in absolute value.  The fields of an
    object are kept in the order in which [Object.entries] enumerates
    them. *)
Inductive JsonValue : Type :=
| JNull
| JBool (b : bool)
| JNum (n : Z)
| JStr (s : string)
| JArr (items : list JsonValue)
| JObj (fields : list (string * JsonValue)).

Inductive JsType : Type :=
| TyString | TyNumber | TyBoolean | TyObject.

(** [typeof v]: [null] and arrays are of type "object". *)
Definition typeof (v : JsonValue) : JsType :=
  match v with
  | JStr _ => TyString
  | JNum _ => TyNumber
  | JBool _ => TyBoolean
  | JNull | JArr _ | JObj _ => TyObject
  end.

Definition JsType_eqb (a b : JsType) : bool :=
  match a, b with
  | TyString, TyString | TyNumber, TyNumber
  | TyBoolean, TyBoolean | TyObject, TyObject => true
  | _, _ => false
  end.

Definition is_null (v : JsonValue) : bool :=
  match v with JNull => true | _ => false end.

(** [String(v)] and the conversion a template literal applies.  An array
    joins its elements with commas, [null] elements printing as nothing.
    A number prints its decimal digits, which is what JavaScript prints
    for the integers below 2^53 in absolute value; beyond that JavaScript
    rounds to a double and, from 10^21 on, prints an exponent, which is
    not modelled. *)
Fixpoint ToString (v : JsonValue) : string :=
  match v with
  | JNull => "null"
  | JBool true => "true"
  | JBool false => "false"
  | JNum n => pretty n
  | JStr s => s
  | JArr items =>
      (fix join (l : list JsonValue) : string :=
         match l with
         | [] => ""
         | x :: rest =>
             let here := match x with JNull => "" | _ => ToString x end in
             match rest with
             | [] => here
             | _ :: _ => here +:+ "," +:+ join rest
             end
         end) items
  | JObj _ => "[object Object]"
  end.

(** The same conversion for a value that may be [undefined]. *)
Definition ToString_opt (v : option JsonValue) : string :=
  match v with Some x => ToString x | None => "undefined" end.

Fixpoint assoc (name : string) (fields : list (string * JsonValue))
  : option JsonValue :=
  match fields with
  | [] => None
  | (k, v) :: rest => if String.eqb k name then Some v else assoc name rest
  end.

(** Indexed keys ["0"], ["1"], ... of an array, as [Object.entries] and
    property access see them. *)
Fixpoint indexed (i : nat) (items : list JsonValue)
  : list (string * JsonValue) :=
  match items with
  | [] => []
  | x :: rest => (pretty i, x) :: indexed (S i) rest
  end.

Definition chars (s : string) : list JsonValue :=
  map (fun c => JStr (String c EmptyString)) (list_ascii_of_string s).

(** [Object.entries(v)] for a value that is not [null]. *)
Definition Object_entries (v : JsonValue) : list (string * JsonValue) :=
  match v with
  | JObj fields => fields
  | JArr items => indexed 0 items
  | JStr s => indexed 0 (chars s)
  | JNull | JBool _ | JNum _ => []
  end.

(** [v.name]: the inner [None] is [undefined]; the outer [None] is the
    TypeError that reading a property of [null] raises.  Arrays and strings
    answer [length] themselves. *)
Definition get_prop (v : JsonValue) (name : string)
  : option (option JsonValue) :=
  match v with
  | JNull => None
  | JObj fields => Some (assoc name fields)
  | JArr items =>
      if String.eqb name "length"
      then Some (Some (JNum (Z.of_nat (length items))))
      else Some (assoc name (indexed 0 items))
  | JStr s =>
      if String.eqb name "length"
      then Some (Some (JNum (Z.of_nat (String.length s))))
      else Some (assoc name (indexed 0 (chars s)))
  | JBool _ | JNum _ => Some None
  end.

(** What [for (const x of v)] and the spread [...v] walk through; [None]
    is the TypeError raised for a value that is not iterable. *)
Definition iterate (v : JsonValue) : option (list JsonValue) :=
  match v with
  | JArr items => Some items
  | JStr s => Some (chars s)
  | JNull | JBool _ | JNum _ | JObj _ => None
  end.

(** Built-ins of the runtime that the scripts call and that are not part
    of the repository: [parseInt] answers [None] for NaN. *)
Class Runtime : Type := {
  encodeURIComponent : string -> string;
  parseInt : string -> option Z
}.

End Js.

(* ================================================================== *)
(** ** HTTP requests, responses and the remote service                 *)
(* ================================================================== *)

Module Http.
Import Js.

Inductive Method : Type := GET | POST | PUT | DELETE.

(** The arguments of one [fetch] call.  [body] is the value the source
    hands to [JSON.stringify]. *)
Record Request : Type := mkRequest {
  method : Method;
  url : string;
  headers : list (string * string);
  body : option JsonValue
}.

(** A response as the scripts read it: [text] is [response.text()],
    [json] is [response.json()] ([None] when the body does not parse),
    [x_total_pages] is [response.headers.get("x-total-pages")]. *)
Record Response : Type := mkResponse {
  status : Z;
  statusText : string;
  x_total_pages : option string;
  text : string;
  json : option JsonValue
}.

(** [response.ok]: the status is in the range 200-299. *)
Definition ok (r : Response) : bool :=
  (200 <=? status r) && (status r <=? 299).

(** A [fetch] promise resolves with a response or rejects. *)
Inductive FetchResult : Type :=
| Resolved (r : Response)
| Rejected.

(** The remote service: a state and its reaction to one request. *)
Class Backend (W : Type) : Type :=
  handle : Request -> W -> FetchResult * W.

End Http.

(* ================================================================== *)
(** ** Effects: what a script prints, sends and waits for              *)
(* ================================================================== *)

Module Eff.
Import Js Http.

(** The values the scripts throw, one constructor per [throw] site or
    runtime exception. *)
Inductive JsError : Type :=
| FailedToFetchPipelines (errorData : JsonValue)
| FailedToDeletePipeline (pipelineId : option JsonValue) (errorData : JsonValue)
| FailedToCreateVariable (key : string) (errorData : JsonValue)
| FailedToUpdateVariable (key : string) (errorData : JsonValue)
| FailedToFetchVariables (st : Z) (stText body : string)
| FailedToDeleteVariable (key : option JsonValue) (st : Z) (stText body : string)
| SyntaxError
| TypeError
| NetworkError
| ReadError.

(** [console.log], [console.warn], [console.error]. *)
Inductive Level : Type := Info | Warn | Error.

(** The lines the scripts print, one constructor per call site. *)
Inductive Msg : Type :=
(* remove-pipelines.ts *)
| MsgConfirmPipelines (project : string)
| MsgPressCtrlC
| MsgRemovingPipelines (project : string)
| MsgFetchingPipelinePage (page : nat)
| MsgNoMorePipelines
| MsgFoundPipelines (len : option JsonValue) (page : nat)
| MsgDeletedPipeline (pipelineId : option JsonValue)
| MsgErrorFetchingPipelines (e : JsError)
| MsgErrorDeletingPipeline (pipelineId : option JsonValue) (e : JsError)
| MsgDeletedTotal (totalDeleted : nat) (project : string)
| MsgErrorRemovingPipelines (e : JsError)
(* set-env-vars.ts *)
| MsgFileNotFound (path : string)
| MsgCreatedVariable (key : string)
| MsgUpdatedVariable (key : string)
| MsgErrorSettingVariable (key : string) (e : JsError)
| MsgMustContainObject
| MsgSettingVariables (project : string)
| MsgFailedToSet (key : string) (e : JsError)
| MsgSkippingNonPrimitive (key : string)
| MsgSuccessfullySet (count : nat) (path : string)
| MsgErrorProcessingFile (e : JsError)
(* remove-env-vars.ts *)
| MsgFetchingVariables (environment : string)
| MsgFetchingPage (page : nat)
| MsgFoundVariables (n : nat) (environment : string)
| MsgErrorFetchingVariables (e : JsError)
| MsgDeletingVariable (key : option JsonValue)
| MsgDeletedVariable (key : option JsonValue)
| MsgErrorDeletingVariable (key : option JsonValue) (e : JsError)
| MsgStartingRemoval (environment : string)
| MsgNoVariables (environment : string)
| MsgPreparing (n : nat)
| MsgSummary
| MsgTotalProcessed (n : nat)
| MsgSuccessfullyDeleted (n : nat)
| MsgFailedToDelete (n : nat)
| MsgSomeNotDeleted
| MsgAllRemoved (environment : string)
| MsgFatal (e : JsError).

(** What an observer of the process and of the wire sees, in order. *)
Inductive Event : Type :=
| EvLog (l : Level) (m : Msg)
| EvSend (req : Request)
| EvRecv (req : Request) (res : FetchResult)
| EvSleep (ms : Z).

(** An asynchronous function body.  [Fetch] and [Sleep] are the awaits,
    [Print] a console call, [Throw] a raised exception; [Spin] marks a loop
    whose unrolling budget ran out. *)
Inductive Prog (A : Type) : Type :=
| Ret (a : A)
| Throw (e : JsError)
| Fetch (req : Request) (k : FetchResult -> Prog A)
| Sleep (ms : Z) (k : Prog A)
| Print (l : Level) (m : Msg) (k : Prog A)
| Spin.

Arguments Ret {A} a.
Arguments Throw {A} e.
Arguments Fetch {A} req k.
Arguments Sleep {A} ms k.
Arguments Print {A} l m k.
Arguments Spin {A}.

Fixpoint bind {A B : Type} (p : Prog A) (f : A -> Prog B) : Prog B :=
  match p with
  | Ret a => f a
  | Throw e => Throw e
  | Fetch req k => Fetch req (fun res => bind (k res) f)
  | Sleep ms k => Sleep ms (bind k f)
  | Print l m k => Print l m (bind k f)
  | Spin => Spin
  end.

#[global] Instance Prog_ret : MRet Prog := fun A a => Ret a.
#[global] Instance Prog_bind : MBind Prog := fun A B f p => bind p f.

(** [try { p } catch (error) { h error }]. *)
Fixpoint try_catch {A : Type} (p : Prog A) (h : JsError -> Prog A) : Prog A :=
  match p with
  | Ret a => Ret a
  | Throw e => h e
  | Fetch req k => Fetch req (fun res => try_catch (k res) h)
  | Sleep ms k => Sleep ms (try_catch k h)
  | Print l m k => Print l m (try_catch k h)
  | Spin => Spin
  end.

(** [await fetch(url, init)]. *)
Definition fetch (req : Request) : Prog Response :=
  Fetch req (fun res =>
    match res with
    | Resolved r => Ret r
    | Rejected => Throw NetworkError
    end).

(** [await response.json()]. *)
Definition response_json (r : Response) : Prog JsonValue :=
  match json r with
  | Some v => Ret v
  | None => Throw SyntaxError
  end.

(** A property read, a [for ... of] and a spread as program steps. *)
Definition prop (v : JsonValue) (name : string) : Prog (option JsonValue) :=
  match get_prop v name with
  | Some x => Ret x
  | None => Throw TypeError
  end.

Definition iterable (v : JsonValue) : Prog (list JsonValue) :=
  match iterate v with
  | Some items => Ret items
  | None => Throw TypeError
  end.

(** How a program ended. *)
Inductive Outcome (A : Type) : Type :=
| Returned (a : A)
| Raised (e : JsError)
| Unfinished.

Arguments Returned {A} a.
Arguments Raised {A} e.
Arguments Unfinished {A}.

Section Interpreters.
Context {W : Type} `{Backend W}.

(** One asynchronous function run alone, every await completing before
    the next statement. *)
Fixpoint run {A : Type} (p : Prog A) (w : W) : Outcome A * W * list Event :=
  match p with
  | Ret a => (Returned a, w, [])
  | Throw e => (Raised e, w, [])
  | Spin => (Unfinished, w, [])
  | Print l m k =>
      let '(o, w', t) := run k w in (o, w', EvLog l m :: t)
  | Sleep ms k =>
      let '(o, w', t) := run k w in (o, w', EvSleep ms :: t)
  | Fetch req k =>
      let '(res, w1) := handle req w in
      let '(o, w', t) := run (k res) w1 in
      (o, w', EvSend req :: EvRecv req res :: t)
  end.

(** A promise in flight: settled, or parked at an await together with what
    the await will hand back. *)
Inductive Task (A : Type) : Type :=
| Settled (o : Outcome A)
| AwaitFetch (req : Request) (res : FetchResult) (k : FetchResult -> Prog A)
| AwaitTimer (ms : Z) (k : Prog A).

Arguments Settled {A} o.
Arguments AwaitFetch {A} req res k.
Arguments AwaitTimer {A} ms k.

(** Calling an async function runs its body up to the first await: the
    request of a [fetch] leaves at once, and the service answers requests
    in the order in which they left. *)
Fixpoint advance {A : Type} (p : Prog A) (w : W) : Task A * W * list Event :=
  match p with
  | Ret a => (Settled (Returned a), w, [])
  | Throw e => (Settled (Raised e), w, [])
  | Spin => (Settled Unfinished, w, [])
  | Print l m k =>
      let '(t, w', ev) := advance k w in (t, w', EvLog l m :: ev)
  | Sleep ms k => (AwaitTimer ms k, w, [])
  | Fetch req k =>
      let '(res, w') := handle req w in (AwaitFetch req res k, w', [EvSend req])
  end.

(** The awaited value arrives and the body runs on to its next await. *)
Definition resume {A : Type} (t : Task A) (w : W) : Task A * W * list Event :=
  match t with
  | Settled o => (Settled o, w, [])
  | AwaitFetch req res k =>
      let '(t', w', ev) := advance (k res) w in (t', w', EvRecv req res :: ev)
  | AwaitTimer ms k =>
      let '(t', w', ev) := advance k w in (t', w', EvSleep ms :: ev)
  end.

(** The value awaited by the promise at position [i] arrives.  Nothing
    happens when that promise has settled already or is not there. *)
Fixpoint arrive {A : Type} (i : nat) (ts : list (Task A)) (w : W) {struct ts}
  : list (Task A) * W * list Event :=
  match ts with
  | [] => ([], w, [])
  | t :: rest =>
      match i with
      | O =>
          let '(t', w', ev) := resume t w in (t' :: rest, w', ev)
      | S j =>
          let '(rest', w', ev) := arrive j rest w in (t :: rest', w', ev)
      end
  end.

Definition settled {A : Type} (t : Task A) : option (Outcome A) :=
  match t with
  | Settled o => Some o
  | _ => None
  end.

Fixpoint outcomes {A : Type} (ts : list (Task A)) : option (list (Outcome A)) :=
  match ts with
  | [] => Some []
  | t :: rest =>
      match settled t, outcomes rest with
      | Some o, Some os => Some (o :: os)
      | _, _ => None
      end
  end.

(** [await Promise.allSettled(promises)].  The event loop hands the awaited
    values over in the order in which they arrive, [arrivals] naming the
    promises by their positions, until every promise has settled; [None]
    when the arrivals run out before that.  The outcomes come in the order
    of the promises. *)
Fixpoint allSettled {A : Type} (arrivals : list nat) (ts : list (Task A)) (w : W)
  : option (list (Outcome A) * W * list Event) :=
  match outcomes ts with
  | Some os => Some (os, w, [])
  | None =>
      match arrivals with
      | [] => None
      | i :: later =>
          let '(ts', w1, ev1) := arrive i ts w in
          match allSettled later ts' w1 with
          | Some (os, w2, ev2) => Some (os, w2, ev1 ++ ev2)
          | None => None
          end
      end
  end.

End Interpreters.

Arguments Settled {A} o.
Arguments AwaitFetch {A} req res k.
Arguments AwaitTimer {A} ms k.

End Eff.

(* ================================================================== *)
(** ** remove-pipelines.ts                                             *)
(* ================================================================== *)

Module RemovePipelines.
Import Js Http Eff.

(** The record [envSchema.parse(process.env)] returns. *)
Record Env : Type := mkEnv {
  GITLAB_TOKEN : string;
  GITLAB_PROJECT_ID : string;
  GITLAB_API_URL : string;
  BATCH_SIZE : Z;
  DELAY_MS : Z
}.

Section Script.
Variable env : Env.

Definition pipelines_url (page : nat) : string :=
  GITLAB_API_URL env +:+ "/projects/" +:+ GITLAB_PROJECT_ID env
  +:+ "/pipelines?per_page=" +:+ pretty (BATCH_SIZE env)
  +:+ "&page=" +:+ pretty page.

Definition list_request (page : nat) : Request :=
  {| method := GET;
     url := pipelines_url page;
     headers := [("PRIVATE-TOKEN", GITLAB_TOKEN env)];
     body := None |}.

(** Fetches a page of pipelines from the GitLab API. *)
Definition fetchPipelines (page : nat) : Prog JsonValue :=
  try_catch
    (response ← fetch (list_request page);
     if negb (ok response)
     then errorData ← response_json response;
          Throw (FailedToFetchPipelines errorData)
     else response_json response)
    (fun error => Print Error (MsgErrorFetchingPipelines error) (Throw error)).

Definition pipeline_url (pipelineId : option JsonValue) : string :=
  GITLAB_API_URL env +:+ "/projects/" +:+ GITLAB_PROJECT_ID env
  +:+ "/pipelines/" +:+ ToString_opt pipelineId.

Definition delete_request (pipelineId : option JsonValue) : Request :=
  {| method := DELETE;
     url := pipeline_url pipelineId;
     headers := [("PRIVATE-TOKEN", GITLAB_TOKEN env)];
     body := None |}.

(** Deletes a pipeline by ID. *)
Definition deletePipeline (pipelineId : option JsonValue) : Prog unit :=
  try_catch
    (response ← fetch (delete_request pipelineId);
     if negb (ok response)
     then errorData ← response_json response;
          Throw (FailedToDeletePipeline pipelineId errorData)
     else Print Info (MsgDeletedPipeline pipelineId) (Ret tt))
    (fun error =>
       Print Error (MsgErrorDeletingPipeline pipelineId error) (Throw error)).

(** Sleep function to add delay between requests. *)
Definition sleep (ms : Z) : Prog unit := Sleep ms (Ret tt).

(** [pipelines.length === 0] and [pipelines.length > 0]; the second is only
    reached with the length of a value that [for ... of] accepted, which is
    a number. *)
Definition is_zero (len : option JsonValue) : bool :=
  match len with
  | Some (JNum n) => n =? 0
  | _ => false
  end.

Definition is_positive (len : option JsonValue) : bool :=
  match len with
  | Some (JNum n) => 0 <? n
  | _ => false
  end.

(** The [for (const pipeline of pipelines)] loop of [main]. *)
Fixpoint delete_each (pipelines : list JsonValue) (totalDeleted : nat)
  : Prog nat :=
  match pipelines with
  | [] => Ret totalDeleted
  | pipeline :: rest =>
      pipelineId ← prop pipeline "id";
      deletePipeline pipelineId;;
      sleep (DELAY_MS env);;
      delete_each rest (S totalDeleted)
  end.

(** The [do ... while] loop of [main], unrolled at most [fuel] times. *)
Fixpoint pages (fuel : nat) (page totalDeleted : nat) : Prog nat :=
  match fuel with
  | O => Spin
  | S fuel' =>
      Print Info (MsgFetchingPipelinePage page)
        (pipelines ← fetchPipelines page;
         len ← prop pipelines "length";
         if is_zero len
         then Print Info MsgNoMorePipelines (Ret totalDeleted)
         else
           Print Info (MsgFoundPipelines len page)
             (items ← iterable pipelines;
              totalDeleted' ← delete_each items totalDeleted;
              if is_positive len
              then pages fuel' (S page) totalDeleted'
              else Ret totalDeleted'))
  end.

(** [main]; the value returned is the exit status of the process: 0 when
    [main] runs to its end, 1 from [process.exit(1)]. *)
Definition main (fuel : nat) : Prog Z :=
  try_catch
    (Print Info (MsgRemovingPipelines (GITLAB_PROJECT_ID env))
       (totalDeleted ← pages fuel 1 0;
        Print Info (MsgDeletedTotal totalDeleted (GITLAB_PROJECT_ID env))
          (Ret 0)))
    (fun error => Print Error (MsgErrorRemovingPipelines error) (Ret 1)).

(** The whole script: the warning, the five seconds of [setTimeout], then
    [main]. *)
Definition script (fuel : nat) : Prog Z :=
  Print Info (MsgConfirmPipelines (GITLAB_PROJECT_ID env))
    (Print Info MsgPressCtrlC
       (Sleep 5000 (main fuel))).

End Script.
End RemovePipelines.

(* ================================================================== *)
(** ** set-env-vars.ts                                                 *)
(* ================================================================== *)

Module SetEnvVars.
Import Js Http Eff.

Record Env : Type := mkEnv {
  ENV_FILE_PATH : string;
  GITLAB_ENVIRONMENT : string;
  GITLAB_TOKEN : string;
  GITLAB_PROJECT_ID : string;
  GITLAB_API_URL : string
}.

(** What the file system holds at a path: nothing, something that
    [readFileSync] cannot read, or a text together with what [JSON.parse]
    makes of it ([None] when it throws). *)
Inductive File : Type :=
| Absent
| Unreadable
| Content (content : string) (parsed : option JsonValue).

Section Script.
Context `{Runtime} {W : Type} `{Backend W}.
Variable env : Env.
Variable fs : string -> File.

Definition variables_url : string :=
  GITLAB_API_URL env +:+ "/projects/" +:+ GITLAB_PROJECT_ID env
  +:+ "/variables".

Definition json_headers : list (string * string) :=
  [("Content-Type", "application/json"); ("PRIVATE-TOKEN", GITLAB_TOKEN env)].

Definition update_request (key value : string) : Request :=
  {| method := PUT;
     url := variables_url +:+ "/" +:+ encodeURIComponent key
            +:+ "?filter[environment_scope]="
            +:+ encodeURIComponent (GITLAB_ENVIRONMENT env);
     headers := json_headers;
     body := Some (JObj [("value", JStr value);
                         ("protected", JBool false);
                         ("masked", JBool false);
                         ("environment_scope", JStr (GITLAB_ENVIRONMENT env))]) |}.

Definition create_request (key value : string) : Request :=
  {| method := POST;
     url := variables_url;
     headers := json_headers;
     body := Some (JObj [("key", JStr key);
                         ("value", JStr value);
                         ("protected", JBool false);
                         ("masked", JBool false);
                         ("environment_scope", JStr (GITLAB_ENVIRONMENT env))]) |}.

(** Creates or updates a CI/CD variable in GitLab project. *)
Definition setGitLabVariable (key value : string) : Prog unit :=
  try_catch
    (updateResponse ← fetch (update_request key value);
     if status updateResponse =? 404
     then
       createResponse ← fetch (create_request key value);
       if negb (ok createResponse)
       then errorData ← response_json createResponse;
            Throw (FailedToCreateVariable key errorData)
       else Print Info (MsgCreatedVariable key) (Ret tt)
     else if negb (ok updateResponse)
     then errorData ← response_json updateResponse;
          Throw (FailedToUpdateVariable key errorData)
     else Print Info (MsgUpdatedVariable key) (Ret tt))
    (fun error => Print Error (MsgErrorSettingVariable key error) (Throw error)).

(** [typeof value] is "string", "number" or "boolean". *)
Definition is_primitive (value : JsonValue) : bool :=
  match typeof value with
  | TyString | TyNumber | TyBoolean => true
  | TyObject => false
  end.

(** The promise [main] pushes for one entry:
    [setGitLabVariable(key, String(value)).then(count++).catch(log)].
    It answers [true] when [count++] ran. *)
Definition entry_promise (key : string) (value : JsonValue) : Prog bool :=
  try_catch
    (setGitLabVariable key (ToString value);; Ret true)
    (fun error => Print Error (MsgFailedToSet key error) (Ret false)).

(** The [for (const [key, value] of Object.entries(envVariables))] loop:
    it starts one promise per primitive entry and warns about the others,
    without awaiting anything. *)
Fixpoint dispatch (entries : list (string * JsonValue)) (w : W)
  : list (Task bool) * W * list Event :=
  match entries with
  | [] => ([], w, [])
  | (key, value) :: rest =>
      if is_primitive value
      then
        let '(t, w1, ev1) := advance (entry_promise key value) w in
        let '(ts, w2, ev2) := dispatch rest w1 in
        (t :: ts, w2, ev1 ++ ev2)
      else
        let '(ts, w2, ev2) := dispatch rest w in
        (ts, w2, EvLog Warn (MsgSkippingNonPrimitive key) :: ev2)
  end.

(** The value of [count] once every promise has settled. *)
Definition counted (results : list (Outcome bool)) : nat :=
  length (List.filter (fun o => match o with Returned true => true | _ => false end)
                      results).

(** The first rejection, with which [Promise.all] rejects. *)
Fixpoint first_rejection (results : list (Outcome bool)) : option JsError :=
  match results with
  | [] => None
  | Raised e :: _ => Some e
  | _ :: rest => first_rejection rest
  end.

(** The script from its first statement after the configuration is read
    to the end of [main].  [arrivals] is the order in which the answers
    come in; the first component is the exit status, [None] when answers
    are still missing. *)
Definition main (arrivals : list nat) (w : W) : option Z * W * list Event :=
  match fs (ENV_FILE_PATH env) with
  | Absent =>
      (Some 1, w, [EvLog Error (MsgFileNotFound (ENV_FILE_PATH env))])
  | Unreadable =>
      (Some 1, w, [EvLog Error (MsgErrorProcessingFile ReadError)])
  | Content _ None =>
      (Some 1, w, [EvLog Error (MsgErrorProcessingFile SyntaxError)])
  | Content _ (Some envVariables) =>
      if negb (JsType_eqb (typeof envVariables) TyObject)
         || is_null envVariables
      then (Some 1, w, [EvLog Error MsgMustContainObject])
      else
        let announce := EvLog Info (MsgSettingVariables (GITLAB_PROJECT_ID env)) in
        let '(promises, w1, ev1) := dispatch (Object_entries envVariables) w in
        match allSettled arrivals promises w1 with
        | None => (None, w1, announce :: ev1)
        | Some (results, w2, ev2) =>
            match first_rejection results with
            | Some error =>
                (Some 1, w2,
                 announce :: ev1 ++ ev2
                 ++ [EvLog Error (MsgErrorProcessingFile error)])
            | None =>
                (Some 0, w2,
                 announce :: ev1 ++ ev2
                 ++ [EvLog Info (MsgSuccessfullySet (counted results)
                                   (ENV_FILE_PATH env))])
            end
        end
  end.

End Script.
End SetEnvVars.

(* ================================================================== *)
(** ** remove-env-vars.ts                                              *)
(* ================================================================== *)

Module RemoveEnvVars.
Import Js Http Eff.

Record Env : Type := mkEnv {
  GITLAB_TOKEN : string;
  GITLAB_PROJECT_ID : string;
  GITLAB_API_URL : string;
  GITLAB_ENVIRONMENT : string
}.

Section Script.
Context `{Runtime} {W : Type} `{Backend W}.
Variable env : Env.

(** Maximum allowed by GitLab API. *)
Definition perPage : Z := 100.

Definition variables_page_url (page : nat) : string :=
  GITLAB_API_URL env +:+ "/projects/" +:+ GITLAB_PROJECT_ID env
  +:+ "/variables?scope=environment&environment_scope="
  +:+ GITLAB_ENVIRONMENT env
  +:+ "&page=" +:+ pretty page +:+ "&per_page=" +:+ pretty perPage.

Definition page_request (page : nat) : Request :=
  {| method := GET;
     url := variables_page_url page;
     headers := [("PRIVATE-TOKEN", GITLAB_TOKEN env);
                 ("Content-Type", "application/json")];
     body := None |}.

(** [parseInt(response.headers.get("x-total-pages") || "1")]: a missing or
    empty header counts as one page. *)
Definition totalPages (response : Response) : option Z :=
  parseInt (match x_total_pages response with
            | None => "1"
            | Some s => if String.eqb s "" then "1" else s
            end).

(** [page < totalPages], false when [totalPages] is NaN. *)
Definition hasMorePages (page : nat) (total : option Z) : bool :=
  match total with
  | Some n => Z.of_nat page <? n
  | None => false
  end.

(** The [while (hasMorePages)] loop, unrolled at most [fuel] times. *)
Fixpoint fetch_pages (fuel : nat) (page : nat) (allVariables : list JsonValue)
  : Prog (list JsonValue) :=
  match fuel with
  | O => Spin
  | S fuel' =>
      Print Info (MsgFetchingPage page)
        (response ← fetch (page_request page);
         if negb (ok response)
         then Throw (FailedToFetchVariables (status response)
                       (statusText response) (text response))
         else
           variables ← response_json response;
           items ← iterable variables;
           let allVariables' := allVariables ++ items in
           if hasMorePages page (totalPages response)
           then fetch_pages fuel' (S page) allVariables'
           else Ret allVariables')
  end.

(** Function to fetch all variables for the environment with pagination
    support. *)
Definition fetchEnvironmentVariables (fuel : nat) : Prog (list JsonValue) :=
  Print Info (MsgFetchingVariables (GITLAB_ENVIRONMENT env))
    (try_catch
       (allVariables ← fetch_pages fuel 1 [];
        Print Info (MsgFoundVariables (length allVariables)
                      (GITLAB_ENVIRONMENT env))
          (Ret allVariables))
       (fun error => Print Error (MsgErrorFetchingVariables error) (Throw error))).

Definition variable_url (key : option JsonValue) : string :=
  GITLAB_API_URL env +:+ "/projects/" +:+ GITLAB_PROJECT_ID env
  +:+ "/variables/" +:+ encodeURIComponent (ToString_opt key).

Definition delete_request (key : option JsonValue) : Request :=
  {| method := DELETE;
     url := variable_url key;
     headers := [("PRIVATE-TOKEN", GITLAB_TOKEN env)];
     body := None |}.

(** Function to delete a single variable. *)
Definition deleteVariable (key : option JsonValue) : Prog unit :=
  Print Info (MsgDeletingVariable key)
    (try_catch
       (response ← fetch (delete_request key);
        if negb (ok response)
        then Throw (FailedToDeleteVariable key (status response)
                      (statusText response) (text response))
        else Print Info (MsgDeletedVariable key) (Ret tt))
       (fun error => Print Error (MsgErrorDeletingVariable key error) (Throw error))).

(** [variables.map((variable) => deleteVariable(variable.key))]: every call
    starts at once; [None] when reading [key] off an element raises. *)
Fixpoint start_deletes (variables : list JsonValue) (w : W)
  : option (list (Task unit)) * W * list Event :=
  match variables with
  | [] => (Some [], w, [])
  | variable :: rest =>
      match get_prop variable "key" with
      | None => (None, w, [])
      | Some key =>
          let '(t, w1, ev1) := advance (deleteVariable key) w in
          let '(ts, w2, ev2) := start_deletes rest w1 in
          (option_map (cons t) ts, w2, ev1 ++ ev2)
      end
  end.

(** [result.status === "fulfilled"] and [result.status === "rejected"]. *)
Definition fulfilled {A : Type} (o : Outcome A) : bool :=
  match o with Returned _ => true | _ => false end.

Definition rejected {A : Type} (o : Outcome A) : bool :=
  match o with Raised _ => true | _ => false end.

(** Main function to remove all environment variables.  [arrivals] is the
    order in which the answers to the deletions come in; the first
    component is the exit status of the process, [None] when the listing
    does not end within [fuel] pages or answers are still missing. *)
Definition removeAllEnvironmentVariables (fuel : nat) (arrivals : list nat)
    (w : W) : option Z * W * list Event :=
  let starting := EvLog Info (MsgStartingRemoval (GITLAB_ENVIRONMENT env)) in
  let '(listed, w1, ev1) := run (fetchEnvironmentVariables fuel) w in
  match listed with
  | Unfinished => (None, w1, starting :: ev1)
  | Raised error =>
      (Some 1, w1, starting :: ev1 ++ [EvLog Error (MsgFatal error)])
  | Returned variables =>
      if (length variables =? 0)%nat
      then (Some 0, w1,
            starting :: ev1
            ++ [EvLog Info (MsgNoVariables (GITLAB_ENVIRONMENT env))])
      else
        let preparing := EvLog Info (MsgPreparing (length variables)) in
        let '(started, w2, ev2) := start_deletes variables w1 in
        match started with
        | None =>
            (Some 1, w2,
             starting :: ev1 ++ preparing :: ev2
             ++ [EvLog Error (MsgFatal TypeError)])
        | Some promises =>
            match allSettled arrivals promises w2 with
            | None => (None, w2, starting :: ev1 ++ preparing :: ev2)
            | Some (results, w3, ev3) =>
                let successes := length (List.filter fulfilled results) in
                let failures := length (List.filter rejected results) in
                let summary :=
                  [EvLog Info MsgSummary;
                   EvLog Info (MsgTotalProcessed (length variables));
                   EvLog Info (MsgSuccessfullyDeleted successes);
                   EvLog Info (MsgFailedToDelete failures)] in
                if (0 <? failures)%nat
                then (Some 1, w3,
                      starting :: ev1 ++ preparing :: ev2 ++ ev3 ++ summary
                      ++ [EvLog Error MsgSomeNotDeleted])
                else (Some 0, w3,
                      starting :: ev1 ++ preparing :: ev2 ++ ev3 ++ summary
                      ++ [EvLog Info (MsgAllRemoved (GITLAB_ENVIRONMENT env))])
            end
        end
  end.

End Script.
End RemoveEnvVars.

(* ================================================================== *)
(** ** Remote services and runtimes used in the examples               *)
(* ================================================================== *)

Module Examples.
Import Js Http Eff.

(** A service that answers from a prepared list of responses, whatever is
    asked, and drops the connection once the list is used up. *)
Definition scripted (req : Request) (w : list FetchResult)
  : FetchResult * list FetchResult :=
  match w with
  | [] => (Rejected, [])
  | r :: rest => (r, rest)
  end.

#[global] Instance scripted_backend : Backend (list FetchResult) := scripted.

Definition reply (st : Z) (v : JsonValue) : FetchResult :=
  Resolved {| status := st; statusText := ""; x_total_pages := None;
              text := ""; json := Some v |}.

Definition reply_page (total : string) (items : list JsonValue) : FetchResult :=
  Resolved {| status := 200; statusText := "OK"; x_total_pages := Some total;
              text := ""; json := Some (JArr items) |}.

(** A runtime for the examples: keys are sent as they are and the page
    count is read off the few numerals the examples use. *)
#[global] Instance plain_runtime : Runtime :=
  {| encodeURIComponent := fun s => s;
     parseInt := fun s =>
       if String.eqb s "0" then Some 0
       else if String.eqb s "1" then Some 1
       else if String.eqb s "2" then Some 2
       else if String.eqb s "3" then Some 3
       else None |}.

Definition pipeline (id : Z) : JsonValue := JObj [("id", JNum id)].

Definition variable (key scope : string) : JsonValue :=
  JObj [("key", JStr key); ("environment_scope", JStr scope)].

(** A project whose pipelines really go away when they are deleted: the
    state is the list of the identifiers still there, a list request
    answers the slice of that list the page number selects, a delete
    request removes its pipeline. *)
Section LiveProject.
Variable env : RemovePipelines.Env.

Definition page_of (ids : list Z) (page : nat) : list Z :=
  let size := Z.to_nat (RemovePipelines.BATCH_SIZE env) in
  take size (drop ((page - 1) * size)%nat ids).

Definition asked_page (u : string) (bound : nat) : option nat :=
  List.find (fun p => String.eqb u (RemovePipelines.pipelines_url env p))
            (seq 1 bound).

Definition asked_pipeline (u : string) (ids : list Z) : option Z :=
  List.find (fun id =>
               String.eqb u (RemovePipelines.pipeline_url env (Some (JNum id))))
            ids.

Definition live_project (req : Request) (ids : list Z) : FetchResult * list Z :=
  match method req with
  | GET =>
      match asked_page (url req) (S (length ids)) with
      | Some page => (reply 200 (JArr (map pipeline (page_of ids page))), ids)
      | None => (reply 200 (JArr []), ids)
      end
  | DELETE =>
      match asked_pipeline (url req) ids with
      | Some id => (reply 204 JNull, List.filter (fun x => negb (x =? id)) ids)
      | None => (reply 404 (JObj [("message", JStr "404 Not found")]), ids)
      end
  | _ => (reply 405 JNull, ids)
  end.

End LiveProject.

Definition uat : SetEnvVars.Env :=
  {| SetEnvVars.ENV_FILE_PATH := "uat.env.json";
     SetEnvVars.GITLAB_ENVIRONMENT := "uat";
     SetEnvVars.GITLAB_TOKEN := "token";
     SetEnvVars.GITLAB_PROJECT_ID := "42";
     SetEnvVars.GITLAB_API_URL := "https://gitlab.example/api/v4" |}.

Definition production : RemoveEnvVars.Env :=
  {| RemoveEnvVars.GITLAB_TOKEN := "token";
     RemoveEnvVars.GITLAB_PROJECT_ID := "42";
     RemoveEnvVars.GITLAB_API_URL := "https://gitlab.example/api/v4";
     RemoveEnvVars.GITLAB_ENVIRONMENT := "production" |}.

Definition project25 : RemovePipelines.Env :=
  {| RemovePipelines.GITLAB_TOKEN := "token";
     RemovePipelines.GITLAB_PROJECT_ID := "42";
     RemovePipelines.GITLAB_API_URL := "https://gitlab.example/api/v4";
     RemovePipelines.BATCH_SIZE := 20;
     RemovePipelines.DELAY_MS := 1000 |}.

Definition ids25 : list Z := map Z.of_nat (seq 1 25).

(** A service that lists the same 25 pipelines, 20 on the first page and
    5 on the second, whatever has been deleted meanwhile. *)
Definition snapshot25 : list FetchResult :=
  reply 200 (JArr (map pipeline (take 20 ids25)))
  :: repeat (reply 204 JNull) 20
  ++ reply 200 (JArr (map pipeline (drop 20 ids25)))
  :: repeat (reply 204 JNull) 5
  ++ [reply 200 (JArr [])].

End Examples.

(* ================================================================== *)
(** ** Observations on a trace                                         *)
(* ================================================================== *)

Module Trace.
Import Js Http Eff.

(** The requests that left, in order. *)
Fixpoint sent (t : list Event) : list Request :=
  match t with
  | [] => []
  | EvSend req :: rest => req :: sent rest
  | _ :: rest => sent rest
  end.

(** The answers that came back, in order. *)
Fixpoint received (t : list Event) : list FetchResult :=
  match t with
  | [] => []
  | EvRecv _ res :: rest => res :: received rest
  | _ :: rest => received rest
  end.

(** The requests and the pauses, in order: what the remote service and a
    clock can tell about the run. *)
Fixpoint wire (t : list Event) : list Event :=
  match t with
  | [] => []
  | EvSend req :: rest => EvSend req :: wire rest
  | EvSleep ms :: rest => EvSleep ms :: wire rest
  | _ :: rest => wire rest
  end.

(** The lines printed, in order. *)
Fixpoint printed (t : list Event) : list Msg :=
  match t with
  | [] => []
  | EvLog _ m :: rest => m :: printed rest
  | _ :: rest => printed rest
  end.

(** The lines printed with [console.error], in order. *)
Fixpoint errors (t : list Event) : list Msg :=
  match t with
  | [] => []
  | EvLog Error m :: rest => m :: errors rest
  | _ :: rest => errors rest
  end.

(** A call that did not succeed: no response, or a status outside
    200-299. *)
Definition failed (res : FetchResult) : bool :=
  match res with
  | Resolved r => negb (ok r)
  | Rejected => true
  end.

(** The answer "404 Not Found". *)
Definition not_found (res : FetchResult) : bool :=
  match res with
  | Resolved r => status r =? 404
  | Rejected => false
  end.

(** A field of the JSON payload of a request. *)
Definition payload (req : Request) (name : string) : option JsonValue :=
  match body req with
  | Some (JObj fields) => assoc name fields
  | _ => None
  end.

(** The answers of the service to a sequence of requests handled one
    after the other. *)
Fixpoint serve {W : Type} `{Backend W} (reqs : list Request) (w : W)
  : list FetchResult * W :=
  match reqs with
  | [] => ([], w)
  | req :: rest =>
      let '(res, w1) := handle req w in
      let '(ress, w2) := serve rest w1 in
      (res :: ress, w2)
  end.

Definition succeeded (res : FetchResult) : Prop := failed res = false.

(** The answer to a list request is a success whose body is the JSON array
    [items]. *)
Definition lists (res : FetchResult) (items : list JsonValue) : Prop :=
  exists r, res = Resolved r /\ ok r = true /\ json r = Some (JArr items).

Definition is_object (v : JsonValue) : Prop :=
  exists fields, v = JObj fields.

(** [item.name] for an element of a listing. *)
Definition field (name : string) (item : JsonValue) : option JsonValue :=
  match get_prop item name with
  | Some x => x
  | None => None
  end.

End Trace.

(* ================================================================== *)
(** ** Orders of arrival                                               *)
(* ================================================================== *)

Module Arrivals.
Import Js Http Eff.

(** The answers come in in the order in which the requests left: once
    around the [n] promises, [turns] times. *)
Definition in_order (turns n : nat) : list nat :=
  concat (repeat (seq 0 n) turns).

Section Vocabulary.
Context {W : Type} `{Backend W}.

(** One arrival for every promise, in the order of the promises. *)
Fixpoint round {A : Type} (ts : list (Task A)) (w : W)
  : list (Task A) * W * list Event :=
  match ts with
  | [] => ([], w, [])
  | t :: rest =>
      let '(t', w1, ev1) := resume t w in
      let '(rest', w2, ev2) := round rest w1 in
      (t' :: rest', w2, ev1 ++ ev2)
  end.

(** Arrivals handed over one after the other, whether or not something
    is still awaited. *)
Fixpoint deliver {A : Type} (arrivals : list nat) (ts : list (Task A)) (w : W)
  : list (Task A) * W * list Event :=
  match arrivals with
  | [] => (ts, w, [])
  | i :: later =>
      let '(ts1, w1, ev1) := arrive i ts w in
      let '(ts2, w2, ev2) := deliver later ts1 w1 in
      (ts2, w2, ev1 ++ ev2)
  end.

(** A promise parked at an await that settles on [o], showing [ev], as
    soon as what it awaits arrives. *)
Definition settles_with {A : Type} (t : Task A) (o : Outcome A)
    (ev : list Event) : Prop :=
  settled t = None /\ forall w : W, resume t w = (Settled o, w, ev).

(** Such a promise before or after that arrival. *)
Definition parked_or_done {A : Type} (t : Task A)
    (p : Outcome A * list Event) : Prop :=
  settles_with t p.1 p.2 \/ t = Settled p.1.

End Vocabulary.

(** What the promises still parked will show. *)
Fixpoint owed {A : Type} (ts : list (Task A))
    (ps : list (Outcome A * list Event)) : list Event :=
  match ts, ps with
  | t :: ts', p :: ps' =>
      match settled t with
      | Some _ => owed ts' ps'
      | None => p.2 ++ owed ts' ps'
      end
  | _, _ => []
  end.

End Arrivals.

(* ================================================================== *)
(** ** Vocabulary of the statements about remove-pipelines.ts          *)
(* ================================================================== *)

Module PipelineRuns.
Import Js Http Eff Trace.

Section Vocabulary.
Variable env : RemovePipelines.Env.

(** The delete request [main] sends for an element of a listing. *)
Definition removal (item : JsonValue) : Request :=
  RemovePipelines.delete_request env (field "id" item).

(** What the wire carries while a batch is deleted: each request followed
    by the configured pause. *)
Definition deletions (batch : list JsonValue) : list Event :=
  flat_map (fun item => [EvSend (removal item);
                         EvSleep (RemovePipelines.DELAY_MS env)]) batch.

(** The requests of a run over the non-empty pages [batches], the first of
    which is page [page], up to the request that finds the empty page. *)
Fixpoint page_requests (page : nat) (batches : list (list JsonValue))
  : list Request :=
  match batches with
  | [] => [RemovePipelines.list_request env page]
  | batch :: rest =>
      RemovePipelines.list_request env page
      :: map removal batch ++ page_requests (S page) rest
  end.

(** The same run as the wire carries it. *)
Fixpoint page_wire (page : nat) (batches : list (list JsonValue))
  : list Event :=
  match batches with
  | [] => [EvSend (RemovePipelines.list_request env page)]
  | batch :: rest =>
      EvSend (RemovePipelines.list_request env page)
      :: deletions batch ++ page_wire (S page) rest
  end.

(** The answers under which such a run goes through: every listing
    succeeds with its batch, every deletion succeeds, the last listing is
    empty. *)
Fixpoint page_answers (batches : list (list JsonValue))
    (ress : list FetchResult) : Prop :=
  match batches with
  | [] => exists l, ress = [l] /\ lists l []
  | batch :: rest =>
      exists l ds more,
        ress = l :: ds ++ more /\ length ds = length batch /\
        lists l batch /\ Forall succeeded ds /\ page_answers rest more
  end.

End Vocabulary.

(** An answer with which the script goes on: a success, carrying for a
    list request a JSON array of objects. *)
Definition well_answered (e : Event) : Prop :=
  match e with
  | EvRecv req (Resolved r) =>
      ok r = true /\
      (method req = GET ->
       exists items, json r = Some (JArr items) /\ Forall is_object items)
  | EvRecv _ Rejected => False
  | _ => True
  end.

(** The number of list requests and of delete requests among [reqs]. *)
(** The error [fetchPipelines] raises for an answer that is no success. *)
Definition listing_error (res : FetchResult) : JsError :=
  match res with
  | Resolved r =>
      match json r with
      | Some errorData => FailedToFetchPipelines errorData
      | None => SyntaxError
      end
  | Rejected => NetworkError
  end.

Definition count_method (m : Method) (reqs : list Request) : nat :=
  length (List.filter (fun req => match method req, m with
                                  | GET, GET | POST, POST
                                  | PUT, PUT | DELETE, DELETE => true
                                  | _, _ => false
                                  end) reqs).

(** The sizes of the listings received, in order. *)
Fixpoint listing_sizes (t : list Event) : list nat :=
  match t with
  | [] => []
  | EvRecv req (Resolved r) :: rest =>
      match method req, json r with
      | GET, Some (JArr items) => length items :: listing_sizes rest
      | _, _ => listing_sizes rest
      end
  | _ :: rest => listing_sizes rest
  end.

(** "After each delete call the pause elapses": on the wire every delete
    request is followed at once by the pause of [delay] milliseconds. *)
Fixpoint pause_follows_each_deletion (delay : Z) (wire : list Event) : bool :=
  match wire with
  | [] => true
  | EvSend req :: rest =>
      match method req with
      | DELETE =>
          match rest with
          | EvSleep ms :: _ =>
              (ms =? delay) && pause_follows_each_deletion delay rest
          | _ => false
          end
      | _ => pause_follows_each_deletion delay rest
      end
  | _ :: rest => pause_follows_each_deletion delay rest
  end.

(** The run that fetches two list pages, of 20 and of 5 pipelines, and
    sends 25 delete requests. *)
Definition two_pages_of_20_and_5 (t : list Event) : Prop :=
  listing_sizes t = [20%nat; 5%nat] /\
  count_method GET (sent t) = 2%nat /\
  count_method DELETE (sent t) = 25%nat.

End PipelineRuns.




(* ================================================================== *)
(** ** Vocabulary of the statements about remove-env-vars.ts           *)
(* ================================================================== *)

Module VariableRuns.
Import Js Http Eff Trace.

(** A collection cut into pages of [size] items, as a remote service
    hands it out: an empty collection is one empty page. *)
Fixpoint chunks {A : Type} (fuel size : nat) (items : list A) : list (list A) :=
  match fuel with
  | O => []
  | S fuel' =>
      match items with
      | [] => []
      | _ :: _ => take size items :: chunks fuel' size (drop size items)
      end
  end.

Definition paginate {A : Type} (size : nat) (items : list A) : list (list A) :=
  match items with
  | [] => [[]]
  | _ :: _ => chunks (length items) size items
  end.

Section Vocabulary.
Context `{Runtime}.
Variable env : RemoveEnvVars.Env.

(** The answers under which a listing goes through: page after page a
    success whose body is the page and whose header announces [total]
    pages. *)
Fixpoint listing_answers (total : Z) (pages : list (list JsonValue))
    (ress : list FetchResult) : Prop :=
  match pages, ress with
  | [], [] => True
  | page :: pages', res :: ress' =>
      (exists r, res = Resolved r /\ ok r = true /\
                 json r = Some (JArr page) /\
                 RemoveEnvVars.totalPages r = Some total) /\
      listing_answers total pages' ress'
  | _, _ => False
  end.

(** The delete request the script sends for an element of the listing. *)
Definition removal (variable : JsonValue) : Request :=
  RemoveEnvVars.delete_request env (field "key" variable).

(** How the promise of one deletion settles on an answer. *)
Definition delete_outcome (key : option JsonValue) (res : FetchResult)
  : Outcome unit :=
  match res with
  | Resolved r =>
      if ok r then Returned tt
      else Raised (FailedToDeleteVariable key (status r) (statusText r) (text r))
  | Rejected => Raised NetworkError
  end.

(** What is seen when that answer arrives. *)
Definition delete_events (key : option JsonValue) (res : FetchResult)
  : list Event :=
  [EvRecv (RemoveEnvVars.delete_request env key) res;
   match delete_outcome key res with
   | Raised e => EvLog Error (MsgErrorDeletingVariable key e)
   | _ => EvLog Info (MsgDeletedVariable key)
   end].

(** The promises the script starts for a listing, and what they are
    parked on. *)
Definition parked (variables : list JsonValue) (ress : list FetchResult)
  : list (Outcome unit * list Event) :=
  zip_with (fun variable res =>
              (delete_outcome (field "key" variable) res,
               delete_events (field "key" variable) res))
           variables ress.

End Vocabulary.

(** The tally of the summary block that ends the output of the script,
    if there is one: attempted, succeeded, failed. *)
Definition tally (lines : list Msg) : option (nat * nat * nat) :=
  match rev lines with
  | _ :: MsgFailedToDelete f :: MsgSuccessfullyDeleted s
      :: MsgTotalProcessed k :: _ => Some (k, s, f)
  | _ => None
  end.

End VariableRuns.

(* ================================================================== *)
(** ** Vocabulary of the statements about set-env-vars.ts              *)
(* ================================================================== *)

Module UploadRuns.
Import Js Http Eff Trace.

(** The document the script goes on with: the file is there, can be read,
    parses, and [typeof] says "object" of a value that is not [null]. *)
Definition accepted (f : SetEnvVars.File) : option JsonValue :=
  match f with
  | SetEnvVars.Content _ (Some doc) =>
      if JsType_eqb (typeof doc) TyObject && negb (is_null doc)
      then Some doc else None
  | _ => None
  end.

(** The entries for which a promise is started. *)
Definition attempts (doc : JsonValue) : list (string * JsonValue) :=
  List.filter (fun entry => SetEnvVars.is_primitive entry.2) (Object_entries doc).

(** The lines "Failed to set variable ..." of a trace. *)
Definition failure_line (m : Msg) : bool :=
  match m with MsgFailedToSet _ _ => true | _ => false end.

Definition failure_lines (t : list Event) : nat :=
  length (List.filter failure_line (printed t)).

(** A promise that settles within [n] awaits, never rejects, and prints
    its failure line exactly when it answers [false]. *)
Inductive Tallied : nat -> Prog bool -> Prop :=
| tallied_true n : Tallied n (Ret true)
| tallied_false n key e :
    Tallied n (Print Error (MsgFailedToSet key e) (Ret false))
| tallied_print n l m k :
    failure_line m = false -> Tallied n k -> Tallied n (Print l m k)
| tallied_fetch n req k :
    (forall res, Tallied n (k res)) -> Tallied (S n) (Fetch req k).

(** The same for a promise in flight. *)
Definition task_ok (n : nat) (t : Task bool) : Prop :=
  match t with
  | Settled (Returned _) => True
  | Settled _ => False
  | AwaitFetch _ res k => exists m, n = S m /\ Tallied m (k res)
  | AwaitTimer _ _ => False
  end.

Definition answered_false (t : Task bool) : bool :=
  match t with Settled (Returned false) => true | _ => false end.

Definition false_tasks (ts : list (Task bool)) : nat :=
  length (List.filter answered_false ts).

Definition falses (os : list (Outcome bool)) : nat :=
  length (List.filter (fun o => match o with Returned false => true | _ => false end)
                      os).

(** The double quote of JSON texts. *)
Definition dq : string := String (Ascii.ascii_of_nat 34) EmptyString.

(** A file system whose every path holds the document with the single
    entry A = "1". *)
Definition one_entry : string -> SetEnvVars.File :=
  fun _ =>
    SetEnvVars.Content
      ("{" +:+ dq +:+ "A" +:+ dq +:+ ":" +:+ dq +:+ "1" +:+ dq +:+ "}")
      (Some (JObj [("A", JStr "1")])).

(** "The process exits with a non-zero status whenever a call failed." *)
Definition failure_is_visible (code : option Z) (t : list Event) : Prop :=
  Exists (fun res => failed res = true) (received t) -> code <> Some 0.

(** A document whose top-level value is the JSON array [[1]]. *)
Definition array_document : string -> SetEnvVars.File :=
  fun _ => SetEnvVars.Content "[1]" (Some (JArr [JNum 1])).

End UploadRuns.
(* ================================================================== *)
(** ** Further observations on a trace                                 *)
(* ================================================================== *)

Module Observed.
Import Js Http Eff Trace.

Definition is_method (m : Method) (req : Request) : bool :=
  match method req, m with
  | GET, GET | POST, POST | PUT, PUT | DELETE, DELETE => true
  | _, _ => false
  end.

(** The requests of one method among those that left, in order. *)
Definition only (m : Method) (t : list Event) : list Request :=
  List.filter (is_method m) (sent t).

(** What the listings handed over: the elements of the bodies of the
    successful answers to the GET requests, in the order in which a
    [for ... of] or a spread walks them, one listing after the other. *)
Fixpoint listed (t : list Event) : list JsonValue :=
  match t with
  | [] => []
  | EvRecv req (Resolved r) :: rest =>
      match method req, ok r, json r with
      | GET, true, Some v =>
          match iterate v with
          | Some items => items ++ listed rest
          | None => listed rest
          end
      | _, _, _ => listed rest
      end
  | _ :: rest => listed rest
  end.

(** The pauses, in order, in milliseconds. *)
Fixpoint pauses (t : list Event) : list Z :=
  match t with
  | [] => []
  | EvSleep ms :: rest => ms :: pauses rest
  | _ :: rest => pauses rest
  end.

(** The number of requests of method [m] that were answered with a
    success. *)
Fixpoint granted (m : Method) (t : list Event) : nat :=
  match t with
  | [] => 0%nat
  | EvRecv req res :: rest =>
      if is_method m req && negb (failed res)
      then S (granted m rest) else granted m rest
  | _ :: rest => granted m rest
  end.

End Observed.

(* ================================================================== *)
(** ** Further vocabulary for remove-pipelines.ts                      *)
(* ================================================================== *)

Module PipelineLedger.
Import Js Http Eff Trace.

(** The two requests the script knows: a page of the listing and the
    deletion of one pipeline. *)
Definition project_request (env : RemovePipelines.Env) (req : Request) : Prop :=
  (exists page, req = RemovePipelines.list_request env page) \/
  (exists pipelineId, req = RemovePipelines.delete_request env pipelineId).

End PipelineLedger.

(* ================================================================== *)
(** ** Further vocabulary for set-env-vars.ts                          *)
(* ================================================================== *)

Module UpsertRuns.
Import Js Http Eff Trace Observed.

(** A program that only prints and then answers. *)
Inductive Quiet : Prog bool -> Prop :=
| quiet_ret b : Quiet (Ret b)
| quiet_print l m k : Quiet k -> Quiet (Print l m k).

Section Vocabulary.
Context `{Runtime}.
Variable env : SetEnvVars.Env.

(** The variables a run may write: [wanted key value] for the names and
    the values, as strings, that the document asks for. *)
Variable wanted : string -> string -> Prop.

(** The promise of an entry while its create request is in flight. *)
Definition creating (t : Task bool) : Prop :=
  exists key value res k,
    wanted key value /\
    t = AwaitFetch (SetEnvVars.create_request env key value) res k /\
    Quiet (k res).

(** The promise of an entry while its update request is in flight: on
    the answer 404 it goes on with the create request, on any other
    answer it only prints. *)
Definition updating (t : Task bool) : Prop :=
  exists key value res k,
    wanted key value /\
    t = AwaitFetch (SetEnvVars.update_request env key value) res k /\
    if not_found res
    then exists k', k res = Fetch (SetEnvVars.create_request env key value) k' /\
                    forall res', Quiet (k' res')
    else Quiet (k res).

Definition entry_task (t : Task bool) : Prop :=
  (exists b, t = Settled (Returned b)) \/ updating t \/ creating t.

(** The shape of what a run shows: update requests leave at any time; a
    create request leaves only as the very next thing after the answer 404
    to the update request of the same variable, and it does leave then. *)
Inductive Upserting : list Event -> Prop :=
| upserting_nil : Upserting []
| upserting_log l m t : Upserting t -> Upserting (EvLog l m :: t)
| upserting_update key value t :
    wanted key value -> Upserting t ->
    Upserting (EvSend (SetEnvVars.update_request env key value) :: t)
| upserting_answer req res t :
    is_method PUT req && not_found res = false -> Upserting t ->
    Upserting (EvRecv req res :: t)
| upserting_create key value res t :
    wanted key value -> not_found res = true -> Upserting t ->
    Upserting (EvRecv (SetEnvVars.update_request env key value) res
               :: EvSend (SetEnvVars.create_request env key value) :: t).

End Vocabulary.

(** The names and values a document asks for: those of its primitive
    entries, the values as [String] prints them. *)
Definition asked_for (doc : JsonValue) (key value : string) : Prop :=
  exists v, In (key, v) (UploadRuns.attempts doc) /\ value = ToString v.

End UpsertRuns.

(* ================================================================== *)
(** ** Further vocabulary for remove-env-vars.ts                       *)
(* ================================================================== *)

Module ListingRuns.
Import Js Http Eff Trace.

Section Vocabulary.
Context `{Runtime}.

(** Whether the answer to the request for page [page] makes the loop of
    [fetchEnvironmentVariables] go on to the next page. *)
Definition announces_more (page : nat) (res : FetchResult) : bool :=
  match res with
  | Resolved r => RemoveEnvVars.hasMorePages page (RemoveEnvVars.totalPages r)
  | Rejected => false
  end.

(** The same for the answers to the requests for the pages [page],
    [page + 1], ... *)
Fixpoint announced (page : nat) (ress : list FetchResult) : list bool :=
  match ress with
  | [] => []
  | res :: rest => announces_more page res :: announced (S page) rest
  end.

End Vocabulary.
End ListingRuns.

(* ================================================================== *)
(** ** What a program may send                                         *)
(* ================================================================== *)

Module Footprint.
Import Js Http Eff Trace.

(** Every request the program sends, whatever it is answered, is one of
    [P]. *)
Inductive Sends {A : Type} (P : Request -> Prop) : Prog A -> Prop :=
| sends_ret a : Sends P (Ret a)
| sends_throw e : Sends P (Throw e)
| sends_spin : Sends P Spin
| sends_print l m k : Sends P k -> Sends P (Print l m k)
| sends_sleep ms k : Sends P k -> Sends P (Sleep ms k)
| sends_fetch req k :
    P req -> (forall res, Sends P (k res)) -> Sends P (Fetch req k).

(** The same for a promise in flight. *)
Definition task_sends {A : Type} (P : Request -> Prop) (t : Task A) : Prop :=
  match t with
  | Settled _ => True
  | AwaitFetch _ res k => Sends P (k res)
  | AwaitTimer _ k => Sends P k
  end.

(** A request made in the name of [token] to the project [project] of
    the service at [api]. *)
Definition addressed_to (api project token : string) (req : Request) : Prop :=
  In ("PRIVATE-TOKEN", token) (headers req) /\
  String.prefix (api +:+ "/projects/" +:+ project +:+ "/") (url req) = true.

End Footprint.

(* ================================================================== *)
(** ** How long a promise stays in flight                              *)
(* ================================================================== *)

Module Patience.
Import Js Http Eff Trace.

(** A program that comes to its end after [n] awaits at most, whatever
    the awaits hand back. *)
Inductive Within {A : Type} : nat -> Prog A -> Prop :=
| within_ret n a : Within n (Ret a)
| within_throw n e : Within n (Throw e)
| within_spin n : Within n Spin
| within_print n l m k : Within n k -> Within n (Print l m k)
| within_sleep n ms k : Within n k -> Within (S n) (Sleep ms k)
| within_fetch n req k :
    (forall res, Within n (k res)) -> Within (S n) (Fetch req k).

(** A promise that settles after [n] arrivals at most. *)
Definition settles_within {A : Type} (n : nat) (t : Task A) : Prop :=
  match t with
  | Settled _ => True
  | AwaitFetch _ res k => exists m, n = S m /\ Within m (k res)
  | AwaitTimer _ k => exists m, n = S m /\ Within m k
  end.

(** Every promise gets the arrivals it may need: the promise at position
    [i] settles within as many arrivals as [arrivals] names [i]. *)
Definition served {A : Type} (arrivals : list nat) (ts : list (Task A)) : Prop :=
  forall i t, nth_error ts i = Some t ->
              settles_within (count_occ Nat.eq_dec arrivals i) t.

End Patience.

(* ================================================================== *)
(** ** Further vocabulary for the live project                         *)
(* ================================================================== *)

Module LiveRuns.
Import Http.

(** The live project as a remote service. *)
Definition live_backend (env : RemovePipelines.Env) : Http.Backend (list Z) :=
  Examples.live_project env.

(** What is left of [ids] once the pipelines of [batch] have been deleted
    one after the other. *)
Fixpoint strike (batch ids : list Z) : list Z :=
  match batch with
  | [] => ids
  | id :: rest => strike rest (List.filter (fun x => negb (x =? id)) ids)
  end.

(** The pipelines that a sweep by pages of [size] leaves of [ids]: of
    every two pages of the list, the second. *)
Fixpoint survivors (fuel size : nat) (ids : list Z) : list Z :=
  match fuel with
  | O => ids
  | S fuel' =>
      match ids with
      | [] => []
      | _ :: _ =>
          take size (drop size ids)
          ++ survivors fuel' size (drop (size + size) ids)
      end
  end.

End LiveRuns.

(* ================================================================== *)
(** ** A remote service that never runs out of pipelines               *)
(* ================================================================== *)

Module Endless.
Import Js Http.

(** A service without memory: every page of the listing holds the
    pipeline 7, and every other request is granted. *)
Definition endless : Backend unit :=
  fun req _ =>
    match method req with
    | GET => (Examples.reply 200 (JArr [Examples.pipeline 7]), tt)
    | _ => (Examples.reply 204 JNull, tt)
    end.

End Endless.
(* ================================================================== *)
(** ** The words of the specification                                  *)
(* ================================================================== *)

(** What the statements about the scripts are measured against.  The
    definitions of this module are written from the words of the
    specification and from the API of GitLab, not from the code of the
    scripts: the theorems compare the scripts with them. *)
Module Stated.
Import Js Http Eff Trace.

(** "A primitive value": a string, a number or a boolean. *)
Definition primitive (value : JsonValue) : bool :=
  match value with
  | JStr _ | JNum _ | JBool _ => true
  | JNull | JArr _ | JObj _ => false
  end.

(** The entries of a document that carry a primitive value. *)
Definition primitive_entries (entries : list (string * JsonValue))
  : list (string * JsonValue) :=
  List.filter (fun entry => primitive entry.2) entries.

(** The text under which a primitive value is written to the remote
    service: a string as it is, a boolean as [true] or [false], an integer
    that a double holds exactly by its decimal digits.  Of the other
    numbers nothing is said. *)
Definition written_as (value : JsonValue) (s : string) : Prop :=
  match value with
  | JStr text => s = text
  | JBool true => s = "true"
  | JBool false => s = "false"
  | JNum n => - 2 ^ 53 < n < 2 ^ 53 -> s = pretty n
  | JNull | JArr _ | JObj _ => False
  end.

Section Listing.
Context `{Runtime}.

(** The request for page [page] of the variables of an environment, as
    the API of GitLab has it: the page number and the page size travel in
    the query, the token in a header. *)
Definition variables_page (env : RemoveEnvVars.Env) (page : nat) : Request :=
  {| method := GET;
     url := RemoveEnvVars.GITLAB_API_URL env +:+ "/projects/"
            +:+ RemoveEnvVars.GITLAB_PROJECT_ID env
            +:+ "/variables?scope=environment&environment_scope="
            +:+ RemoveEnvVars.GITLAB_ENVIRONMENT env
            +:+ "&page=" +:+ pretty page +:+ "&per_page=100";
     headers := [("PRIVATE-TOKEN", RemoveEnvVars.GITLAB_TOKEN env);
                 ("Content-Type", "application/json")];
     body := None |}.

(** An answer that hands over one page of a collection: a success whose
    body is the page. *)
Definition hands_over (page : list JsonValue) (res : FetchResult) : Prop :=
  exists r, res = Resolved r /\ ok r = true /\ json r = Some (JArr page).

(** An answer whose header [x-total-pages] reads [total]. *)
Definition announces (total : Z) (res : FetchResult) : Prop :=
  exists r s, res = Resolved r /\ x_total_pages r = Some s /\ s <> "" /\
              parseInt s = Some total.

(** "The lister returns the collection": it returns a sequence of exactly
    the items of the collection, in page-then-within-page order. *)
Definition returns_collection (o : Outcome (list JsonValue))
    (pages : list (list JsonValue)) : Prop :=
  o = Returned (concat pages).

End Listing.


(** A listing that a loop can walk through: a sequence none of whose
    elements is [null]. *)
Definition walkable (v : JsonValue) : Prop :=
  exists items, iterate v = Some items /\
                Forall (fun item => item <> JNull) items.

(** A listing whose length reads 0. *)
Definition empty_listing (v : JsonValue) : Prop :=
  get_prop v "length" = Some (Some (JNum 0)).

(** An answer with which the removal of the pipelines goes on: a success
    and, to a list request, one whose body parses as an empty listing or
    as a listing that can be walked through.  Any other answer is a call
    that failed or makes the operation abort. *)
Definition serves_pipelines (e : Event) : Prop :=
  match e with
  | EvRecv req (Resolved r) =>
      ok r = true /\
      (method req = GET ->
       exists v, json r = Some v /\ (empty_listing v \/ walkable v))
  | EvRecv _ Rejected => False
  | _ => True
  end.

(** The same for the removal of the variables, which walks through every
    listing. *)
Definition serves_variables (e : Event) : Prop :=
  match e with
  | EvRecv req (Resolved r) =>
      ok r = true /\
      (method req = GET -> exists v, json r = Some v /\ walkable v)
  | EvRecv _ Rejected => False
  | _ => True
  end.

(** The answers to the list requests of a run, in order. *)
Fixpoint list_answers (t : list Event) : list FetchResult :=
  match t with
  | [] => []
  | EvRecv req res :: rest =>
      match method req with
      | GET => res :: list_answers rest
      | _ => list_answers rest
      end
  | _ :: rest => list_answers rest
  end.

(** "An item failed", for the upload of an entry: a call of the upload
    was answered with a failure, other than the update answered "not
    found", which the create request follows. *)
Definition upload_failure (e : Event) : bool :=
  match e with
  | EvRecv req res =>
      failed res
      && negb (match method req with PUT => not_found res | _ => false end)
  | _ => false
  end.

Definition failed_uploads (t : list Event) : nat :=
  length (List.filter upload_failure t).

(** "An item succeeded": a call of the upload was answered with a
    success. *)
Definition upload_success (e : Event) : bool :=
  match e with
  | EvRecv _ res => negb (failed res)
  | _ => false
  end.

Definition successful_uploads (t : list Event) : nat :=
  length (List.filter upload_success t).

End Stated.

(* ================================================================== *)
(** ** Further vocabulary for the pages of remove-pipelines.ts         *)
(* ================================================================== *)

Module PipelineStops.
Import Js Http Eff Trace PipelineRuns.

(** The answers under which the loop deletes the pages [batches], one
    after the other and each of them whole, and then is handed the
    listing [final]. *)
Fixpoint cleared (batches : list (list JsonValue)) (final : list JsonValue)
    (ress : list FetchResult) : Prop :=
  match batches with
  | [] => exists l, ress = [l] /\ lists l final
  | batch :: rest =>
      exists l ds more,
        ress = l :: ds ++ more /\ length ds = length batch /\
        lists l batch /\ Forall succeeded ds /\ cleared rest final more
  end.

(** The lines "Deleted pipeline: ..." of a run, in order. *)
Definition deleted_lines (t : list Event) : list Msg :=
  List.filter (fun m => match m with MsgDeletedPipeline _ => true | _ => false end)
              (printed t).

End PipelineStops.

(* ================================================================== *)
(** ** Further vocabulary for the promises of set-env-vars.ts          *)
(* ================================================================== *)

Module UploadAnswers.
Import Js Http Eff Trace.

(** A program that only prints and then answers [b]. *)
Inductive Answers (b : bool) : Prog bool -> Prop :=
| answers_ret : Answers b (Ret b)
| answers_print l m k : Answers b k -> Answers b (Print l m k).

(** A promise in flight that tells the truth: it awaits an answer, goes
    on with one more request when that answer is "not found" to an
    update, and otherwise answers whether the call succeeded. *)
Definition truthful (t : Task bool) : Prop :=
  match t with
  | Settled (Returned _) => True
  | Settled _ => False
  | AwaitFetch req res k =>
      if match method req with PUT => not_found res | _ => false end
      then exists req' k',
             k res = Fetch req' k' /\ method req' = POST /\
             forall res', Answers (negb (failed res')) (k' res')
      else Answers (negb (failed res)) (k res)
  | AwaitTimer _ _ => False
  end.

(** The promises that have answered [true], and those that have
    answered. *)
Definition won (t : Task bool) : nat :=
  match t with Settled (Returned true) => 1 | _ => 0 end.

Definition over (t : Task bool) : nat :=
  match t with Settled _ => 1 | _ => 0 end.

Fixpoint wons (ts : list (Task bool)) : nat :=
  match ts with
  | [] => 0
  | t :: rest => won t + wons rest
  end.

Fixpoint overs (ts : list (Task bool)) : nat :=
  match ts with
  | [] => 0
  | t :: rest => over t + overs rest
  end.

End UploadAnswers.
(* ================================================================== *)
(** ** The interpreters: general facts                                 *)
(* ================================================================== *)

Import Js Http Eff Trace Arrivals.

Lemma sent_app (a b : list Event) : sent (a ++ b) = sent a ++ sent b.
Proof.
  induction a as [|e a IH]; simpl; [reflexivity|].
  destruct e; simpl; rewrite IH; reflexivity.
Qed.

Lemma received_app (a b : list Event) :
  received (a ++ b) = received a ++ received b.
Proof.
  induction a as [|e a IH]; simpl; [reflexivity|].
  destruct e; simpl; rewrite IH; reflexivity.
Qed.

Lemma wire_app (a b : list Event) : wire (a ++ b) = wire a ++ wire b.
Proof.
  induction a as [|e a IH]; simpl; [reflexivity|].
  destruct e; simpl; rewrite IH; reflexivity.
Qed.

Lemma printed_app (a b : list Event) :
  printed (a ++ b) = printed a ++ printed b.
Proof.
  induction a as [|e a IH]; simpl; [reflexivity|].
  destruct e; simpl; rewrite IH; reflexivity.
Qed.

Lemma errors_app (a b : list Event) : errors (a ++ b) = errors a ++ errors b.
Proof.
  induction a as [|e a IH]; simpl; [reflexivity|].
  destruct e as [[] m| | |]; simpl; rewrite IH; reflexivity.
Qed.

Lemma listing_sizes_app (a b : list Event) :
  PipelineRuns.listing_sizes (a ++ b)
  = PipelineRuns.listing_sizes a ++ PipelineRuns.listing_sizes b.
Proof.
  induction a as [|e a IH]; simpl; [reflexivity|].
  destruct e as [| |req [r|]|]; simpl; try exact IH.
  destruct (method req), (json r) as [[]|]; simpl; rewrite IH; reflexivity.
Qed.

Section RunFacts.
Context {W : Type} `{Backend W}.

(** Running [p] and then [f] on its result. *)
Lemma run_bind {A B : Type} (p : Prog A) (f : A -> Prog B) (w : W) :
  run (bind p f) w =
  let '(o, w1, t1) := run p w in
  match o with
  | Returned a => let '(o2, w2, t2) := run (f a) w1 in (o2, w2, t1 ++ t2)
  | Raised e => (Raised e, w1, t1)
  | Unfinished => (Unfinished, w1, t1)
  end.
Proof.
  revert w. induction p as [a|e|req k IH|ms k IH|l m k IH|]; intros w; simpl.
  - destruct (run (f a) w) as [[o2 w2] t2]. reflexivity.
  - reflexivity.
  - destruct (handle req w) as [res w1]. rewrite IH.
    destruct (run (k res) w1) as [[o w2] t1].
    destruct o as [a| |]; [|reflexivity..].
    destruct (run (f a) w2) as [[o2 w3] t2]. reflexivity.
  - rewrite IH. destruct (run k w) as [[o w2] t1].
    destruct o as [a| |]; [|reflexivity..].
    destruct (run (f a) w2) as [[o2 w3] t2]. reflexivity.
  - rewrite IH. destruct (run k w) as [[o w2] t1].
    destruct o as [a| |]; [|reflexivity..].
    destruct (run (f a) w2) as [[o2 w3] t2]. reflexivity.
  - reflexivity.
Qed.

(** Running [p] under a handler. *)
Lemma run_try_catch {A : Type} (p : Prog A) (h : JsError -> Prog A) (w : W) :
  run (try_catch p h) w =
  let '(o, w1, t1) := run p w in
  match o with
  | Raised e => let '(o2, w2, t2) := run (h e) w1 in (o2, w2, t1 ++ t2)
  | _ => (o, w1, t1)
  end.
Proof.
  revert w. induction p as [a|e|req k IH|ms k IH|l m k IH|]; intros w; simpl.
  - reflexivity.
  - destruct (run (h e) w) as [[o2 w2] t2]. reflexivity.
  - destruct (handle req w) as [res w1]. rewrite IH.
    destruct (run (k res) w1) as [[o w2] t1].
    destruct o as [a|e|]; [reflexivity| |reflexivity].
    destruct (run (h e) w2) as [[o2 w3] t2]. reflexivity.
  - rewrite IH. destruct (run k w) as [[o w2] t1].
    destruct o as [a|e|]; [reflexivity| |reflexivity].
    destruct (run (h e) w2) as [[o2 w3] t2]. reflexivity.
  - rewrite IH. destruct (run k w) as [[o w2] t1].
    destruct o as [a|e|]; [reflexivity| |reflexivity].
    destruct (run (h e) w2) as [[o2 w3] t2]. reflexivity.
  - reflexivity.
Qed.

(** The service sees exactly the requests of the trace: a run alone is a
    conversation in which every request is answered before the next one
    leaves. *)
Lemma run_serve {A : Type} (p : Prog A) (w : W) :
  serve (sent (run p w).2) w = (received (run p w).2, (run p w).1.2).
Proof.
  revert w. induction p as [a|e|req k IH|ms k IH|l m k IH|]; intros w; simpl;
    try reflexivity.
  - destruct (handle req w) as [res w1] eqn:E.
    specialize (IH res w1).
    destruct (run (k res) w1) as [[o w2] t]. simpl in *.
    rewrite E, IH. reflexivity.
  - specialize (IH w). destruct (run k w) as [[o w2] t]. simpl in *. exact IH.
  - specialize (IH w). destruct (run k w) as [[o w2] t]. simpl in *. exact IH.
Qed.

End RunFacts.

(* ================================================================== *)
(** ** The event loop: general facts                                   *)
(* ================================================================== *)

Lemma sent_Permutation (a b : list Event) :
  Permutation a b -> Permutation (sent a) (sent b).
Proof.
  induction 1 as [|e a b _ IH|e1 e2 a|a b c _ IH1 _ IH2].
  - constructor.
  - destruct e; simpl; try exact IH. constructor. exact IH.
  - destruct e1, e2; simpl; try reflexivity. apply perm_swap.
  - etransitivity; eassumption.
Qed.

Lemma received_Permutation (a b : list Event) :
  Permutation a b -> Permutation (received a) (received b).
Proof.
  induction 1 as [|e a b _ IH|e1 e2 a|a b c _ IH1 _ IH2].
  - constructor.
  - destruct e; simpl; try exact IH. constructor. exact IH.
  - destruct e1, e2; simpl; try reflexivity. apply perm_swap.
  - etransitivity; eassumption.
Qed.

Section LoopFacts.
Context {W : Type} `{Backend W}.

(** An arrival for a promise that has settled changes nothing. *)
Lemma arrive_settled {A : Type} (ts : list (Task A)) :
  forall (i : nat) (os : list (Outcome A)) (w : W),
    outcomes ts = Some os -> arrive i ts w = (ts, w, []).
Proof.
  induction ts as [|t ts IH]; intros i os w Ho; [reflexivity|].
  cbn [outcomes] in Ho. destruct (settled t) as [o|] eqn:St; [|discriminate].
  destruct (outcomes ts) as [os'|] eqn:Ho'; [|discriminate].
  destruct t as [o'| |]; try discriminate St.
  destruct i as [|i]; cbn [arrive resume]; [reflexivity|].
  rewrite (IH i os' w eq_refl). reflexivity.
Qed.

Lemma deliver_settled {A : Type} (arrivals : list nat) (ts : list (Task A))
    (os : list (Outcome A)) (w : W) :
  outcomes ts = Some os -> deliver arrivals ts w = (ts, w, []).
Proof.
  intros Ho. induction arrivals as [|i later IH]; [reflexivity|].
  cbn [deliver]. rewrite (arrive_settled ts i os w Ho), IH. reflexivity.
Qed.

(** The arrivals may be handed over in two parts. *)
Lemma allSettled_app {A : Type} (first later : list nat) :
  forall (ts : list (Task A)) (w : W),
    allSettled (first ++ later) ts w =
    let '(ts', w', ev) := deliver first ts w in
    match allSettled later ts' w' with
    | Some (os, w2, ev2) => Some (os, w2, ev ++ ev2)
    | None => None
    end.
Proof.
  induction first as [|i first IH]; intros ts w.
  - cbn [app deliver]. destruct (allSettled later ts w) as [[[os w2] ev2]|];
      reflexivity.
  - cbn [app allSettled]. destruct (outcomes ts) as [os|] eqn:Ho.
    + rewrite (deliver_settled (i :: first) ts os w Ho).
      destruct later; cbn [allSettled]; rewrite Ho; reflexivity.
    + cbn [deliver]. destruct (arrive i ts w) as [[ts1 w1] ev1].
      rewrite IH. destruct (deliver first ts1 w1) as [[ts2 w2] ev2].
      destruct (allSettled later ts2 w2) as [[[os w3] ev3]|]; [|reflexivity].
      rewrite app_assoc. reflexivity.
Qed.

Lemma arrive_at {A : Type} (pre : list (Task A)) (t : Task A)
    (rest : list (Task A)) (w : W) :
  arrive (length pre) (pre ++ t :: rest) w =
  let '(t', w', ev) := resume t w in (pre ++ t' :: rest, w', ev).
Proof.
  induction pre as [|p pre IH]; cbn [length app arrive].
  - reflexivity.
  - rewrite IH. destruct (resume t w) as [[t' w'] ev]. reflexivity.
Qed.

(** Once around the promises in their order is a [round]. *)
Lemma deliver_round {A : Type} (ts : list (Task A)) :
  forall (pre : list (Task A)) (w : W),
    deliver (seq (length pre) (length ts)) (pre ++ ts) w =
    let '(ts', w', ev) := round ts w in (pre ++ ts', w', ev).
Proof.
  induction ts as [|t ts IH]; intros pre w.
  - cbn [length seq deliver round]. reflexivity.
  - cbn [length seq deliver round]. rewrite arrive_at.
    destruct (resume t w) as [[t' w1] ev1].
    replace (pre ++ t' :: ts) with ((pre ++ [t']) ++ ts)
      by (rewrite <- app_assoc; reflexivity).
    replace (S (length pre)) with (length (pre ++ [t']))
      by (rewrite length_app; simpl; lia).
    rewrite IH. destruct (round ts w1) as [[ts' w2] ev2].
    rewrite <- app_assoc. reflexivity.
Qed.

(** Answers that come in in order, turn after turn. *)
Lemma allSettled_in_order {A : Type} (turns : nat) (ts : list (Task A)) (w : W) :
  allSettled (in_order (S turns) (length ts)) ts w =
  let '(ts', w', ev) := round ts w in
  match allSettled (in_order turns (length ts)) ts' w' with
  | Some (os, w2, ev2) => Some (os, w2, ev ++ ev2)
  | None => None
  end.
Proof.
  unfold in_order. cbn [repeat concat]. rewrite allSettled_app.
  pose proof (deliver_round ts [] w) as D. cbn [length app] in D.
  rewrite D. destruct (round ts w) as [[ts' w'] ev]. reflexivity.
Qed.

Lemma round_length {A : Type} (ts : list (Task A)) :
  forall w : W, length (round ts w).1.1 = length ts.
Proof.
  induction ts as [|t ts IH]; intros w; [reflexivity|].
  cbn [round]. destruct (resume t w) as [[t' w1] ev1].
  specialize (IH w1). destruct (round ts w1) as [[ts' w2] ev2].
  simpl in *. congruence.
Qed.

(** A promise alone in the event loop goes the way [run] says: the two
    readings of an asynchronous function agree. *)
Lemma alone_in_the_loop {A : Type} (p : Prog A) :
  forall w : W,
    exists (n : nat) (ev : list Event),
      allSettled (repeat 0%nat n) [(advance p w).1.1] (advance p w).1.2
      = Some ([(run p w).1.1], (run p w).1.2, ev) /\
      (run p w).2 = (advance p w).2 ++ ev.
Proof.
  induction p as [a|e|req k IH|ms k IH|l m k IH|]; intros w.
  - exists 0%nat, []. split; reflexivity.
  - exists 0%nat, []. split; reflexivity.
  - cbn [advance run]. destruct (handle req w) as [res w1].
    destruct (IH res w1) as (n & ev & Ha & Hr).
    exists (S n), (EvRecv req res :: (advance (k res) w1).2 ++ ev).
    cbn [repeat allSettled outcomes settled arrive resume fst snd].
    destruct (advance (k res) w1) as [[t1 w2] ev1].
    destruct (run (k res) w1) as [[o w3] tr]. cbn [fst snd] in *.
    rewrite Ha, Hr. split; reflexivity.
  - cbn [advance run]. destruct (IH w) as (n & ev & Ha & Hr).
    exists (S n), (EvSleep ms :: (advance k w).2 ++ ev).
    cbn [repeat allSettled outcomes settled arrive resume fst snd].
    destruct (advance k w) as [[t1 w2] ev1].
    destruct (run k w) as [[o w3] tr]. cbn [fst snd] in *.
    rewrite Ha, Hr. split; reflexivity.
  - cbn [advance run]. destruct (IH w) as (n & ev & Ha & Hr).
    destruct (advance k w) as [[t1 w2] ev1].
    destruct (run k w) as [[o w3] tr]. cbn [fst snd] in *.
    exists n, ev. rewrite Ha, Hr. split; reflexivity.
  - exists 0%nat, []. split; reflexivity.
Qed.

End LoopFacts.

(* ================================================================== *)
(** ** set-env-vars.ts: the upsert of one variable                     *)
(* ================================================================== *)

Lemma not_found_failed res : not_found res = true -> failed res = true.
Proof.
  destruct res as [r|]; simpl; [|discriminate].
  unfold ok. intros E%Z.eqb_eq. rewrite E. reflexivity.
Qed.

(** C1.  [setGitLabVariable] first sends the update (PUT) request for the
    key, scoped to the target environment.  It sends the create (POST)
    request, with the same key, value and scope, exactly when the answer to
    the update is 404; the key then succeeds or fails with the create.  In
    every other case no second request leaves and the key succeeds or fails
    with the update.  Both payloads carry [protected = false] and
    [masked = false]. *)
Theorem setGitLabVariable_upsert `{Runtime} {W : Type} `{Backend W}
    (env : SetEnvVars.Env) (key value : string) (w : W) :
  let upd := SetEnvVars.update_request env key value in
  let cre := SetEnvVars.create_request env key value in
  let '(o, w', t) := run (SetEnvVars.setGitLabVariable env key value) w in
  (exists res1 w1,
     handle upd w = (res1, w1) /\
     (not_found res1 = true ->
        exists res2,
          handle cre w1 = (res2, w') /\
          sent t = [upd; cre] /\ received t = [res1; res2] /\
          (failed res2 = false -> o = Returned tt) /\
          (failed res2 = true -> exists e, o = Raised e)) /\
     (not_found res1 = false ->
        w' = w1 /\ sent t = [upd] /\ received t = [res1] /\
        (failed res1 = false -> o = Returned tt) /\
        (failed res1 = true -> exists e, o = Raised e))) /\
  method upd = PUT /\ method cre = POST /\
  url upd = SetEnvVars.variables_url env +:+ "/" +:+ encodeURIComponent key
            +:+ "?filter[environment_scope]="
            +:+ encodeURIComponent (SetEnvVars.GITLAB_ENVIRONMENT env) /\
  payload cre "key" = Some (JStr key) /\
  (forall req, req = upd \/ req = cre ->
     payload req "value" = Some (JStr value) /\
     payload req "environment_scope"
       = Some (JStr (SetEnvVars.GITLAB_ENVIRONMENT env)) /\
     payload req "protected" = Some (JBool false) /\
     payload req "masked" = Some (JBool false)).
Proof.
  intros upd cre.
  destruct (run (SetEnvVars.setGitLabVariable env key value) w) as [[o w'] t] eqn:R.
  split; [|repeat split; try reflexivity;
           destruct H1 as [-> | ->]; reflexivity].
  unfold SetEnvVars.setGitLabVariable, response_json, mbind, Prog_bind in R.
  fold upd cre in R. simpl in R.
  destruct (handle upd w) as [res1 w1] eqn:E1.
  exists res1, w1. split; [reflexivity|].
  destruct res1 as [r1|]; simpl in R.
  - destruct (status r1 =? 404) eqn:E404; simpl in R.
    + destruct (handle cre w1) as [res2 w2] eqn:E2.
      split; [|simpl; congruence]. intros _. exists res2.
      destruct res2 as [r2|]; simpl in R.
      * destruct (ok r2) eqn:Ok2; simpl in R.
        -- inversion R; subst. simpl. rewrite Ok2. simpl.
           repeat split; try reflexivity. discriminate.
        -- destruct (json r2); simpl in R; inversion R; subst; simpl;
             rewrite Ok2; simpl; repeat split; try reflexivity;
             try discriminate; eauto.

      * inversion R; subst. simpl. repeat split; try reflexivity;
          try discriminate; eauto.
    + split; [simpl; congruence|]. intros _.
      destruct (ok r1) eqn:Ok1; simpl in R.
      * inversion R; subst. simpl. rewrite Ok1. simpl.
        repeat split; try reflexivity. discriminate.
      * destruct (json r1); simpl in R; inversion R; subst; simpl;
          rewrite Ok1; simpl; repeat split; try reflexivity;
          try discriminate; eauto.
  - split; [simpl; discriminate|]. intros _.
    inversion R; subst. simpl. repeat split; try reflexivity;
      try discriminate; eauto.
Qed.

Lemma setGitLabVariable_upsert_witness :
  let w := [Examples.reply 404 JNull; Examples.reply 201 JNull] in
  let '(o, _, t) := run (SetEnvVars.setGitLabVariable Examples.uat "A" "1") w in
  o = Returned tt /\
  sent t = [SetEnvVars.update_request Examples.uat "A" "1";
            SetEnvVars.create_request Examples.uat "A" "1"].
Proof.
  intros w.
  pose proof (setGitLabVariable_upsert Examples.uat "A" "1" w) as T.
  destruct (run (SetEnvVars.setGitLabVariable Examples.uat "A" "1") w)
    as [[o w'] t].
  destruct T as [(res1 & w1 & E1 & Hnf & _) _].
  inversion E1; subst res1 w1.
  destruct (Hnf eq_refl) as (res2 & E2 & Hs & _ & Hok & _).
  inversion E2; subst res2.
  split; [apply Hok; reflexivity | exact Hs].
Defined.

(* ================================================================== *)
(** ** remove-pipelines.ts: deleting a batch                           *)
(* ================================================================== *)

Import PipelineRuns.

Lemma serve_app {W : Type} `{Backend W} (a b : list Request) (w : W) :
  serve (a ++ b) w =
  let '(ra, w1) := serve a w in
  let '(rb, w2) := serve b w1 in
  (ra ++ rb, w2).
Proof.
  revert w. induction a as [|req a IH]; intros w; simpl.
  - destruct (serve b w) as [rb w2]. reflexivity.
  - destruct (handle req w) as [res w1]. rewrite IH.
    destruct (serve a w1) as [ra w2]. destruct (serve b w2) as [rb w3].
    reflexivity.
Qed.

Lemma succeeded_ok (r : Response) : succeeded (Resolved r) -> ok r = true.
Proof. unfold succeeded; simpl. destruct (ok r); [reflexivity|discriminate]. Qed.

Lemma field_object (name : string) (item : JsonValue) :
  item <> JNull -> get_prop item name = Some (field name item).
Proof.
  unfold field. destruct item; simpl; try reflexivity; try congruence;
    destruct (String.eqb name "length"); reflexivity.
Qed.

Lemma is_object_not_null (v : JsonValue) : is_object v -> v <> JNull.
Proof. intros [fields ->]. discriminate. Qed.

Section PipelineFacts.
Context {W : Type} `{Backend W}.
Variable env : RemovePipelines.Env.

Abbreviation delete_request := (RemovePipelines.delete_request env).
Abbreviation deletePipeline := (RemovePipelines.deletePipeline env).
Abbreviation delete_each := (RemovePipelines.delete_each env).
Abbreviation list_request := (RemovePipelines.list_request env).
Abbreviation fetchPipelines := (RemovePipelines.fetchPipelines env).
Abbreviation DELAY := (RemovePipelines.DELAY_MS env).

(** A deletion that the service accepts. *)
Lemma deletePipeline_succeeds (id : option JsonValue) (w w1 : W) (res : FetchResult) :
  handle (delete_request id) w = (res, w1) ->
  succeeded res ->
  run (deletePipeline id) w =
  (Returned tt, w1,
   [EvSend (delete_request id); EvRecv (delete_request id) res;
    EvLog Info (MsgDeletedPipeline id)]).
Proof.
  intros E Sv. unfold RemovePipelines.deletePipeline, mbind, Prog_bind.
  simpl. rewrite E. destruct res as [r|]; [|discriminate Sv].
  simpl. rewrite (succeeded_ok r Sv). reflexivity.
Qed.

(** A deletion that the service refuses or never answers. *)
Lemma deletePipeline_fails (id : option JsonValue) (w w1 : W) (res : FetchResult) :
  handle (delete_request id) w = (res, w1) ->
  failed res = true ->
  exists e,
    run (deletePipeline id) w =
    (Raised e, w1,
     [EvSend (delete_request id); EvRecv (delete_request id) res;
      EvLog Error (MsgErrorDeletingPipeline id e)]).
Proof.
  intros E F. unfold RemovePipelines.deletePipeline, response_json, mbind, Prog_bind.
  simpl. rewrite E. destruct res as [r|]; simpl.
  - simpl in F. apply negb_true_iff in F. rewrite F. simpl.
    destruct (json r); simpl; eauto.
  - eauto.
Qed.

Lemma delete_each_cons (item : JsonValue) (rest : list JsonValue) (total : nat) :
  delete_each (item :: rest) total =
  bind (prop item "id") (fun pipelineId =>
    bind (deletePipeline pipelineId) (fun _ =>
      bind (RemovePipelines.sleep DELAY) (fun _ =>
        delete_each rest (S total)))).
Proof. reflexivity. Qed.

(** The [for] loop over a batch whose deletions all succeed. *)
Lemma delete_each_succeeds (batch : list JsonValue) :
  forall (total : nat) (w w1 : W) (ress : list FetchResult),
    Forall (fun item => item <> JNull) batch ->
    serve (map (removal env) batch) w = (ress, w1) ->
    Forall succeeded ress ->
    exists t,
      run (delete_each batch total) w
      = (Returned (total + length batch)%nat, w1, t) /\
      sent t = map (removal env) batch /\
      received t = ress /\
      wire t = deletions env batch /\
      listing_sizes t = [] /\
      printed t = map (fun item => MsgDeletedPipeline (field "id" item)) batch /\
      errors t = [] /\
      Forall well_answered t.
Proof.
  induction batch as [|item batch IH]; intros total w w1 ress NN Sv OK.
  - simpl in Sv. inversion Sv; subst. exists []. simpl.
    rewrite Nat.add_0_r. repeat split; constructor.
  - simpl in Sv. destruct (handle (removal env item) w) as [res w0] eqn:E.
    destruct (serve (map (removal env) batch) w0) as [ress' w2] eqn:S'.
    inversion Sv; subst. inversion OK; subst. inversion NN; subst.
    destruct (IH (S total) w0 w1 ress' H5 S' H3)
      as (t & R & Hs & Hr & Hw & Hl & Hp & He & Hwa).
    rewrite delete_each_cons. unfold prop.
    rewrite (field_object "id" item H4). cbn [bind].
    rewrite run_bind.
    unfold removal in E.
    rewrite (deletePipeline_succeeds _ _ _ _ E H2). cbn [bind run RemovePipelines.sleep].
    rewrite R.
    replace (total + length (item :: batch))%nat
      with (S total + length batch)%nat by (simpl; lia).
    eexists. split; [reflexivity|].
    destruct res as [r|]; [|discriminate H2].
    simpl. rewrite Hs, Hr, Hw, Hl, Hp, He. repeat split; try reflexivity.
    repeat constructor; try assumption.
    + apply (succeeded_ok r H2).
    + simpl. discriminate.
Qed.

(** The [for] loop stops at the first deletion that fails. *)
Lemma delete_each_fails (done : list JsonValue) (x : JsonValue)
    (todo : list JsonValue) :
  forall (total : nat) (w w1 w2 : W) (ress : list FetchResult) (res : FetchResult),
    Forall (fun item => item <> JNull) (done ++ [x]) ->
    serve (map (removal env) done) w = (ress, w1) ->
    Forall succeeded ress ->
    handle (removal env x) w1 = (res, w2) ->
    failed res = true ->
    exists e t,
      run (delete_each (done ++ x :: todo) total) w = (Raised e, w2, t) /\
      sent t = map (removal env) (done ++ [x]) /\
      received t = ress ++ [res] /\
      wire t = deletions env done ++ [EvSend (removal env x)] /\
      printed t = map (fun item => MsgDeletedPipeline (field "id" item)) done
                  ++ [MsgErrorDeletingPipeline (field "id" x) e] /\
      errors t = [MsgErrorDeletingPipeline (field "id" x) e].
Proof.
  induction done as [|item done IH]; intros total w w1 w2 ress res NN Sv OK E F.
  - simpl in Sv. inversion Sv; subst. clear Sv.
    inversion NN; subst.
    destruct (deletePipeline_fails _ _ _ _ E F) as (e & R).
    exists e. simpl app. rewrite delete_each_cons. unfold prop.
    rewrite (field_object "id" x H2). cbn [bind].
    rewrite run_bind. unfold removal in E. rewrite R.
    eexists. split; [reflexivity|]. simpl. repeat split; reflexivity.
  - simpl in Sv. destruct (handle (removal env item) w) as [res0 w0] eqn:E0.
    destruct (serve (map (removal env) done) w0) as [ress' w3] eqn:S'.
    inversion Sv; subst. inversion OK; subst. inversion NN; subst.
    destruct (IH (S total) w0 w1 w2 ress' res H5 S' H3 E F)
      as (e & t & R & Hs & Hr & Hw & Hp & He).
    exists e. simpl app. rewrite delete_each_cons. unfold prop.
    rewrite (field_object "id" item H4). cbn [bind].
    rewrite run_bind. unfold removal in E0.
    rewrite (deletePipeline_succeeds _ _ _ _ E0 H2). cbn [bind run RemovePipelines.sleep].
    rewrite R. eexists. split; [reflexivity|].
    simpl. rewrite Hs, Hr, Hw, Hp, He. repeat split; reflexivity.
Qed.

(** A listing that the service answers with a JSON array. *)
Lemma fetchPipelines_lists (page : nat) (w w1 : W) (res : FetchResult)
    (items : list JsonValue) :
  handle (list_request page) w = (res, w1) ->
  lists res items ->
  run (fetchPipelines page) w =
  (Returned (JArr items), w1,
   [EvSend (list_request page); EvRecv (list_request page) res]).
Proof.
  intros E (r & -> & Hok & Hj).
  unfold RemovePipelines.fetchPipelines, response_json, mbind, Prog_bind.
  simpl. rewrite E. simpl. rewrite Hok, Hj. reflexivity.
Qed.

(** A listing that the service refuses or never answers. *)
Lemma fetchPipelines_fails (page : nat) (w w1 : W) (res : FetchResult) :
  handle (list_request page) w = (res, w1) ->
  failed res = true ->
  run (fetchPipelines page) w =
  (Raised (listing_error res), w1,
   [EvSend (list_request page); EvRecv (list_request page) res;
    EvLog Error (MsgErrorFetchingPipelines (listing_error res))]).
Proof.
  intros E F.
  unfold RemovePipelines.fetchPipelines, response_json, mbind, Prog_bind.
  simpl. rewrite E. destruct res as [r|]; simpl; [|reflexivity].
  simpl in F. apply negb_true_iff in F. rewrite F. simpl.
  destruct (json r); reflexivity.
Qed.

Lemma pages_step (fuel page total : nat) :
  RemovePipelines.pages env (S fuel) page total =
  Print Info (MsgFetchingPipelinePage page)
    (bind (fetchPipelines page) (fun pipelines =>
       bind (prop pipelines "length") (fun len =>
         if RemovePipelines.is_zero len
         then Print Info MsgNoMorePipelines (Ret total)
         else
           Print Info (MsgFoundPipelines len page)
             (bind (iterable pipelines) (fun items =>
                bind (delete_each items total) (fun totalDeleted' =>
                  if RemovePipelines.is_positive len
                  then RemovePipelines.pages env fuel (S page) totalDeleted'
                  else Ret totalDeleted')))))).
Proof. reflexivity. Qed.

(** The run of the loop over a project that answers page after page until
    an empty one. *)
Lemma pages_conversation (batches : list (list JsonValue)) :
  forall (page total fuel : nat) (w w' : W) (ress : list FetchResult),
    Forall (fun b => b <> [] /\ Forall (fun item => item <> JNull) b) batches ->
    serve (page_requests env page batches) w = (ress, w') ->
    page_answers batches ress ->
    (length batches < fuel)%nat ->
    exists t,
      run (RemovePipelines.pages env fuel page total) w
      = (Returned (total + length (concat batches))%nat, w', t) /\
      sent t = page_requests env page batches /\
      received t = ress /\
      wire t = page_wire env page batches /\
      listing_sizes t = map length batches ++ [0%nat] /\
      errors t = [].
Proof.
  induction batches as [|batch rest IH];
    intros page total fuel w w' ress NE Sv An Fu.
  - destruct fuel as [|fuel]; [simpl in Fu; lia|].
    simpl in Sv. destruct (handle (list_request page) w) as [res w1] eqn:E.
    inversion Sv; subst. destruct An as (l & [= <-] & Hl).
    rewrite pages_step. cbn [run]. rewrite run_bind.
    rewrite (fetchPipelines_lists _ _ _ _ _ E Hl).
    destruct Hl as (r & -> & Hok & Hj).
    simpl. rewrite Nat.add_0_r.
    eexists. split; [reflexivity|]. simpl. rewrite Hj.
    repeat split; reflexivity.
  - destruct fuel as [|fuel]; [simpl in Fu; lia|].
    inversion NE as [|? ? [Hne Hnn] NE']; subst.
    destruct An as (l & ds & more & -> & Hlen & Hl & Hds & Hmore).
    cbn [page_requests] in Sv.
    change (list_request page :: map (removal env) batch
            ++ page_requests env (S page) rest)
      with ([list_request page] ++ (map (removal env) batch
            ++ page_requests env (S page) rest)) in Sv.
    rewrite serve_app in Sv. simpl in Sv.
    destruct (handle (list_request page) w) as [res w1] eqn:E.
    rewrite serve_app in Sv.
    destruct (serve (map (removal env) batch) w1) as [rd w2] eqn:Sd.
    destruct (serve (page_requests env (S page) rest) w2) as [rm w3] eqn:Sm.
    injection Sv as Hres Happ Hw3. subst w3.
    assert (Hsplit : res = l /\ rd = ds /\ rm = more).
    { assert (Lrd : length rd = length batch).
      { clear - Sd. revert w1 rd Sd.
        induction batch as [|b batch IHb]; intros w1 rd Sd; simpl in Sd.
        - inversion Sd; reflexivity.
        - destruct (handle (removal env b) w1) as [r0 w0].
          destruct (serve (map (removal env) batch) w0) as [rs w4] eqn:Sb.
          inversion Sd; subst. simpl. f_equal. eapply IHb; eassumption. }
      apply app_inj_1 in Happ; [|congruence].
      destruct Happ as [-> ->]. repeat split. exact Hres. }
    destruct Hsplit as (-> & -> & ->).
    destruct (delete_each_succeeds batch total w1 w2 ds Hnn Sd Hds)
      as (td & Rd & Hsd & Hrd & Hwd & Hld & Hpd & Hed & _).
    assert (Fu' : (length rest < fuel)%nat) by (simpl in Fu; lia).
    destruct (IH (S page) (total + length batch)%nat fuel w2 w' more NE' Sm Hmore Fu')
      as (tm & Rm & Hsm & Hrm & Hwm & Hlm & Hem).
    rewrite pages_step. cbn [run]. rewrite run_bind.
    rewrite (fetchPipelines_lists _ _ _ _ _ E Hl).
    destruct Hl as (r & -> & Hok & Hj).
    assert (Hz : RemovePipelines.is_zero (Some (JNum (Z.of_nat (length batch)))) = false).
    { simpl. apply Z.eqb_neq. destruct batch; [congruence|simpl; lia]. }
    assert (Hp : RemovePipelines.is_positive (Some (JNum (Z.of_nat (length batch)))) = true).
    { simpl. apply Z.ltb_lt. destruct batch; [congruence|simpl; lia]. }
    unfold prop, iterable. cbn [get_prop iterate String.eqb Ascii.eqb Bool.eqb bind].
    simpl String.eqb. cbn [bind]. rewrite Hz. cbn [run bind].
    rewrite run_bind. rewrite Rd. rewrite Hp. rewrite Rm.
    eexists. split.
    { simpl concat. rewrite length_app, Nat.add_assoc. reflexivity. }
    simpl. rewrite Hj.
    rewrite !sent_app, !received_app, !wire_app, !listing_sizes_app, !errors_app.
    rewrite Hsd, Hrd, Hwd, Hld, Hed, Hsm, Hrm, Hwm, Hlm, Hem.
    repeat split; reflexivity.
Qed.

End PipelineFacts.

Lemma count_method_app (m : Method) (a b : list Request) :
  count_method m (a ++ b) = (count_method m a + count_method m b)%nat.
Proof. unfold count_method. rewrite List.filter_app, length_app. reflexivity. Qed.

Lemma count_removals (env : RemovePipelines.Env) (batch : list JsonValue) :
  count_method DELETE (map (removal env) batch) = length batch /\
  count_method GET (map (removal env) batch) = 0%nat.
Proof.
  unfold count_method.
  induction batch as [|item batch [IHd IHg]]; simpl; [split; reflexivity|].
  rewrite IHd, IHg. split; reflexivity.
Qed.

(** C3.  The script against a project that holds exactly 25 pipelines and
    loses each pipeline deleted, with a batch size of 20: the first list
    page holds 20 pipelines, which are deleted; the script then asks for
    page 2 of the 5 pipelines left, which is empty, and stops.  Two list
    pages are fetched, of 20 and of 0 pipelines, 20 delete requests are
    sent instead of 25, the pipelines 21 to 25 are still there, and the
    script reports 20 deletions and exits with status 0, although it is
    written to delete all the pipelines of the project. *)
Theorem live_project_keeps_five :
  let '(o, remaining, t) :=
    @run _ (Examples.live_project Examples.project25) _
      (RemovePipelines.script Examples.project25 10) Examples.ids25 in
  o = Returned 0 /\ remaining = [21; 22; 23; 24; 25] /\
  length Examples.ids25 = 25%nat /\
  listing_sizes t = [20; 0]%nat /\
  List.filter (Observed.is_method GET) (sent t)
  = [RemovePipelines.list_request Examples.project25 1;
     RemovePipelines.list_request Examples.project25 2] /\
  List.filter (Observed.is_method DELETE) (sent t)
  = map (fun id => removal Examples.project25 (Examples.pipeline id))
      (take 20 Examples.ids25) /\
  count_method DELETE (sent t) = 20%nat /\
  ~ two_pages_of_20_and_5 t /\
  last (printed t) = Some (MsgDeletedTotal 20 "42").
Proof.
  vm_compute. repeat split; try reflexivity.
  intros [Hl _]. discriminate Hl.
Qed.

(** While every deletion succeeds, each is followed by the pause. *)
Lemma pause_follows_deletions (env : RemovePipelines.Env)
    (batch : list JsonValue) (rest : list Event) :
  pause_follows_each_deletion (RemovePipelines.DELAY_MS env)
    (deletions env batch ++ rest)
  = pause_follows_each_deletion (RemovePipelines.DELAY_MS env) rest.
Proof.
  induction batch as [|item batch IH]; [reflexivity|].
  cbn [deletions flat_map app pause_follows_each_deletion removal method
       RemovePipelines.delete_request].
  rewrite Z.eqb_refl. exact IH.
Qed.

(** C5 as it is written fails on its last clause: the deletion of the
    second of three pipelines is answered with status 500, and no pause
    follows that call.  When every deletion succeeds, each one is followed
    by the pause. *)
Lemma pause_after_failed_deletion_counterexample :
  let failing := [Examples.reply 200 (JArr (map Examples.pipeline [7; 8; 9]));
                  Examples.reply 204 JNull; Examples.reply 500 JNull] in
  pause_follows_each_deletion (RemovePipelines.DELAY_MS Examples.project25)
    (wire (run (RemovePipelines.script Examples.project25 1) failing).2)
  = false /\
  pause_follows_each_deletion (RemovePipelines.DELAY_MS Examples.project25)
    (wire (run (RemovePipelines.script Examples.project25 3)
             Examples.snapshot25).2)
  = true.
Proof. split; vm_compute; reflexivity. Qed.

(* ================================================================== *)
(** ** remove-pipelines.ts: the exit status                            *)
(* ================================================================== *)

Lemma well_answered_succeeded (req : Request) (res : FetchResult) :
  well_answered (EvRecv req res) -> failed res = false.
Proof.
  destruct res as [r|]; simpl; [|tauto]. intros [-> _]. reflexivity.
Qed.

Lemma well_answered_app (a b : list Event) :
  Forall well_answered (a ++ b) ->
  Forall well_answered a /\ Forall well_answered b.
Proof. apply Forall_app. Qed.

Section PipelineVerdicts.
Context {W : Type} `{Backend W}.
Variable env : RemovePipelines.Env.

Abbreviation delete_request := (RemovePipelines.delete_request env).
Abbreviation deletePipeline := (RemovePipelines.deletePipeline env).
Abbreviation delete_each := (RemovePipelines.delete_each env).
Abbreviation list_request := (RemovePipelines.list_request env).
Abbreviation fetchPipelines := (RemovePipelines.fetchPipelines env).

(** The loop over a batch ends; it returns only if every deletion
    succeeded, and it does return when every answer is a success. *)
Lemma delete_each_verdict (batch : list JsonValue) :
  forall (total : nat) (w : W),
    let '(o, w', t) := run (delete_each batch total) w in
    o <> Unfinished /\
    ((exists n, o = Returned n) -> Forall succeeded (received t)) /\
    (Forall (fun item => item <> JNull) batch ->
     Forall well_answered t -> exists n, o = Returned n).
Proof.
  induction batch as [|item batch IH]; intros total w.
  - simpl. repeat split; [discriminate|constructor|eauto].
  - rewrite (delete_each_cons env). unfold prop.
    destruct (get_prop item "id") as [id|] eqn:G.
    2:{ simpl. repeat split; [discriminate|intros [n C]; discriminate C|].
        intros NN _. inversion NN; subst. destruct item; try congruence;
          simpl in G; discriminate G. }
    cbn [bind]. rewrite run_bind.
    destruct (handle (delete_request id) w) as [res w1] eqn:E.
    destruct (failed res) eqn:F.
    + destruct (deletePipeline_fails env id w w1 res E F) as (e & ->).
      repeat split; [discriminate|intros [n C]; discriminate C|].
      intros _ WA. inversion WA as [|? ? _ WA1]; subst.
      inversion WA1 as [|? ? Hr _]; subst.
      apply well_answered_succeeded in Hr. congruence.
    + rewrite (deletePipeline_succeeds env id w w1 res E F).
      cbn [bind run RemovePipelines.sleep].
      specialize (IH (S total) w1).
      destruct (run (delete_each batch (S total)) w1) as [[o w2] t].
      destruct IH as (NU & Ha & Hb).
      repeat split; [exact NU| |].
      * intros Hn. simpl. constructor; [exact F|]. apply Ha, Hn.
      * intros NN WA. inversion NN; subst. apply Hb; [assumption|].
        simpl in WA. inversion WA as [|? ? _ WA1]; subst.
        inversion WA1 as [|? ? _ WA2]; subst.
        inversion WA2 as [|? ? _ WA3]; subst.
        inversion WA3 as [|? ? _ WA4]; subst. exact WA4.
Qed.

(** A listing answered with a success and a body that parses. *)
Lemma fetchPipelines_returns (page : nat) (w w1 : W) (r : Response)
    (v : JsonValue) :
  handle (list_request page) w = (Resolved r, w1) ->
  ok r = true -> json r = Some v ->
  run (fetchPipelines page) w =
  (Returned v, w1,
   [EvSend (list_request page); EvRecv (list_request page) (Resolved r)]).
Proof.
  intros E Hok Hj.
  unfold RemovePipelines.fetchPipelines, response_json, mbind, Prog_bind.
  simpl. rewrite E. simpl. rewrite Hok, Hj. reflexivity.
Qed.

(** A listing answered with a success whose body does not parse. *)
Lemma fetchPipelines_garbled (page : nat) (w w1 : W) (r : Response) :
  handle (list_request page) w = (Resolved r, w1) ->
  ok r = true -> json r = None ->
  run (fetchPipelines page) w =
  (Raised SyntaxError, w1,
   [EvSend (list_request page); EvRecv (list_request page) (Resolved r);
    EvLog Error (MsgErrorFetchingPipelines SyntaxError)]).
Proof.
  intros E Hok Hj.
  unfold RemovePipelines.fetchPipelines, response_json, mbind, Prog_bind.
  simpl. rewrite E. simpl. rewrite Hok, Hj. reflexivity.
Qed.

Lemma well_answered_listing (page : nat) (r : Response) (v : JsonValue) :
  well_answered (EvRecv (list_request page) (Resolved r)) ->
  json r = Some v ->
  exists items, v = JArr items /\ Forall (fun item => item <> JNull) items.
Proof.
  intros [_ Hg] Hj. destruct (Hg eq_refl) as (items & Hj' & Ho).
  exists items. split; [congruence|].
  eapply Forall_impl; [exact Ho|]. apply is_object_not_null.
Qed.

(** The loop over the pages raises as soon as a call fails, and does not
    raise when every answer is a success carrying what it should. *)
Lemma pages_verdict (fuel : nat) :
  forall (page total : nat) (w : W),
    let '(o, w', t) := run (RemovePipelines.pages env fuel page total) w in
    ((forall e, o <> Raised e) -> Forall succeeded (received t)) /\
    (Forall well_answered t -> forall e, o <> Raised e).
Proof.
  induction fuel as [|fuel IH]; intros page total w.
  - simpl. split; [constructor|discriminate].
  - rewrite (pages_step env). cbn [run]. rewrite run_bind.
    destruct (handle (list_request page) w) as [res w1] eqn:E.
    destruct (failed res) eqn:F.
    { rewrite (fetchPipelines_fails env page w w1 res E F).
      split; [intros C; exfalso; eapply C; reflexivity|].
      intros WA. inversion WA as [|? ? _ WA1]; subst.
      inversion WA1 as [|? ? _ WA2]; subst.
      inversion WA2 as [|? ? Hr _]; subst.
      apply well_answered_succeeded in Hr. congruence. }
    destruct res as [r|]; [|discriminate F].
    assert (Hok : ok r = true) by (apply succeeded_ok; exact F).
    destruct (json r) as [v|] eqn:J.
    2:{ rewrite (fetchPipelines_garbled page w w1 r E Hok J).
        split; [intros C; exfalso; eapply C; reflexivity|].
        intros WA. inversion WA as [|? ? _ WA1]; subst.
        inversion WA1 as [|? ? _ WA2]; subst.
        inversion WA2 as [|? ? Hr _]; subst. destruct Hr as [_ Hr].
        destruct (Hr eq_refl) as (items & C & _). congruence. }
    rewrite (fetchPipelines_returns page w w1 r v E Hok J).
    assert (Shape : forall t',
               Forall well_answered
                 (EvLog Info (MsgFetchingPipelinePage page)
                  :: [EvSend (list_request page);
                      EvRecv (list_request page) (Resolved r)] ++ t') ->
               (exists items, v = JArr items /\
                              Forall (fun item => item <> JNull) items) /\
               Forall well_answered t').
    { intros t' WA. inversion WA as [|? ? _ WA1]; subst.
      inversion WA1 as [|? ? _ WA2]; subst.
      inversion WA2 as [|? ? Hr WA3]; subst.
      split; [eapply well_answered_listing; eassumption|exact WA3]. }
    unfold prop. destruct (get_prop v "length") as [len|] eqn:L.
    2:{ simpl. split; [intros C; exfalso; eapply C; reflexivity|].
        intros WA. destruct (Shape [] WA) as [(items & -> & _) _].
        discriminate L. }
    cbn [bind]. destruct (RemovePipelines.is_zero len) eqn:Z.
    { simpl. split; [intros _; repeat constructor; exact F|discriminate]. }
    cbn [run]. unfold iterable.
    destruct (iterate v) as [items|] eqn:I.
    2:{ simpl. split; [intros C; exfalso; eapply C; reflexivity|].
        intros WA.
        destruct (Shape [EvLog Info (MsgFoundPipelines len page)] WA)
          as [(items & -> & _) _].
        discriminate I. }
    cbn [bind]. rewrite run_bind.
    pose proof (delete_each_verdict items total w1) as V.
    destruct (run (delete_each items total) w1) as [[od wd] td].
    destruct V as (NU & Va & Vb).
    destruct od as [n|e|]; [| |congruence].
    + destruct (RemovePipelines.is_positive len).
      * specialize (IH (S page) n wd).
        destruct (run (RemovePipelines.pages env fuel (S page) n) wd)
          as [[op wp] tp].
        destruct IH as [Ia Ib]. split.
        -- intros NR. simpl. constructor; [exact F|].
           rewrite received_app. apply Forall_app. split; [eauto|auto].
        -- intros WA.
           destruct (Shape (EvLog Info (MsgFoundPipelines len page) :: td ++ tp) WA)
             as [_ WA'].
           inversion WA' as [|? ? _ WA'']; subst.
           apply well_answered_app in WA'' as [_ WAp]. auto.
      * simpl. split; [|discriminate].
        intros _. constructor; [exact F|]. rewrite app_nil_r. eauto.
    + split; [intros C; exfalso; eapply C; reflexivity|].
      intros WA.
      destruct (Shape (EvLog Info (MsgFoundPipelines len page) :: td) WA)
        as [(items' & -> & NN) WA'].
      simpl in I. injection I as <-.
      inversion WA' as [|? ? _ WA'']; subst.
      destruct (Vb NN WA'') as [n C]. discriminate C.
Qed.

(** The exit status of the script: 1 as soon as a call fails, 0 when the
    loop comes to its end over answers that are all successes. *)
Lemma pipelines_exit_status (fuel : nat) (w : W) :
  let '(o, w', t) := run (RemovePipelines.script env fuel) w in
  (Exists (fun res => failed res = true) (received t) -> o = Returned 1) /\
  (Forall well_answered t -> o = Returned 0 \/ o = Unfinished).
Proof.
  unfold RemovePipelines.script, RemovePipelines.main, mbind, Prog_bind.
  cbn [run try_catch]. rewrite run_try_catch, run_bind.
  pose proof (pages_verdict fuel 1 0 w) as V.
  destruct (run (RemovePipelines.pages env fuel 1 0) w) as [[o w'] t].
  destruct V as [Va Vb].
  destruct o as [n|e|]; simpl.
  - split; [|auto]. intros Ex. exfalso.
    rewrite received_app, app_nil_r in Ex.
    assert (OKs : Forall succeeded (received t)) by (apply Va; discriminate).
    apply Exists_exists in Ex as (res & Hin & Hf).
    rewrite Forall_forall in OKs. specialize (OKs res Hin).
    unfold succeeded in OKs. congruence.
  - split; [reflexivity|]. intros WA. exfalso.
    inversion WA as [|? ? _ WA1]; subst. inversion WA1 as [|? ? _ WA2]; subst.
    inversion WA2 as [|? ? _ WA3]; subst. inversion WA3 as [|? ? _ WA4]; subst.
    apply well_answered_app in WA4 as [WAt _].
    eapply Vb; [exact WAt|reflexivity].
  - split; [|auto]. intros Ex. exfalso.
    assert (OKs : Forall succeeded (received t)) by (apply Va; discriminate).
    apply Exists_exists in Ex as (res & Hin & Hf).
    rewrite Forall_forall in OKs. specialize (OKs res Hin).
    unfold succeeded in OKs. congruence.
Qed.

End PipelineVerdicts.

(* ================================================================== *)
(** ** remove-env-vars.ts: the paginated listing                       *)
(* ================================================================== *)

Import VariableRuns.

Lemma concat_chunks {A : Type} (fuel size : nat) (items : list A) :
  (1 <= size)%nat -> (length items <= fuel)%nat ->
  concat (chunks fuel size items) = items.
Proof.
  intros Hs. revert items.
  induction fuel as [|fuel IH]; intros items Hl.
  - destruct items; [reflexivity|simpl in Hl; lia].
  - destruct items as [|a items]; [reflexivity|].
    cbn [chunks concat]. rewrite IH.
    + apply take_drop.
    + rewrite length_drop. simpl in *. lia.
Qed.

(** The pages of a collection, read one after the other, are the
    collection. *)
Lemma concat_paginate {A : Type} (size : nat) (items : list A) :
  (1 <= size)%nat -> concat (paginate size items) = items.
Proof.
  intros Hs. destruct items as [|a items]; [reflexivity|].
  apply concat_chunks; [exact Hs|reflexivity].
Qed.

Lemma paginate_nonempty {A : Type} (size : nat) (items : list A) :
  paginate size items <> [].
Proof. destruct items; discriminate. Qed.

Section ListingFacts.
Context `{Runtime} {W : Type} `{Backend W}.
Variable env : RemoveEnvVars.Env.

Abbreviation page_request := (RemoveEnvVars.page_request env).
Abbreviation fetch_pages := (RemoveEnvVars.fetch_pages env).

Lemma fetch_pages_step (fuel page : nat) (allVariables : list JsonValue) :
  fetch_pages (S fuel) page allVariables =
  Print Info (MsgFetchingPage page)
    (bind (fetch (page_request page)) (fun response =>
       if negb (ok response)
       then Throw (FailedToFetchVariables (status response)
                     (statusText response) (text response))
       else
         bind (response_json response) (fun variables =>
           bind (iterable variables) (fun items =>
             if RemoveEnvVars.hasMorePages page (RemoveEnvVars.totalPages response)
             then fetch_pages fuel (S page) (allVariables ++ items)
             else Ret (allVariables ++ items))))).
Proof. reflexivity. Qed.

(** The loop over a service that answers page after page. *)
Lemma fetch_pages_conversation (pages : list (list JsonValue)) :
  forall (page fuel : nat) (acc : list JsonValue) (total : Z) (w w' : W)
         (ress : list FetchResult),
    pages <> [] ->
    total <= Z.of_nat (page + length pages - 1) ->
    ((2 <= length pages)%nat -> Z.of_nat (page + length pages - 1) <= total) ->
    serve (map page_request (seq page (length pages))) w = (ress, w') ->
    listing_answers total pages ress ->
    (length pages <= fuel)%nat ->
    exists t,
      run (fetch_pages fuel page acc) w = (Returned (acc ++ concat pages), w', t) /\
      sent t = map page_request (seq page (length pages)) /\
      received t = ress /\
      errors t = [].
Proof.
  induction pages as [|p pages IH];
    intros page fuel acc total w w' ress NE Hle Hge Sv An Fu; [congruence|].
  destruct fuel as [|fuel]; [simpl in Fu; lia|].
  cbn [length seq map serve] in Sv.
  destruct (handle (page_request page) w) as [res w1] eqn:E.
  destruct (serve (map page_request (seq (S page) (length pages))) w1)
    as [ress' w2] eqn:Sv'.
  injection Sv as <- <-.
  cbn [listing_answers] in An. destruct An as [(r & -> & Hok & Hj & Ht) An'].
  rewrite fetch_pages_step. unfold fetch, response_json, iterable.
  cbn [run bind]. rewrite E. cbn [bind]. rewrite Hok. cbn [negb].
  rewrite Hj. cbn [bind iterate]. rewrite Ht.
  destruct pages as [|p' pages].
  - simpl in Sv'. injection Sv' as <- <-.
    assert (Hm : RemoveEnvVars.hasMorePages page (Some total) = false).
    { simpl. apply Z.ltb_ge. simpl in Hle. lia. }
    rewrite Hm. simpl. rewrite app_nil_r.
    eexists. repeat split; reflexivity.
  - assert (Hm : RemoveEnvVars.hasMorePages page (Some total) = true).
    { simpl. apply Z.ltb_lt. cbn [length] in Hge. lia. }
    rewrite Hm.
    destruct (IH (S page) fuel (acc ++ p) total w1 w2 ress')
      as (t & R & Hs & Hr & He); try assumption.
    + discriminate.
    + cbn [length] in *. lia.
    + cbn [length] in *. intros. lia.
    + cbn [length] in *. lia.
    + rewrite R. eexists. split.
      { cbn [concat]. rewrite <- app_assoc. reflexivity. }
      cbn [sent received errors length seq map].
      rewrite Hs, Hr, He. repeat split; reflexivity.
Qed.

(** The header that announces the number of pages is what [totalPages]
    reads. *)
Lemma announced_total (total : Z) (r : Response) :
  Stated.announces total (Resolved r) ->
  RemoveEnvVars.totalPages r = Some total.
Proof.
  intros (r' & s & [= <-] & Hx & Hs & Hp).
  unfold RemoveEnvVars.totalPages. rewrite Hx.
  destruct (String.eqb s "") eqn:E; [|exact Hp].
  apply String.eqb_eq in E. contradiction.
Qed.

Lemma stated_listing_answers (total : Z) (pages : list (list JsonValue))
    (ress : list FetchResult) :
  Forall2 Stated.hands_over pages ress ->
  Forall (Stated.announces total) ress ->
  listing_answers total pages ress.
Proof.
  induction 1 as [|page res pages ress (r & -> & Hok & Hj) _ IH];
    intros An; [exact Logic.I|].
  inversion An as [|? ? A An']; subst.
  cbn [listing_answers]. split; [|apply IH; exact An'].
  exists r. repeat split; try assumption. apply announced_total. exact A.
Qed.

(** The script asks for a page as the API has it. *)
Lemma page_request_stated (page : nat) :
  page_request page = Stated.variables_page env page.
Proof. reflexivity. Qed.

(** C6, as amended.  A collection of N items handed out in pages of
    P >= 1 items, by a service that answers the request for every page
    with a success carrying that page and announces the number of pages in
    the header [x-total-pages], is returned by the lister whole and in
    order: page after page, and within a page as the page has it.  The
    lister asks for the pages 1, 2, ... there are, one request each, with
    the page number in the query; for N = 0 that is the first page alone,
    and the result is empty. *)
Theorem lister_returns_collection (w w' : W) (items : list JsonValue)
    (size : nat) (total : Z) (ress : list FetchResult) (fuel : nat) :
  (1 <= size)%nat ->
  Z.max 1 total = Z.of_nat (length (paginate size items)) ->
  serve (map (Stated.variables_page env) (seq 1 (length (paginate size items)))) w
  = (ress, w') ->
  Forall2 Stated.hands_over (paginate size items) ress ->
  Forall (Stated.announces total) ress ->
  (length (paginate size items) <= fuel)%nat ->
  exists o t,
    run (RemoveEnvVars.fetchEnvironmentVariables env fuel) w = (o, w', t) /\
    Stated.returns_collection o (paginate size items) /\
    o = Returned items /\
    sent t = map (Stated.variables_page env)
               (seq 1 (length (paginate size items))) /\
    received t = ress /\
    (items = [] -> sent t = [Stated.variables_page env 1]) /\
    errors t = [].
Proof.
  intros Hs Ht Sv Ho An Fu.
  destruct (fetch_pages_conversation (paginate size items) 1 fuel [] total
              w w' ress)
    as (t & R & Hsent & Hr & He); try assumption.
  - apply paginate_nonempty.
  - lia.
  - intros. lia.
  - apply stated_listing_answers; assumption.
  - unfold RemoveEnvVars.fetchEnvironmentVariables, mbind, Prog_bind.
    cbn [run]. rewrite run_try_catch, run_bind, R.
    eexists _, _. split; [reflexivity|].
    cbn [app sent received errors].
    rewrite !sent_app, !received_app, !errors_app, Hsent, Hr, He.
    cbn [sent received errors]. rewrite !app_nil_r.
    unfold Stated.returns_collection.
    rewrite concat_paginate by exact Hs.
    repeat split; try reflexivity.
    intros ->. reflexivity.
Qed.





End ListingFacts.

Lemma lister_returns_collection_witness :
  let items := [Examples.variable "A" "production";
                Examples.variable "B" "production";
                Examples.variable "C" "production"] in
  let w := [Examples.reply_page "2" (take 2 items);
            Examples.reply_page "2" (drop 2 items)] in
  exists t,
    run (RemoveEnvVars.fetchEnvironmentVariables Examples.production 2) w
    = (Returned items, [], t) /\
    sent t = [Stated.variables_page Examples.production 1;
              Stated.variables_page Examples.production 2].
Proof.
  intros items w.
  destruct (lister_returns_collection Examples.production w [] items 2 2 w 2)
    as (o & t & R & _ & -> & Hs & _).
  - lia.
  - reflexivity.
  - reflexivity.
  - repeat constructor; eexists; repeat split; reflexivity.
  - repeat constructor; eexists _, _; repeat split; try reflexivity; discriminate.
  - simpl. lia.
  - exists t. split; [exact R|]. rewrite Hs. reflexivity.
Defined.

(** C6 as it is written fails: a service hands out a collection of three
    variables in pages of two and answers the request for a page with a
    success carrying that page, without the header [x-total-pages].  The
    lister asks for the first page only and returns its two variables. *)
Lemma lister_returns_collection_counterexample :
  let items := [Examples.variable "A" "production";
                Examples.variable "B" "production";
                Examples.variable "C" "production"] in
  let pages := paginate 2 items in
  let remote := map (fun page => Examples.reply 200 (JArr page)) pages in
  pages = [take 2 items; drop 2 items] /\
  Forall2 Stated.hands_over pages remote /\
  let '(o, _, t) :=
    run (RemoveEnvVars.fetchEnvironmentVariables Examples.production 5) remote in
  o = Returned (take 2 items) /\
  sent t = [Stated.variables_page Examples.production 1] /\
  ~ Stated.returns_collection o pages.
Proof.
  intros items pages remote. split; [reflexivity|]. split.
  - repeat constructor; eexists; repeat split; reflexivity.
  - vm_compute. repeat split; try reflexivity. discriminate.
Qed.


(* ================================================================== *)
(** ** remove-env-vars.ts: the deletions and the summary               *)
(* ================================================================== *)

Section DispatchFacts.
Context {W : Type} `{Backend W}.

(** A turn of the event loop over promises that all settle on arrival. *)
Lemma round_settles {A : Type} (ts : list (Task A))
    (ps : list (Outcome A * list Event)) (w : W) :
  Forall2 (fun t p => settles_with t p.1 p.2) ts ps ->
  round ts w = (map (fun p => Settled p.1) ps, w, concat (map snd ps)).
Proof.
  induction 1 as [|t p ts ps [_ Ht] _ IH]; [reflexivity|].
  cbn [round]. rewrite Ht, IH. reflexivity.
Qed.

Lemma outcomes_settled {A : Type} (os : list (Outcome A)) :
  outcomes (map Settled os) = Some os.
Proof.
  induction os as [|o os IH]; [reflexivity|].
  cbn [map outcomes settled]. rewrite IH. reflexivity.
Qed.

(** When the answers come in in order, such promises have all settled
    after one turn. *)
Lemma allSettled_parked_in_order {A : Type} (ts : list (Task A))
    (ps : list (Outcome A * list Event)) (w : W) :
  Forall2 (fun t p => settles_with t p.1 p.2) ts ps ->
  allSettled (in_order 1 (length ts)) ts w
  = Some (map fst ps, w, concat (map snd ps)).
Proof.
  intros F2. rewrite allSettled_in_order, (round_settles ts ps w F2).
  unfold in_order. cbn [repeat concat allSettled].
  rewrite <- (map_map fst Settled), outcomes_settled, app_nil_r.
  reflexivity.
Qed.

Lemma owed_parked {A : Type} (ts : list (Task A))
    (ps : list (Outcome A * list Event)) :
  Forall2 (fun t p => settles_with t p.1 p.2) ts ps ->
  owed ts ps = concat (map snd ps) /\
  Forall2 parked_or_done ts ps.
Proof.
  induction 1 as [|t p ts ps Ht _ [IHo IHf]]; [split; constructor|].
  cbn [owed map concat]. destruct Ht as [Hn Hr]. rewrite Hn, IHo.
  split; [reflexivity|]. constructor; [left; split; assumption|exact IHf].
Qed.

Lemma outcomes_done {A : Type} (ts : list (Task A))
    (ps : list (Outcome A * list Event)) (os : list (Outcome A)) :
  Forall2 parked_or_done ts ps ->
  outcomes ts = Some os ->
  os = map fst ps /\ owed ts ps = [].
Proof.
  intros F2. revert os.
  induction F2 as [|t p ts ps Ht _ IH]; intros os Ho.
  - injection Ho as <-. split; reflexivity.
  - cbn [outcomes] in Ho. destruct (settled t) as [o|] eqn:St; [|discriminate].
    destruct (outcomes ts) as [os'|]; [|discriminate]. injection Ho as <-.
    destruct (IH os' eq_refl) as [-> Hw].
    destruct Ht as [[Hn _]| ->]; [congruence|].
    injection St as <-. cbn [owed settled map]. split; [reflexivity|exact Hw].
Qed.

(** An arrival settles the promise it is for and leaves the others. *)
Lemma arrive_parked {A : Type} (ts : list (Task A))
    (ps : list (Outcome A * list Event)) :
  Forall2 parked_or_done ts ps ->
  forall (i : nat) (w : W),
    exists ts' ev,
      arrive i ts w = (ts', w, ev) /\
      Forall2 parked_or_done ts' ps /\
      Permutation (ev ++ owed ts' ps) (owed ts ps).
Proof.
  induction 1 as [|t p ts ps Ht F2 IH]; intros i w.
  - exists [], []. repeat split; constructor.
  - destruct i as [|i]; cbn [arrive].
    + destruct Ht as [[Hn Hr]| ->].
      * rewrite Hr. eexists _, _. split; [reflexivity|].
        split; [constructor; [right; reflexivity|exact F2]|].
        cbn [owed settled]. rewrite Hn. reflexivity.
      * cbn [resume]. eexists _, _. split; [reflexivity|].
        split; [constructor; [right; reflexivity|exact F2]|].
        reflexivity.
    + destruct (IH i w) as (ts' & ev & -> & F2' & Hp).
      eexists _, _. split; [reflexivity|].
      split; [constructor; assumption|].
      cbn [owed]. destruct (settled t); [exact Hp|].
      rewrite <- Hp, !app_assoc. apply Permutation_app_tail.
      apply Permutation_app_comm.
Qed.

(** Whatever the order of the arrivals, once all have settled the
    outcomes are those the promises were parked on, the service has not
    been asked anything more, and what was owed has been shown. *)
Lemma allSettled_parked {A : Type} (arrivals : list nat) :
  forall (ts : list (Task A)) (ps : list (Outcome A * list Event)) (w w' : W)
         (os : list (Outcome A)) (ev : list Event),
    Forall2 parked_or_done ts ps ->
    allSettled arrivals ts w = Some (os, w', ev) ->
    os = map fst ps /\ w' = w /\ Permutation ev (owed ts ps).
Proof.
  induction arrivals as [|i later IH]; intros ts ps w w' os ev F2 Ha;
    cbn [allSettled] in Ha; destruct (outcomes ts) as [os0|] eqn:Ho.
  - injection Ha as <- <- <-. destruct (outcomes_done ts ps os0 F2 Ho) as [-> ->].
    repeat split; constructor.
  - discriminate Ha.
  - injection Ha as <- <- <-. destruct (outcomes_done ts ps os0 F2 Ho) as [-> ->].
    repeat split; constructor.
  - destruct (arrive_parked ts ps F2 i w) as (ts' & ev1 & Ar & F2' & Hp).
    rewrite Ar in Ha.
    destruct (allSettled later ts' w) as [[[os1 w1] ev2]|] eqn:Ha'; [|discriminate].
    injection Ha as <- <- <-.
    destruct (IH ts' ps w w1 os1 ev2 F2' Ha') as (-> & -> & Hp2).
    repeat split. rewrite <- Hp. apply Permutation_app_head. exact Hp2.
Qed.

End DispatchFacts.

Section RemovalFacts.
Context `{Runtime} {W : Type} `{Backend W}.
Variable env : RemoveEnvVars.Env.

Abbreviation delete_request := (RemoveEnvVars.delete_request env).
Abbreviation deleteVariable := (RemoveEnvVars.deleteVariable env).
Abbreviation start_deletes := (RemoveEnvVars.start_deletes env).

(** Calling [deleteVariable]: the request leaves, and the promise settles
    when the answer arrives. *)
Lemma advance_deleteVariable (key : option JsonValue) (w w1 : W)
    (res : FetchResult) :
  handle (delete_request key) w = (res, w1) ->
  exists task,
    advance (deleteVariable key) w
    = (task, w1, [EvLog Info (MsgDeletingVariable key);
                  EvSend (delete_request key)]) /\
    settles_with task (delete_outcome key res) (delete_events env key res).
Proof.
  intros E. unfold RemoveEnvVars.deleteVariable, fetch, mbind, Prog_bind.
  cbn [advance try_catch bind]. rewrite E.
  eexists. split; [reflexivity|]. split; [reflexivity|].
  intros w'. unfold delete_events, delete_outcome.
  destruct res as [r|]; cbn [resume advance try_catch bind];
    [destruct (ok r)|]; reflexivity.
Qed.

Lemma start_deletes_spec (variables : list JsonValue) :
  forall (w w' : W) (ress : list FetchResult),
    Forall (fun variable => variable <> JNull) variables ->
    serve (map (removal env) variables) w = (ress, w') ->
    exists tasks ev,
      start_deletes variables w = (Some tasks, w', ev) /\
      Forall2 (fun t p => settles_with t p.1 p.2) tasks (parked env variables ress) /\
      length tasks = length variables /\
      sent ev = map (removal env) variables /\
      received ev = [] /\
      printed ev = map (fun variable => MsgDeletingVariable (field "key" variable))
                       variables /\
      errors ev = [].
Proof.
  induction variables as [|variable variables IH]; intros w w' ress NN Sv.
  - simpl in Sv. injection Sv as <- <-. exists [], [].
    repeat split; constructor.
  - cbn [map serve] in Sv.
    destruct (handle (removal env variable) w) as [res w1] eqn:E.
    destruct (serve (map (removal env) variables) w1) as [ress' w2] eqn:Sv'.
    injection Sv as <- <-. inversion NN as [|? ? Hv NN']; subst.
    destruct (IH w1 w2 ress' NN' Sv')
      as (tasks & ev & St & F2 & Hlt & Hs & Hr & Hp & He).
    destruct (advance_deleteVariable (field "key" variable) w w1 res E)
      as (task & Ad & Hset).
    exists (task :: tasks). eexists.
    cbn [RemoveEnvVars.start_deletes].
    rewrite (field_object "key" variable Hv), Ad, St. cbn [option_map].
    split; [reflexivity|]. split; [constructor; assumption|].
    split; [simpl; congruence|].
    cbn [app sent received printed errors map].
    rewrite Hs, Hr, Hp, He. repeat split; reflexivity.
Qed.

Lemma start_deletes_some (variables : list JsonValue) :
  forall (w : W) tasks w' ev,
    start_deletes variables w = (Some tasks, w', ev) ->
    Forall (fun variable => variable <> JNull) variables.
Proof.
  induction variables as [|variable variables IH]; intros w tasks w' ev St;
    [constructor|].
  cbn [RemoveEnvVars.start_deletes] in St.
  destruct (get_prop variable "key") as [key|] eqn:G; [|discriminate St].
  destruct (advance (deleteVariable key) w) as [[t w1] ev1].
  destruct (start_deletes variables w1) as [[started w2] ev2] eqn:St'.
  destruct started as [tasks'|]; [|discriminate St].
  constructor; [|eapply IH; exact St'].
  intros ->. discriminate G.
Qed.

Lemma serve_length (reqs : list Request) :
  forall (w w' : W) (ress : list FetchResult),
    serve reqs w = (ress, w') -> length ress = length reqs.
Proof.
  induction reqs as [|req reqs IH]; intros w w' ress Sv; simpl in Sv.
  - injection Sv as <- _. reflexivity.
  - destruct (handle req w) as [res w1].
    destruct (serve reqs w1) as [ress' w2] eqn:Sv'.
    injection Sv as <- _. simpl. f_equal. eapply IH. exact Sv'.
Qed.

Lemma parked_cons (variable : JsonValue) (variables : list JsonValue)
    (res : FetchResult) (ress : list FetchResult) :
  parked env (variable :: variables) (res :: ress)
  = (delete_outcome (field "key" variable) res,
     delete_events env (field "key" variable) res)
    :: parked env variables ress.
Proof. reflexivity. Qed.

(** What the parked promises show and how they settle, in terms of the
    answers. *)
Lemma parked_facts (variables : list JsonValue) :
  forall ress : list FetchResult,
    length ress = length variables ->
    let ps := parked env variables ress in
    sent (concat (map snd ps)) = [] /\
    received (concat (map snd ps)) = ress /\
    length (List.filter RemoveEnvVars.fulfilled (map fst ps))
    = length (List.filter (fun res => negb (failed res)) ress) /\
    length (List.filter RemoveEnvVars.rejected (map fst ps))
    = length (List.filter failed ress).
Proof.
  induction variables as [|variable variables IH]; intros [|res ress] Hl;
    try discriminate Hl; [repeat split|].
  injection Hl as Hl. destruct (IH ress Hl) as (Hs & Hr & Hf & Hj).
  cbv zeta. rewrite parked_cons. cbn [map concat fst snd].
  rewrite sent_app, received_app, Hs, Hr.
  split; [unfold delete_events; destruct (delete_outcome _ res); reflexivity|].
  split; [unfold delete_events; destruct (delete_outcome _ res); reflexivity|].
  unfold delete_outcome at 1 2. cbn [List.filter].
  destruct res as [r|]; cbn [failed]; [destruct (ok r)|]; cbn [negb
    RemoveEnvVars.fulfilled RemoveEnvVars.rejected length];
    rewrite Hf, Hj; split; reflexivity.
Qed.

Lemma tally_summary (pre : list Msg) (k s f : nat) (final : Msg) :
  tally (pre ++ [MsgSummary; MsgTotalProcessed k; MsgSuccessfullyDeleted s;
                 MsgFailedToDelete f; final]) = Some (k, s, f).
Proof. unfold tally. rewrite rev_app_distr. reflexivity. Qed.

Lemma tally_of_run (a b c : list Event) (e0 e1 : Event) (k s f : nat)
    (l : Level) (final : Msg) :
  tally (printed (e0 :: a ++ e1 :: b ++ c
                  ++ [EvLog Info MsgSummary; EvLog Info (MsgTotalProcessed k);
                      EvLog Info (MsgSuccessfullyDeleted s);
                      EvLog Info (MsgFailedToDelete f)]
                  ++ [EvLog l final]))
  = Some (k, s, f).
Proof.
  replace (e0 :: a ++ e1 :: b ++ c
           ++ [EvLog Info MsgSummary; EvLog Info (MsgTotalProcessed k);
               EvLog Info (MsgSuccessfullyDeleted s);
               EvLog Info (MsgFailedToDelete f)]
           ++ [EvLog l final])
    with ((e0 :: a ++ e1 :: b ++ c)
          ++ [EvLog Info MsgSummary; EvLog Info (MsgTotalProcessed k);
              EvLog Info (MsgSuccessfullyDeleted s);
              EvLog Info (MsgFailedToDelete f); EvLog l final]).
  - rewrite printed_app. apply tally_summary.
  - cbn [app]. rewrite <- !app_assoc. cbn [app]. rewrite <- !app_assoc.
    reflexivity.
Qed.

(** The deletions of a listing of K >= 1 variables and the summary that
    follows them, whatever the order in which the answers come in; when
    they come in in order the script does come to its end. *)
Lemma removal_summary (fuel : nat) (w w1 w2 : W) (t1 : list Event)
    (variables : list JsonValue) (ress : list FetchResult) :
  run (RemoveEnvVars.fetchEnvironmentVariables env fuel) w
  = (Returned variables, w1, t1) ->
  variables <> [] ->
  Forall (fun variable => variable <> JNull) variables ->
  serve (map (removal env) variables) w1 = (ress, w2) ->
  let K := length variables in
  let F := length (List.filter failed ress) in
  (forall arrivals code w' t,
     RemoveEnvVars.removeAllEnvironmentVariables env fuel arrivals w
     = (Some code, w', t) ->
     code = (if (0 <? F)%nat then 1 else 0) /\
     w' = w2 /\
     sent t = sent t1 ++ map (removal env) variables /\
     Permutation (received t) (received t1 ++ ress) /\
     tally (printed t) = Some (K, (K - F)%nat, F)) /\
  exists t,
    RemoveEnvVars.removeAllEnvironmentVariables env fuel (in_order 1 K) w
    = (Some (if (0 <? F)%nat then 1 else 0), w2, t).
Proof.
  intros R NE NN Sv K F.
  destruct (start_deletes_spec variables w1 w2 ress NN Sv)
    as (tasks & ev & St & F2 & Hlt & Hs & Hr & Hp & He).
  pose proof (serve_length _ _ _ _ Sv) as Hlen. rewrite length_map in Hlen.
  destruct (parked_facts variables ress Hlen) as (Ps & Pr & Pf & Pj).
  destruct (owed_parked tasks _ F2) as [Ow Pd].
  assert (Hz : (length variables =? 0)%nat = false).
  { destruct variables; [congruence|reflexivity]. }
  assert (Hsucc : length (List.filter RemoveEnvVars.fulfilled
                            (map fst (parked env variables ress)))
                  = (K - F)%nat).
  { rewrite Pf. pose proof (List.filter_length failed ress) as FL.
    fold F in FL. unfold K. lia. }
  unfold RemoveEnvVars.removeAllEnvironmentVariables.
  rewrite R, Hz, St. split.
  - intros arrivals code w' t.
    destruct (allSettled arrivals tasks w2) as [[[os w3] ev3]|] eqn:Ha;
      [|discriminate].
    destruct (allSettled_parked arrivals tasks _ w2 w3 os ev3 Pd Ha)
      as (-> & -> & Hperm).
    rewrite Ow in Hperm. rewrite Pj, Hsucc. fold F.
    assert (Hs3 : sent ev3 = []).
    { apply Permutation_nil. symmetry. rewrite <- Ps.
      apply sent_Permutation. exact Hperm. }
    assert (Hr3 : Permutation (received ev3) ress).
    { etransitivity; [apply received_Permutation; exact Hperm|].
      rewrite Pr. reflexivity. }
    destruct (0 <? F)%nat; intros [= <- <- <-]; (split; [reflexivity|]);
      (split; [reflexivity|]).
    all: cbn [sent received]; rewrite !sent_app, !received_app;
      cbn [sent received]; rewrite !sent_app, !received_app;
      rewrite Hs, Hr, Hs3; cbn [sent received app];
      rewrite !app_nil_r; (split; [reflexivity|]).
    all: split; [apply Permutation_app_head; exact Hr3|apply tally_of_run].
  - unfold K. rewrite <- Hlt, (allSettled_parked_in_order tasks _ w2 F2).
    rewrite Pj, Hsucc. fold F.
    destruct (0 <? F)%nat; eexists; reflexivity.
Qed.

(** C10.  The delete request for a variable is made of its key and of
    nothing else: the URL ends with the encoded key, there is neither
    query nor body, and the target environment of the script does not
    enter it.  Two variables with the same key and different scopes are
    therefore addressed by one and the same request. *)
Theorem delete_request_ignores_scope (env' : RemoveEnvVars.Env)
    (first second : JsonValue) (key : JsonValue) (w : W) :
  get_prop first "key" = Some (Some key) ->
  get_prop second "key" = Some (Some key) ->
  RemoveEnvVars.GITLAB_TOKEN env' = RemoveEnvVars.GITLAB_TOKEN env ->
  RemoveEnvVars.GITLAB_PROJECT_ID env' = RemoveEnvVars.GITLAB_PROJECT_ID env ->
  RemoveEnvVars.GITLAB_API_URL env' = RemoveEnvVars.GITLAB_API_URL env ->
  sent (start_deletes [first; second] w).2
  = [delete_request (Some key); delete_request (Some key)] /\
  delete_request (Some key)
  = {| method := DELETE;
       url := RemoveEnvVars.GITLAB_API_URL env +:+ "/projects/"
              +:+ RemoveEnvVars.GITLAB_PROJECT_ID env +:+ "/variables/"
              +:+ encodeURIComponent (ToString key);
       headers := [("PRIVATE-TOKEN", RemoveEnvVars.GITLAB_TOKEN env)];
       body := None |} /\
  RemoveEnvVars.delete_request env' (Some key) = delete_request (Some key).
Proof.
  intros G1 G2 Et Ep Eu. split; [|split].
  - cbn [RemoveEnvVars.start_deletes]. rewrite G1, G2.
    destruct (handle (delete_request (Some key)) w) as [res1 w1] eqn:E1.
    destruct (advance_deleteVariable (Some key) w w1 res1 E1) as (t1 & -> & _).
    destruct (handle (delete_request (Some key)) w1) as [res2 w2] eqn:E2.
    destruct (advance_deleteVariable (Some key) w1 w2 res2 E2) as (t2 & -> & _).
    reflexivity.
  - reflexivity.
  - unfold RemoveEnvVars.delete_request, RemoveEnvVars.variable_url.
    rewrite Et, Ep, Eu. reflexivity.
Qed.

End RemovalFacts.

Lemma delete_request_ignores_scope_witness :
  let staging :=
    {| RemoveEnvVars.GITLAB_TOKEN := "token";
       RemoveEnvVars.GITLAB_PROJECT_ID := "42";
       RemoveEnvVars.GITLAB_API_URL := "https://gitlab.example/api/v4";
       RemoveEnvVars.GITLAB_ENVIRONMENT := "staging" |} in
  sent (RemoveEnvVars.start_deletes Examples.production
          [Examples.variable "A" "production"; Examples.variable "A" "staging"]
          ([] : list FetchResult)).2
  = [RemoveEnvVars.delete_request Examples.production (Some (JStr "A"));
     RemoveEnvVars.delete_request Examples.production (Some (JStr "A"))] /\
  RemoveEnvVars.delete_request staging (Some (JStr "A"))
  = RemoveEnvVars.delete_request Examples.production (Some (JStr "A")).
Proof.
  intros staging.
  destruct (delete_request_ignores_scope Examples.production staging
              (Examples.variable "A" "production")
              (Examples.variable "A" "staging") (JStr "A")
              ([] : list FetchResult))
    as (Hs & _ & He); try reflexivity.
  split; [exact Hs|exact He].
Defined.

(* ================================================================== *)
(** ** set-env-vars.ts: the promises of [main]                         *)
(* ================================================================== *)

Import UploadRuns.

Lemma failure_lines_app (a b : list Event) :
  failure_lines (a ++ b) = (failure_lines a + failure_lines b)%nat.
Proof.
  unfold failure_lines. rewrite printed_app, List.filter_app, length_app.
  reflexivity.
Qed.

Section TallyFacts.
Context {W : Type} `{Backend W}.

(** Starting or resuming a tallied promise keeps it tallied, and the
    failure line shows exactly when the promise has answered [false]. *)
Lemma advance_tallied (n : nat) (p : Prog bool) :
  Tallied n p ->
  forall w : W,
    let '(t, w', ev) := advance p w in
    task_ok n t /\
    failure_lines ev = (if answered_false t then 1 else 0)%nat.
Proof.
  induction 1 as [n|n key e|n l m k Hm _ IH|n req k Hk _]; intros w.
  - simpl. split; [exact I|reflexivity].
  - simpl. split; [exact I|reflexivity].
  - simpl. specialize (IH w). destruct (advance k w) as [[t w'] ev].
    destruct IH as [Hok Hf]. split; [exact Hok|].
    unfold failure_lines in *. simpl. rewrite Hm. exact Hf.
  - simpl. destruct (handle req w) as [res w']. split; [|reflexivity].
    exists n. split; [reflexivity|apply Hk].
Qed.

Lemma resume_tallied (n : nat) (t : Task bool) :
  task_ok (S n) t ->
  forall w : W,
    let '(t', w', ev) := resume t w in
    task_ok n t' /\
    (failure_lines ev + (if answered_false t then 1 else 0)
     = if answered_false t' then 1 else 0)%nat.
Proof.
  intros Hok w. destruct t as [o|req res k|ms k]; simpl in Hok.
  - destruct o as [b| |]; try contradiction. simpl.
    split; [exact I|reflexivity].
  - destruct Hok as (m & [= <-] & Hk). simpl.
    pose proof (advance_tallied n (k res) Hk w) as A.
    destruct (advance (k res) w) as [[t' w'] ev]. destruct A as [Hok' Hf].
    split; [exact Hok'|]. unfold failure_lines in *. simpl. lia.
  - contradiction.
Qed.

Lemma round_tallied (n : nat) (ts : list (Task bool)) :
  Forall (task_ok (S n)) ts ->
  forall w : W,
    let '(ts', w', ev) := round ts w in
    Forall (task_ok n) ts' /\
    length ts' = length ts /\
    (failure_lines ev + false_tasks ts = false_tasks ts')%nat.
Proof.
  induction 1 as [|t ts Ht _ IH]; intros w.
  - simpl. repeat split; constructor.
  - cbn [round]. pose proof (resume_tallied n t Ht w) as Rt.
    destruct (resume t w) as [[t' w1] ev1]. destruct Rt as [Hok1 Hf1].
    specialize (IH w1). destruct (round ts w1) as [[ts' w2] ev2].
    destruct IH as (Hok2 & Hl & Hf2).
    split; [constructor; assumption|]. split; [simpl; congruence|].
    rewrite failure_lines_app. unfold false_tasks in *. cbn [List.filter].
    destruct (answered_false t), (answered_false t'); simpl in *; lia.
Qed.

Lemma outcomes_tallied (ts : list (Task bool)) (os : list (Outcome bool)) :
  Forall (fun t => exists n, task_ok n t) ts ->
  outcomes ts = Some os ->
  length os = length ts /\
  Forall (fun o => exists b, o = Returned b) os /\
  falses os = false_tasks ts.
Proof.
  intros Hok. revert os.
  induction Hok as [|t ts [n Ht] _ IH]; intros os Ho.
  - injection Ho as <-. repeat split; constructor.
  - cbn [outcomes] in Ho. destruct (settled t) as [o|] eqn:St; [|discriminate].
    destruct (outcomes ts) as [os'|]; [|discriminate]. injection Ho as <-.
    destruct (IH os' eq_refl) as (Hl & Hr & Hf).
    destruct t as [o'|req res k|ms k]; try discriminate St.
    injection St as ->. simpl in Ht.
    destruct o as [b| |]; try contradiction.
    split; [simpl; congruence|]. split; [constructor; eauto|].
    unfold falses, false_tasks in *. cbn [List.filter answered_false].
    destruct b; simpl; congruence.
Qed.

Lemma outcomes_none_zero (ts : list (Task bool)) :
  Forall (task_ok 0) ts -> exists os, outcomes ts = Some os.
Proof.
  induction 1 as [|t ts Ht _ [os IH]]; [exists []; reflexivity|].
  destruct t as [o|req res k|ms k]; simpl in Ht.
  - exists (o :: os). cbn [outcomes settled]. rewrite IH. reflexivity.
  - destruct Ht as (m & C & _). discriminate C.
  - contradiction.
Qed.

(** When the answers come in in order, tallied promises have all settled
    after [n] turns. *)
Lemma allSettled_tallied_in_order (n : nat) :
  forall (ts : list (Task bool)) (w : W),
    Forall (task_ok n) ts ->
    exists os w' ev,
      allSettled (in_order n (length ts)) ts w = Some (os, w', ev).
Proof.
  induction n as [|n IH]; intros ts w Hok.
  - destruct (outcomes_none_zero ts Hok) as [os Ho].
    exists os, w, []. unfold in_order. cbn [repeat concat allSettled].
    rewrite Ho. reflexivity.
  - rewrite allSettled_in_order.
    pose proof (round_tallied n ts Hok w) as Rd.
    destruct (round ts w) as [[ts' w1] ev1]. destruct Rd as (Hok' & Hl' & _).
    rewrite <- Hl'.
    destruct (IH ts' w1 Hok') as (os & w2 & ev2 & ->).
    eexists _, _, _. reflexivity.
Qed.

Lemma task_ok_succ (n : nat) (t : Task bool) :
  task_ok n t -> exists m, task_ok (S m) t.
Proof.
  destruct t as [[b| |]|req res k|ms k]; simpl; try contradiction.
  - intros _. exists 0%nat. exact I.
  - intros (m & -> & Hk). exists m, m. split; [reflexivity|exact Hk].
Qed.

(** An arrival keeps the promises tallied. *)
Lemma arrive_tallied (ts : list (Task bool)) :
  Forall (fun t => exists n, task_ok n t) ts ->
  forall (i : nat) (w : W),
    let '(ts', w', ev) := arrive i ts w in
    Forall (fun t => exists n, task_ok n t) ts' /\
    length ts' = length ts /\
    (failure_lines ev + false_tasks ts = false_tasks ts')%nat.
Proof.
  induction 1 as [|t ts [n Ht] Hts IH]; intros i w.
  - simpl. repeat split; constructor.
  - destruct i as [|i]; cbn [arrive].
    + destruct (task_ok_succ n t Ht) as [m Hm].
      pose proof (resume_tallied m t Hm w) as Rt.
      destruct (resume t w) as [[t' w1] ev1]. destruct Rt as [Hok1 Hf1].
      split; [constructor; [exists m; exact Hok1|exact Hts]|].
      split; [reflexivity|].
      unfold false_tasks in *. cbn [List.filter].
      destruct (answered_false t), (answered_false t'); simpl in *; lia.
    + specialize (IH i w). destruct (arrive i ts w) as [[ts' w1] ev1].
      destruct IH as (Hok & Hl & Hf).
      split; [constructor; [exists n; exact Ht|exact Hok]|].
      split; [simpl; congruence|].
      unfold false_tasks in *. cbn [List.filter].
      destruct (answered_false t); simpl in *; lia.
Qed.

(** Whatever the order of the arrivals: once [Promise.all] is through,
    every promise has answered, and as many failure lines were printed
    as promises answered [false]. *)
Lemma allSettled_tallied (arrivals : list nat) :
  forall (ts : list (Task bool)) (w w' : W) (os : list (Outcome bool))
         (ev : list Event),
    Forall (fun t => exists n, task_ok n t) ts ->
    allSettled arrivals ts w = Some (os, w', ev) ->
    length os = length ts /\
    Forall (fun o => exists b, o = Returned b) os /\
    (failure_lines ev + false_tasks ts = falses os)%nat.
Proof.
  induction arrivals as [|i later IH]; intros ts w w' os ev Hok Ha;
    cbn [allSettled] in Ha; destruct (outcomes ts) as [os0|] eqn:Ho.
  - injection Ha as <- <- <-.
    destruct (outcomes_tallied ts os0 Hok Ho) as (Hl & Hr & Hf).
    repeat split; try assumption. simpl. congruence.
  - discriminate Ha.
  - injection Ha as <- <- <-.
    destruct (outcomes_tallied ts os0 Hok Ho) as (Hl & Hr & Hf).
    repeat split; try assumption. simpl. congruence.
  - pose proof (arrive_tallied ts Hok i w) as Ar.
    destruct (arrive i ts w) as [[ts1 w1] ev1]. destruct Ar as (Hok1 & Hl1 & Hf1).
    destruct (allSettled later ts1 w1) as [[[os1 w2] ev2]|] eqn:Ha'; [|discriminate].
    injection Ha as <- <- <-.
    destruct (IH ts1 w1 w2 os1 ev2 Hok1 Ha') as (Hl & Hr & Hf).
    split; [congruence|]. split; [exact Hr|].
    rewrite failure_lines_app. lia.
Qed.

End TallyFacts.

Section UploadFacts.
Context `{Runtime} {W : Type} `{Backend W}.
Variable env : SetEnvVars.Env.

Abbreviation update_request := (SetEnvVars.update_request env).
Abbreviation entry_promise := (SetEnvVars.entry_promise env).
Abbreviation dispatch := (SetEnvVars.dispatch env).

(** The promise of one entry is tallied, with two awaits at most. *)
Lemma entry_promise_tallied (key : string) (value : JsonValue) :
  Tallied 2 (entry_promise key value).
Proof.
  unfold SetEnvVars.entry_promise, SetEnvVars.setGitLabVariable, fetch,
    response_json, mbind, Prog_bind.
  cbn [try_catch bind]. apply tallied_fetch. intros [r1|]; cbn [try_catch bind].
  - destruct (status r1 =? 404); cbn [try_catch bind].
    + apply tallied_fetch. intros [r2|]; cbn [try_catch bind].
      * destruct (ok r2); cbn [negb try_catch bind].
        -- apply tallied_print; [reflexivity|apply tallied_true].
        -- destruct (json r2); cbn [try_catch bind];
             (apply tallied_print; [reflexivity|apply tallied_false]).
      * apply tallied_print; [reflexivity|apply tallied_false].
    + destruct (ok r1); cbn [negb try_catch bind].
      * apply tallied_print; [reflexivity|apply tallied_true].
      * destruct (json r1); cbn [try_catch bind];
          (apply tallied_print; [reflexivity|apply tallied_false]).
  - apply tallied_print; [reflexivity|apply tallied_false].
Qed.

(** Starting the promise of an entry sends its update request. *)
Lemma advance_entry_promise (key : string) (value : JsonValue) (w : W) :
  exists t,
    advance (entry_promise key value) w
    = (t, (handle (update_request key (ToString value)) w).2,
       [EvSend (update_request key (ToString value))]) /\
    task_ok 2 t /\ answered_false t = false.
Proof.
  pose proof (advance_tallied 2 _ (entry_promise_tallied key value) w) as A.
  unfold SetEnvVars.entry_promise, SetEnvVars.setGitLabVariable, fetch,
    mbind, Prog_bind in *.
  cbn [try_catch bind advance] in *.
  destruct (handle (update_request key (ToString value)) w) as [res w1].
  destruct A as [Hok _]. eexists. split; [reflexivity|].
  split; [exact Hok|reflexivity].
Qed.

(** The loop over the entries: one promise, started by its update
    request, for every primitive entry and for no other. *)
Lemma dispatch_spec (entries : list (string * JsonValue)) :
  forall w : W,
    let '(ts, w', ev) := dispatch entries w in
    let tried := List.filter (fun entry => SetEnvVars.is_primitive entry.2)
                             entries in
    Forall (task_ok 2) ts /\
    length ts = length tried /\
    false_tasks ts = 0%nat /\
    failure_lines ev = 0%nat /\
    sent ev = map (fun entry => update_request entry.1 (ToString entry.2)) tried /\
    received ev = [] /\
    dispatch tried w
    = (ts, w', List.filter (fun e => match e with EvLog _ _ => false | _ => true end)
                           ev) /\
    (forall key value,
        In (key, value) entries -> SetEnvVars.is_primitive value = false ->
        In (EvLog Warn (MsgSkippingNonPrimitive key)) ev).
Proof.
  induction entries as [|[key value] entries IH]; intros w.
  - simpl. repeat split; try constructor. intros key value [].
  - cbn [SetEnvVars.dispatch List.filter snd].
    destruct (SetEnvVars.is_primitive value) eqn:P.
    + destruct (advance_entry_promise key value w) as (t & A & Hok & Hf).
      rewrite A. cbn [SetEnvVars.dispatch]. rewrite P, A.
      specialize (IH (handle (update_request key (ToString value)) w).2).
      destruct (dispatch entries (handle (update_request key (ToString value)) w).2)
        as [[ts w2] ev2].
      cbv zeta in IH. destruct IH as (Ok & Hl & Hft & Hfl & Hs & Hr & Hd & Hw).
      rewrite Hd. cbv zeta.
      split; [constructor; assumption|]. split; [simpl; congruence|].
      split; [unfold false_tasks in *; cbn [List.filter]; rewrite Hf; exact Hft|].
      split; [exact Hfl|].
      split; [cbn [app sent map fst snd]; rewrite Hs; reflexivity|].
      split; [exact Hr|]. split; [reflexivity|].
      intros k v [[= <- <-]|Hin] Hp; [congruence|].
      right. eapply Hw; eassumption.
    + specialize (IH w). destruct (dispatch entries w) as [[ts w2] ev2].
      cbv zeta in IH. destruct IH as (Ok & Hl & Hft & Hfl & Hs & Hr & Hd & Hw).
      cbv zeta. repeat split; try assumption.
      intros k v [[= <- <-]|Hin] Hp; [left; reflexivity|].
      right. eapply Hw; eassumption.
Qed.

Lemma first_rejection_none (os : list (Outcome bool)) :
  Forall (fun o => exists b, o = Returned b) os ->
  SetEnvVars.first_rejection os = None /\
  (SetEnvVars.counted os + falses os = length os)%nat.
Proof.
  unfold falses, SetEnvVars.counted.
  induction 1 as [|o os [b ->] _ [IH1 IH2]]; [split; reflexivity|].
  cbn [SetEnvVars.first_rejection List.filter]. split; [exact IH1|].
  destruct b; simpl; lia.
Qed.

(** A document that is not accepted: the script prints one line, sends
    nothing and exits with status 1. *)
Lemma main_rejects (fs : string -> SetEnvVars.File) (arrivals : list nat)
    (w : W) :
  accepted (fs (SetEnvVars.ENV_FILE_PATH env)) = None ->
  exists line,
    SetEnvVars.main env fs arrivals w = (Some 1, w, [EvLog Error line]).
Proof.
  unfold accepted, SetEnvVars.main.
  destruct (fs (SetEnvVars.ENV_FILE_PATH env)) as [| |content [doc|]];
    try (intros _; eexists; reflexivity).
  destruct (typeof doc) eqn:T; destruct doc; try discriminate T;
    cbn [JsType_eqb is_null negb andb orb]; try discriminate;
    intros _; eexists; reflexivity.
Qed.

(** The run of [main] over a document that is accepted, whatever the
    order in which the answers come in. *)
Lemma main_unfolds (fs : string -> SetEnvVars.File) (doc : JsonValue)
    (arrivals : list nat) (w : W) :
  accepted (fs (SetEnvVars.ENV_FILE_PATH env)) = Some doc ->
  exists ts w1 ev1,
    dispatch (Object_entries doc) w = (ts, w1, ev1) /\
    match allSettled arrivals ts w1 with
    | None =>
        SetEnvVars.main env fs arrivals w
        = (None, w1,
           EvLog Info (MsgSettingVariables (SetEnvVars.GITLAB_PROJECT_ID env))
           :: ev1)
    | Some (os, w2, ev2) =>
        length os = length ts /\
        (SetEnvVars.counted os + failure_lines ev2 = length ts)%nat /\
        SetEnvVars.main env fs arrivals w
        = (Some 0, w2,
           EvLog Info (MsgSettingVariables (SetEnvVars.GITLAB_PROJECT_ID env))
           :: ev1 ++ ev2
           ++ [EvLog Info (MsgSuccessfullySet (SetEnvVars.counted os)
                             (SetEnvVars.ENV_FILE_PATH env))])
    end.
Proof.
  unfold accepted, SetEnvVars.main.
  destruct (fs (SetEnvVars.ENV_FILE_PATH env)) as [| |content [doc'|]];
    try discriminate.
  destruct (JsType_eqb (typeof doc') TyObject && negb (is_null doc')) eqn:Acc;
    [|discriminate].
  intros [= ->]. apply andb_true_iff in Acc as [Ht Hn].
  apply negb_true_iff in Hn. rewrite Ht, Hn. cbn [negb orb].
  pose proof (dispatch_spec (Object_entries doc) w) as D.
  destruct (dispatch (Object_entries doc) w) as [[ts w1] ev1].
  cbv zeta in D. destruct D as (Ok & _ & Hft & _).
  exists ts, w1, ev1. split; [reflexivity|].
  destruct (allSettled arrivals ts w1) as [[[os w2] ev2]|] eqn:Ha; [|reflexivity].
  destruct (allSettled_tallied arrivals ts w1 w2 os ev2) as (Hl & Hr & Hf);
    [|exact Ha|].
  { eapply Forall_impl; [exact Ok|]. intros t Hk. exists 2%nat. exact Hk. }
  destruct (first_rejection_none os Hr) as [-> Hc].
  split; [exact Hl|]. split; [lia|reflexivity].
Qed.

(** A document that is accepted: the update of every primitive entry is
    sent; when the script comes to its end, it has printed how many
    entries succeeded and exits with status 0, whatever the answers were
    and in whatever order they came in.  It does come to its end when
    they come in in order. *)
Lemma main_runs (fs : string -> SetEnvVars.File) (doc : JsonValue) (w : W) :
  accepted (fs (SetEnvVars.ENV_FILE_PATH env)) = Some doc ->
  let tried := attempts doc in
  (forall arrivals code w' t,
     SetEnvVars.main env fs arrivals w = (code, w', t) ->
     take (length tried) (sent t)
     = map (fun entry => update_request entry.1 (ToString entry.2)) tried /\
     (code = None \/
      code = Some 0 /\
      (failure_lines t <= length tried)%nat /\
      last (printed t)
      = Some (MsgSuccessfullySet (length tried - failure_lines t)
                (SetEnvVars.ENV_FILE_PATH env)))) /\
  exists w' t,
    SetEnvVars.main env fs (in_order 2 (length tried)) w = (Some 0, w', t).
Proof.
  intros Acc tried. split.
  - intros arrivals code w' t M.
    destruct (main_unfolds fs doc arrivals w Acc) as (ts & w1 & ev1 & D & Hm).
    pose proof (dispatch_spec (Object_entries doc) w) as Sp.
    rewrite D in Sp. cbv zeta in Sp. fold (attempts doc) in Sp. fold tried in Sp.
    destruct Sp as (_ & Hl & _ & Hfl & Hs & _).
    assert (Htake : forall rest,
               take (length tried) (sent ev1 ++ rest)
               = map (fun entry => update_request entry.1 (ToString entry.2)) tried).
    { intros rest. rewrite Hs.
      rewrite <- (length_map (fun entry => update_request entry.1 (ToString entry.2)))
        at 1.
      apply take_app_length. }
    destruct (allSettled arrivals ts w1) as [[[os w2] ev2]|].
    + destruct Hm as (Hlo & Hc & Hm). rewrite Hm in M. injection M as <- <- <-.
      split; [cbn [sent]; rewrite sent_app; apply Htake|]. right.
      assert (Hfail : failure_lines
                        (EvLog Info (MsgSettingVariables
                                       (SetEnvVars.GITLAB_PROJECT_ID env))
                         :: ev1 ++ ev2
                         ++ [EvLog Info (MsgSuccessfullySet (SetEnvVars.counted os)
                                           (SetEnvVars.ENV_FILE_PATH env))])
                      = failure_lines ev2).
      { change (EvLog Info (MsgSettingVariables (SetEnvVars.GITLAB_PROJECT_ID env))
                :: ev1 ++ ev2 ++ ?x)
          with ([EvLog Info (MsgSettingVariables (SetEnvVars.GITLAB_PROJECT_ID env))]
                ++ ev1 ++ ev2 ++ x).
        rewrite !failure_lines_app, Hfl. cbn [failure_lines printed List.filter
          failure_line length]. lia. }
      rewrite Hfail. split; [reflexivity|]. split; [lia|].
      rewrite app_comm_cons, app_assoc, printed_app. cbn [printed].
      rewrite last_snoc. do 2 f_equal. lia.
    + rewrite Hm in M. injection M as <- <- <-.
      split; [|left; reflexivity].
      cbn [sent]. rewrite <- (app_nil_r (sent ev1)). apply Htake.
  - destruct (main_unfolds fs doc (in_order 2 (length tried)) w Acc)
      as (ts & w1 & ev1 & D & Hm).
    pose proof (dispatch_spec (Object_entries doc) w) as Sp.
    rewrite D in Sp. cbv zeta in Sp. fold (attempts doc) in Sp. fold tried in Sp.
    destruct Sp as (Ok & Hl & _).
    destruct (allSettled_tallied_in_order 2 ts w1 Ok) as (os & w2 & ev2 & Ha).
    rewrite Hl in Ha. rewrite Ha in Hm. destruct Hm as (_ & _ & Hm).
    eexists _, _. exact Hm.
Qed.

End UploadFacts.

Lemma sent_without_logs (t : list Event) :
  sent (List.filter (fun e => match e with EvLog _ _ => false | _ => true end) t)
  = sent t /\
  received (List.filter (fun e => match e with EvLog _ _ => false | _ => true end) t)
  = received t.
Proof.
  induction t as [|e t [IHs IHr]]; [split; reflexivity|].
  destruct e; simpl; rewrite ?IHs, ?IHr; split; reflexivity.
Qed.

(** C8, at the input on which the code departs from it.  A file whose
    JSON text is the array [[1]] passes the check that the content is an
    object: the script sends the update request for a variable named "0"
    with the value "1" and exits with status 0. *)
Theorem array_document_is_uploaded :
  accepted (array_document (SetEnvVars.ENV_FILE_PATH Examples.uat))
  = Some (JArr [JNum 1]) /\
  exists t,
    SetEnvVars.main Examples.uat array_document [0%nat]
      [Examples.reply 200 JNull]
    = (Some 0, [], t) /\
    sent t = [SetEnvVars.update_request Examples.uat "0" "1"] /\
    last (printed t) = Some (MsgSuccessfullySet 1 "uat.env.json").
Proof.
  split; [reflexivity|]. eexists. split; [reflexivity|].
  split; reflexivity.
Qed.

(** C2 as it is written fails for the set-variables script: the only
    update is answered with status 500, the script prints the failure and
    exits with status 0. *)
Lemma failure_is_visible_counterexample :
  let '(code, _, t) :=
    SetEnvVars.main Examples.uat one_entry [0%nat] [Examples.reply 500 JNull] in
  ~ failure_is_visible code t.
Proof.
  vm_compute. intros V. apply V; [|reflexivity].
  constructor. reflexivity.
Qed.

(** C4 as it is written fails: the set-variables script prints no tally
    of attempted and failed items, and the variable-removal script prints
    no summary at all when the listing is empty. *)
Lemma tally_counterexample :
  (let '(_, _, t) :=
     SetEnvVars.main Examples.uat one_entry [0%nat] [Examples.reply 500 JNull] in
   tally (printed t) <> Some (1, 0, 1)%nat) /\
  (let '(_, _, t) :=
     RemoveEnvVars.removeAllEnvironmentVariables Examples.production 5 []
       [Examples.reply_page "1" []] in
   tally (printed t) <> Some (0, 0, 0)%nat).
Proof. split; vm_compute; discriminate. Qed.

Import Arrivals PipelineRuns Observed.

Lemma listed_app (a b : list Event) : listed (a ++ b) = listed a ++ listed b.
Proof.
  induction a as [|e a IH]; simpl; [reflexivity|].
  destruct e as [| |req [r|]|]; simpl; try exact IH.
  destruct (method req), (ok r), (json r) as [v|]; try exact IH.
  destruct (iterate v); [rewrite IH, app_assoc; reflexivity|exact IH].
Qed.

Lemma pauses_app (a b : list Event) : pauses (a ++ b) = pauses a ++ pauses b.
Proof.
  induction a as [|e a IH]; simpl; [reflexivity|].
  destruct e; simpl; rewrite IH; reflexivity.
Qed.

Lemma granted_app (m : Method) (a b : list Event) :
  granted m (a ++ b) = (granted m a + granted m b)%nat.
Proof.
  induction a as [|e a IH]; simpl; [reflexivity|].
  destruct e as [| |req res|]; simpl; try exact IH.
  destruct (is_method m req && negb (failed res)); simpl; rewrite IH; reflexivity.
Qed.

Lemma only_app (m : Method) (a b : list Event) :
  only m (a ++ b) = only m a ++ only m b.
Proof. unfold only. rewrite sent_app, List.filter_app. reflexivity. Qed.

(* ================================================================== *)
(** ** remove-pipelines.ts: what a run lists, deletes and waits for    *)
(* ================================================================== *)

Import PipelineLedger.

Section PipelineLedgerFacts.
Context {W : Type} `{Backend W}.
Variable env : RemovePipelines.Env.

Abbreviation delete_request := (RemovePipelines.delete_request env).
Abbreviation deletePipeline := (RemovePipelines.deletePipeline env).
Abbreviation delete_each := (RemovePipelines.delete_each env).
Abbreviation list_request := (RemovePipelines.list_request env).
Abbreviation fetchPipelines := (RemovePipelines.fetchPipelines env).
Abbreviation DELAY := (RemovePipelines.DELAY_MS env).

Lemma filter_removals (batch : list JsonValue) :
  List.filter (is_method DELETE) (map (removal env) batch)
  = map (removal env) batch /\
  List.filter (is_method GET) (map (removal env) batch) = [].
Proof.
  induction batch as [|item batch [IHd IHg]]; [split; reflexivity|].
  simpl. rewrite IHd, IHg. split; reflexivity.
Qed.

Lemma removal_of (item : JsonValue) (id : option JsonValue) :
  get_prop item "id" = Some id -> removal env item = delete_request id.
Proof. intros G. unfold removal, field. rewrite G. reflexivity. Qed.

Lemma removals_are_project_requests (batch : list JsonValue) :
  Forall (project_request env) (map (removal env) batch).
Proof.
  apply List.Forall_forall. intros req Hin. apply in_map_iff in Hin as (item & <- & _).
  right. eexists. reflexivity.
Qed.

(** The loop over a batch, whatever the service answers: the requests are
    those of the first [n] elements; every granted deletion is followed by
    one pause; the loop returns only after the whole batch. *)
Lemma delete_each_ledger (batch : list JsonValue) :
  forall (total : nat) (w : W),
    let '(o, w', t) := run (delete_each batch total) w in
    exists n,
      (n <= length batch)%nat /\
      sent t = map (removal env) (take n batch) /\
      listed t = [] /\
      pauses t = repeat DELAY (granted DELETE t) /\
      (granted DELETE t <= n <= S (granted DELETE t))%nat /\
      match o with
      | Returned k =>
          n = length batch /\ granted DELETE t = n /\ k = (total + n)%nat
      | Raised _ => True
      | Unfinished => False
      end.
Proof.
  induction batch as [|item batch IH]; intros total w.
  - simpl. exists 0%nat. repeat split; try reflexivity; lia.
  - rewrite (delete_each_cons env). unfold prop.
    destruct (get_prop item "id") as [id|] eqn:G.
    2:{ simpl. exists 0%nat. repeat split; try reflexivity; lia. }
    cbn [bind]. rewrite run_bind.
    destruct (handle (delete_request id) w) as [res w1] eqn:E.
    destruct (failed res) eqn:F.
    + destruct (deletePipeline_fails env id w w1 res E F) as (e & ->).
      exists 1%nat. cbn [take map sent received].
      rewrite (removal_of item id G). simpl. rewrite F. simpl.
      repeat split; try reflexivity; try lia. destruct res; reflexivity.
    + rewrite (deletePipeline_succeeds env id w w1 res E F).
      cbn [bind run RemovePipelines.sleep].
      specialize (IH (S total) w1).
      destruct (run (delete_each batch (S total)) w1) as [[o w2] t].
      destruct IH as (n & Hn & Hs & Hl & Hp & Hg & Ho).
      exists (S n). cbn [take map length].
      rewrite (removal_of item id G).
      simpl. rewrite F. simpl. rewrite Hs, Hp.
      assert (Hl' : match res with Resolved _ | _ => listed t end = []).
      { destruct res; exact Hl. }
      repeat split; try reflexivity; try lia; try exact Hl'.
      destruct o as [k| |]; [|exact I|exact Ho].
      destruct Ho as (-> & Hg' & ->). repeat split; lia.
Qed.

End PipelineLedgerFacts.

Lemma zero_length_iterates_nothing (v : JsonValue) (len : option JsonValue)
    (items : list JsonValue) :
  get_prop v "length" = Some len -> iterate v = Some items ->
  if RemovePipelines.is_zero len then items = []
  else RemovePipelines.is_positive len = true /\ items <> [].
Proof.
  destruct v as [| | |s|l|]; simpl; try discriminate.
  - intros [= <-] [= <-]. simpl. destruct s; simpl; [reflexivity|].
    split; [reflexivity|discriminate].
  - intros [= <-] [= <-]. simpl. destruct l; simpl; [reflexivity|].
    split; [reflexivity|discriminate].
Qed.

Section PagesLedger.
Context {W : Type} `{Backend W}.
Variable env : RemovePipelines.Env.

Abbreviation delete_each := (RemovePipelines.delete_each env).
Abbreviation list_request := (RemovePipelines.list_request env).
Abbreviation fetchPipelines := (RemovePipelines.fetchPipelines env).
Abbreviation DELAY := (RemovePipelines.DELAY_MS env).

Lemma listed_failed_answer (req : Request) (res : FetchResult) (rest : list Event) :
  failed res = true -> listed (EvRecv req res :: rest) = listed rest.
Proof.
  destruct res as [r|]; simpl; [|reflexivity].
  intros F. apply negb_true_iff in F. rewrite F.
  destruct (method req); reflexivity.
Qed.

Lemma listed_page (page : nat) (r : Response) (rest : list Event) :
  ok r = true ->
  listed (EvRecv (list_request page) (Resolved r) :: rest)
  = match json r with
    | Some v => match iterate v with
                | Some items => items ++ listed rest
                | None => listed rest
                end
    | None => listed rest
    end.
Proof. intros Hok. simpl. rewrite Hok. reflexivity. Qed.

(** The loop over the pages, whatever the service answers. *)
Lemma pages_ledger (fuel : nat) :
  forall (page total : nat) (w : W),
    let '(o, w', t) := run (RemovePipelines.pages env fuel page total) w in
    exists m n,
      (m <= fuel)%nat /\ (n <= length (listed t))%nat /\
      only GET t = map list_request (seq page m) /\
      only DELETE t = map (removal env) (take n (listed t)) /\
      Forall (project_request env) (sent t) /\
      pauses t = repeat DELAY (granted DELETE t) /\
      (granted DELETE t <= n <= S (granted DELETE t))%nat /\
      match o with
      | Returned k =>
          n = length (listed t) /\ granted DELETE t = n /\
          k = (total + n)%nat /\
          exists pre, printed t = pre ++ [MsgNoMorePipelines]
      | _ => True
      end.
Proof.
  induction fuel as [|fuel IH]; intros page total w.
  - simpl. exists 0%nat, 0%nat. repeat split; try reflexivity; try lia. constructor.
  - rewrite (pages_step env). cbn [run]. rewrite run_bind.
    destruct (handle (list_request page) w) as [res w1] eqn:E.
    assert (PR : project_request env (list_request page)).
    { left. eexists. reflexivity. }
    assert (Stop : forall (o : Outcome nat) (tail : list Event),
               sent tail = [] -> pauses tail = [] -> granted DELETE tail = 0%nat ->
               listed (EvRecv (list_request page) res :: tail) = [] ->
               (forall k, o <> Returned k) ->
               let t := EvLog Info (MsgFetchingPipelinePage page)
                        :: [EvSend (list_request page);
                            EvRecv (list_request page) res] ++ tail in
               exists m n,
                 (m <= S fuel)%nat /\ (n <= length (listed t))%nat /\
                 only GET t = map list_request (seq page m) /\
                 only DELETE t = map (removal env) (take n (listed t)) /\
                 Forall (project_request env) (sent t) /\
                 pauses t = repeat DELAY (granted DELETE t) /\
                 (granted DELETE t <= n <= S (granted DELETE t))%nat /\
                 match o with
                 | Returned k =>
                     n = length (listed t) /\ granted DELETE t = n /\
                     k = (total + n)%nat /\
                     exists pre, printed t = pre ++ [MsgNoMorePipelines]
                 | _ => True
                 end).
    { intros o tail Hs Hp Hg Hl Ho t. exists 1%nat, 0%nat.
      subst t. unfold only. cbn [sent app pauses granted listed] in *.
      cbn [is_method method RemovePipelines.list_request andb] in *.
      rewrite Hs, Hp, Hg. rewrite Hl. simpl.
      repeat split; try reflexivity; try lia.
      - constructor; [exact PR|constructor].
      - destruct o; [exfalso; eapply Ho; reflexivity|exact I|exact I]. }
    cbv zeta in Stop.
    destruct (failed res) eqn:F.
    { rewrite (fetchPipelines_fails env page w w1 res E F).
      cbv beta iota zeta.
      apply (Stop (Raised (listing_error res))
               [EvLog Error (MsgErrorFetchingPipelines (listing_error res))]);
        try reflexivity; [|discriminate].
      apply listed_failed_answer. exact F. }
    destruct res as [r|]; [|discriminate F].
    assert (Hok : ok r = true) by (apply succeeded_ok; exact F).
    destruct (json r) as [v|] eqn:J.
    2:{ rewrite (fetchPipelines_garbled env page w w1 r E Hok J).
        cbv beta iota zeta.
        apply (Stop (Raised SyntaxError)
                 [EvLog Error (MsgErrorFetchingPipelines SyntaxError)]);
          try reflexivity; [|discriminate].
        rewrite listed_page, J by exact Hok. reflexivity. }
    rewrite (fetchPipelines_returns env page w w1 r v E Hok J).
    unfold prop. destruct (get_prop v "length") as [len|] eqn:L.
    2:{ cbn [bind run]. cbv beta iota zeta.
        apply (Stop (Raised TypeError) []); try reflexivity; [|discriminate].
        rewrite listed_page, J by exact Hok.
        destruct v; simpl in L; try discriminate L; try reflexivity;
          destruct (String.eqb "length" "length"); discriminate L. }
    cbn [bind].
    destruct (iterate v) as [items|] eqn:I.
    2:{ assert (Hl : listed [EvRecv (list_request page) (Resolved r)] = []).
        { rewrite listed_page, J, I by exact Hok. reflexivity. }
        destruct (RemovePipelines.is_zero len) eqn:Z.
        - exists 1%nat, 0%nat. unfold only. simpl. rewrite Hok, J, I. simpl.
          repeat split; try reflexivity; try lia.
          + constructor; [exact PR|constructor].
          + exists [MsgFetchingPipelinePage page]. reflexivity.
        - cbn [run]. unfold iterable. rewrite I.
          cbn [bind run]. cbv beta iota zeta.
          apply (Stop (Raised TypeError) [EvLog Info (MsgFoundPipelines len page)]);
            try reflexivity; [|discriminate].
          rewrite listed_page, J, I by exact Hok. reflexivity. }
    pose proof (zero_length_iterates_nothing v len items L I) as ZL.
    destruct (RemovePipelines.is_zero len) eqn:Z.
    { subst items. exists 1%nat, 0%nat. unfold only. simpl. rewrite Hok, J, I. simpl.
      repeat split; try reflexivity; try lia.
      + constructor; [exact PR|constructor].
      + exists [MsgFetchingPipelinePage page]. reflexivity. }
    destruct ZL as [Pos NE]. rewrite Pos.
    cbn [run]. unfold iterable. rewrite I. cbn [bind]. rewrite run_bind.
    pose proof (delete_each_ledger env items total w1) as D.
    destruct (run (delete_each items total) w1) as [[od wd] td].
    destruct D as (n1 & Hn1 & Ds & Dl & Dp & Dg & Do).
    pose proof (filter_removals env (take n1 items)) as [FD FG].
    destruct od as [k1|e|]; [| |contradiction].
    + destruct Do as (-> & Dg' & ->).
      specialize (IH (S page) (total + length items)%nat wd).
      destruct (run (RemovePipelines.pages env fuel (S page)
                       (total + length items)) wd) as [[op wp] tp].
      destruct IH as (m & n & Hm & Hn & Ig & Id & Ipr & Ip & Igr & Io).
      exists (S m), (length items + n)%nat.
      unfold only in *. cbn [sent app pauses granted listed printed].
      cbn [is_method method RemovePipelines.list_request andb].
      rewrite Hok, J, I.
      rewrite !sent_app, !listed_app, !pauses_app, !granted_app, !printed_app.
      cbn [List.filter is_method method RemovePipelines.list_request].
      rewrite !List.filter_app.
      rewrite Ds, Dl, Dp, Dg', FD, FG, Ig, Id, Ip in *.
      rewrite firstn_all in *. cbn [app].
      repeat split; try lia.
      * rewrite length_app. lia.
      * rewrite take_app_add', map_app by reflexivity. reflexivity.
      * constructor; [exact PR|]. apply Forall_app. split; [|exact Ipr].
        apply removals_are_project_requests.
      * rewrite repeat_app. reflexivity.
      * destruct op as [k| |]; [|exact Logic.I|exact Logic.I].
        destruct Io as (-> & Ig' & -> & pre & Hpre).
        repeat split; try lia.
        -- rewrite length_app. lia.
        -- rewrite Hpre.
           exists (MsgFetchingPipelinePage page :: MsgFoundPipelines len page
                   :: printed td ++ pre).
           cbn [app]. rewrite <- app_assoc. reflexivity.
    + exists 1%nat, n1.
      unfold only in *. cbn [sent app pauses granted listed printed].
      cbn [is_method method RemovePipelines.list_request andb].
      rewrite Hok, J, I.
      cbn [sent pauses granted listed app List.filter is_method method
           RemovePipelines.list_request].
      rewrite Ds, Dl, Dp, FD, FG. rewrite app_nil_r.
      repeat split; try lia; try reflexivity.
      constructor; [exact PR|]. apply removals_are_project_requests.
Qed.

End PagesLedger.

Section ScriptLedger.
Context {W : Type} `{Backend W}.
Variable env : RemovePipelines.Env.

(** The script around its loop: the warning, the five seconds, the loop,
    and the line that ends the run. *)
Lemma script_unfolds (fuel : nat) (w : W) :
  run (RemovePipelines.script env fuel) w =
  let '(o, w', t) := run (RemovePipelines.pages env fuel 1 0) w in
  let project := RemovePipelines.GITLAB_PROJECT_ID env in
  let opening := [EvLog Info (MsgConfirmPipelines project);
                  EvLog Info MsgPressCtrlC;
                  EvSleep 5000;
                  EvLog Info (MsgRemovingPipelines project)] in
  match o with
  | Returned n =>
      (Returned 0, w', opening ++ t ++ [EvLog Info (MsgDeletedTotal n project)])
  | Raised e =>
      (Returned 1, w', opening ++ t ++ [EvLog Error (MsgErrorRemovingPipelines e)])
  | Unfinished => (Unfinished, w', opening ++ t)
  end.
Proof.
  unfold RemovePipelines.script, RemovePipelines.main, mbind, Prog_bind.
  cbn [run try_catch]. rewrite run_try_catch, run_bind.
  destruct (run (RemovePipelines.pages env fuel 1 0) w) as [[o w'] t].
  destruct o as [n|e|]; simpl; rewrite ?app_nil_r; reflexivity.
Qed.

(** The ledger of a whole run. *)
Lemma script_ledger (fuel : nat) (w : W) :
  let '(o, w', t) := run (RemovePipelines.script env fuel) w in
  exists m n,
    (m <= fuel)%nat /\ (n <= length (listed t))%nat /\
    only GET t = map (RemovePipelines.list_request env) (seq 1 m) /\
    only DELETE t = map (removal env) (take n (listed t)) /\
    Forall (project_request env) (sent t) /\
    pauses t = 5000 :: repeat (RemovePipelines.DELAY_MS env) (granted DELETE t) /\
    (granted DELETE t <= n <= S (granted DELETE t))%nat /\
    (o = Returned 0 ->
     n = length (listed t) /\ granted DELETE t = n /\
     exists pre,
       printed t = pre ++ [MsgNoMorePipelines;
                           MsgDeletedTotal n (RemovePipelines.GITLAB_PROJECT_ID env)]).
Proof.
  rewrite script_unfolds.
  pose proof (pages_ledger env fuel 1 0 w) as L.
  destruct (run (RemovePipelines.pages env fuel 1 0) w) as [[o w'] t].
  destruct L as (m & n & Hm & Hn & Hg & Hd & Hpr & Hp & Hgr & Ho).
  assert (Shape : forall tail,
             sent tail = [] -> pauses tail = [] -> listed tail = [] ->
             granted DELETE tail = 0%nat ->
             let t' := [EvLog Info (MsgConfirmPipelines
                                      (RemovePipelines.GITLAB_PROJECT_ID env));
                        EvLog Info MsgPressCtrlC;
                        EvSleep 5000;
                        EvLog Info (MsgRemovingPipelines
                                      (RemovePipelines.GITLAB_PROJECT_ID env))]
                       ++ t ++ tail in
             sent t' = sent t /\ listed t' = listed t /\
             pauses t' = 5000 :: pauses t /\
             granted DELETE t' = granted DELETE t).
  { intros tail Hs Hps Hl Hgt. cbn [app sent listed pauses granted].
    rewrite sent_app, listed_app, pauses_app, granted_app, Hs, Hps, Hl, Hgt.
    rewrite !app_nil_r, Nat.add_0_r. repeat split; reflexivity. }
  cbv zeta in Shape.
  destruct o as [k|e|]; cbv beta iota zeta.
  - destruct (Shape [EvLog Info (MsgDeletedTotal k
                                   (RemovePipelines.GITLAB_PROJECT_ID env))])
      as (Ss & Sl & Sp & Sg); try reflexivity.
    exists m, n. unfold only in *. rewrite Ss, Sl, Sp, Sg, Hp.
    repeat split; try assumption; try lia.
    destruct Ho as (-> & Hg' & -> & pre & Hpre).
    cbn [app printed]. rewrite printed_app, Hpre. cbn [printed].
    eexists (_ :: _ :: _ :: pre). cbn [app]. rewrite <- app_assoc. reflexivity.
  - destruct (Shape [EvLog Error (MsgErrorRemovingPipelines e)])
      as (Ss & Sl & Sp & Sg); try reflexivity.
    exists m, n. unfold only in *. rewrite Ss, Sl, Sp, Sg, Hp.
    repeat split; try assumption; try lia; discriminate.
  - destruct (Shape []) as (Ss & Sl & Sp & Sg); try reflexivity.
    rewrite app_nil_r in *.
    exists m, n. unfold only in *. rewrite Ss, Sl, Sp, Sg, Hp.
    repeat split; try assumption; try lia; discriminate.
Qed.

End ScriptLedger.

(** X1.  Whatever the service answers, remove-pipelines.ts deletes only
    what it was listed: the delete requests of a run are, in order, those
    of the first [n] elements of the listings it received, and nothing but
    list requests and deletions of the configured project is ever sent. *)
Theorem only_listed_pipelines_are_deleted {W : Type} `{Backend W}
    (env : RemovePipelines.Env) (fuel : nat) (w : W) :
  let t := (run (RemovePipelines.script env fuel) w).2 in
  (exists n, only DELETE t = map (removal env) (take n (listed t))) /\
  Forall (project_request env) (sent t) /\
  only POST t = [] /\ only PUT t = [].
Proof.
  pose proof (script_ledger env fuel w) as L.
  destruct (run (RemovePipelines.script env fuel) w) as [[o w'] t].
  destruct L as (m & n & _ & _ & _ & Hd & Hpr & _).
  cbn [snd]. cbv zeta. split; [exists n; exact Hd|]. split; [exact Hpr|].
  unfold only. clear -Hpr.
  induction Hpr as [|req reqs [[p ->]|[id ->]] _ [IHa IHb]];
    [split; reflexivity| |]; simpl; rewrite IHa, IHb; split; reflexivity.
Qed.

(** X2.  The listing is read by a page counter that only goes up: the
    list requests of a run are those of the pages 1, 2, ..., m in this
    order, each asked once, whatever was deleted in between. *)
Theorem pages_are_requested_in_turn {W : Type} `{Backend W}
    (env : RemovePipelines.Env) (fuel : nat) (w : W) :
  let t := (run (RemovePipelines.script env fuel) w).2 in
  exists m, (m <= fuel)%nat /\
            only GET t = map (RemovePipelines.list_request env) (seq 1 m).
Proof.
  pose proof (script_ledger env fuel w) as L.
  destruct (run (RemovePipelines.script env fuel) w) as [[o w'] t].
  destruct L as (m & n & Hm & _ & Hg & _).
  exists m. split; assumption.
Qed.

(** X3.  A run that exits with status 0 has deleted everything it was
    listed, in listing order, each deletion being granted; it left its
    loop through the empty page, and the total it reports is the number
    of the elements listed. *)
Theorem successful_run_deletes_all_it_listed {W : Type} `{Backend W}
    (env : RemovePipelines.Env) (fuel : nat) (w w' : W) (t : list Event) :
  run (RemovePipelines.script env fuel) w = (Returned 0, w', t) ->
  only DELETE t = map (removal env) (listed t) /\
  granted DELETE t = length (listed t) /\
  exists pre,
    printed t = pre ++ [MsgNoMorePipelines;
                        MsgDeletedTotal (length (listed t))
                          (RemovePipelines.GITLAB_PROJECT_ID env)].
Proof.
  intros R. pose proof (script_ledger env fuel w) as L. rewrite R in L.
  destruct L as (m & n & _ & _ & _ & Hd & _ & _ & _ & Ho).
  destruct (Ho eq_refl) as (-> & Hg & pre & Hpre).
  rewrite firstn_all in Hd. repeat split; try assumption.
  exists pre. exact Hpre.
Qed.

(** X4.  The pauses of a run are the five seconds before [main] and then
    one pause of DELAY_MS for every deletion that was granted; a deletion
    that fails is followed by none, and it is the last request. *)
Theorem one_pause_per_deleted_pipeline {W : Type} `{Backend W}
    (env : RemovePipelines.Env) (fuel : nat) (w : W) :
  let t := (run (RemovePipelines.script env fuel) w).2 in
  pauses t = 5000 :: repeat (RemovePipelines.DELAY_MS env) (granted DELETE t) /\
  (granted DELETE t <= length (only DELETE t) <= S (granted DELETE t))%nat.
Proof.
  pose proof (script_ledger env fuel w) as L.
  destruct (run (RemovePipelines.script env fuel) w) as [[o w'] t].
  destruct L as (m & n & _ & Hn & _ & Hd & _ & Hp & Hg & _).
  cbn [snd]. cbv zeta. split; [exact Hp|].
  rewrite Hd, length_map, length_take. lia.
Qed.

(** X3 at work: the run of the script over the 25 pipelines of the
    snapshot. *)
Lemma successful_run_deletes_all_it_listed_witness :
  exists t,
    run (RemovePipelines.script Examples.project25 3) Examples.snapshot25
    = (Returned 0, [], t) /\
    granted DELETE t = length (listed t) /\
    length (listed t) = 25%nat.
Proof.
  eexists. split; [vm_compute; reflexivity|]. split.
  - eapply (successful_run_deletes_all_it_listed Examples.project25 3
              Examples.snapshot25 []).
    vm_compute; reflexivity.
  - vm_compute; reflexivity.
Defined.

(** X5.  A project without pipelines: when the first page comes back
    empty, the script has sent that one request and nothing else, pauses
    only for its five seconds, reports 0 deletions and exits with
    status 0. *)
Theorem empty_project_is_left_alone {W : Type} `{Backend W}
    (env : RemovePipelines.Env) (fuel : nat) (w w1 : W) (res : FetchResult) :
  handle (RemovePipelines.list_request env 1) w = (res, w1) ->
  lists res [] ->
  let project := RemovePipelines.GITLAB_PROJECT_ID env in
  run (RemovePipelines.script env (S fuel)) w
  = (Returned 0, w1,
     [EvLog Info (MsgConfirmPipelines project);
      EvLog Info MsgPressCtrlC;
      EvSleep 5000;
      EvLog Info (MsgRemovingPipelines project);
      EvLog Info (MsgFetchingPipelinePage 1);
      EvSend (RemovePipelines.list_request env 1);
      EvRecv (RemovePipelines.list_request env 1) res;
      EvLog Info MsgNoMorePipelines;
      EvLog Info (MsgDeletedTotal 0 project)]).
Proof.
  intros E L project. rewrite script_unfolds, (pages_step env).
  cbn [run]. rewrite run_bind, (fetchPipelines_lists env 1 w w1 res [] E L).
  reflexivity.
Qed.

Lemma empty_project_is_left_alone_witness :
  (run (RemovePipelines.script Examples.project25 1)
     [Examples.reply 200 (JArr [])]).1
  = (Returned 0, []).
Proof.
  rewrite (empty_project_is_left_alone Examples.project25 0
             [Examples.reply 200 (JArr [])] [] (Examples.reply 200 (JArr []))).
  - reflexivity.
  - reflexivity.
  - eexists. repeat split; reflexivity.
Defined.

(** X6.  What is shown of a failed call.  remove-pipelines.ts and
    set-env-vars.ts read the body of a failed answer as JSON: when that
    body is not JSON, the error raised and logged is the parse error, and
    neither the status nor the body of the answer is shown.
    remove-env-vars.ts reads the body as text and always shows the status,
    the status text and the body. *)
Theorem unreadable_error_body_hides_the_failure `{Runtime} {W : Type} `{Backend W}
    (r : Response) (w w1 : W) :
  ok r = false -> json r = None ->
  (forall env pipelineId,
     handle (RemovePipelines.delete_request env pipelineId) w = (Resolved r, w1) ->
     run (RemovePipelines.deletePipeline env pipelineId) w
     = (Raised SyntaxError, w1,
        [EvSend (RemovePipelines.delete_request env pipelineId);
         EvRecv (RemovePipelines.delete_request env pipelineId) (Resolved r);
         EvLog Error (MsgErrorDeletingPipeline pipelineId SyntaxError)])) /\
  (forall env page,
     handle (RemovePipelines.list_request env page) w = (Resolved r, w1) ->
     run (RemovePipelines.fetchPipelines env page) w
     = (Raised SyntaxError, w1,
        [EvSend (RemovePipelines.list_request env page);
         EvRecv (RemovePipelines.list_request env page) (Resolved r);
         EvLog Error (MsgErrorFetchingPipelines SyntaxError)])) /\
  (forall env key value,
     status r <> 404 ->
     handle (SetEnvVars.update_request env key value) w = (Resolved r, w1) ->
     run (SetEnvVars.setGitLabVariable env key value) w
     = (Raised SyntaxError, w1,
        [EvSend (SetEnvVars.update_request env key value);
         EvRecv (SetEnvVars.update_request env key value) (Resolved r);
         EvLog Error (MsgErrorSettingVariable key SyntaxError)])) /\
  (forall env key,
     handle (RemoveEnvVars.delete_request env key) w = (Resolved r, w1) ->
     run (RemoveEnvVars.deleteVariable env key) w
     = (Raised (FailedToDeleteVariable key (status r) (statusText r) (text r)), w1,
        [EvLog Info (MsgDeletingVariable key);
         EvSend (RemoveEnvVars.delete_request env key);
         EvRecv (RemoveEnvVars.delete_request env key) (Resolved r);
         EvLog Error (MsgErrorDeletingVariable key
                        (FailedToDeleteVariable key (status r) (statusText r)
                           (text r)))])).
Proof.
  intros Hok Hj. repeat split.
  - intros env id E.
    unfold RemovePipelines.deletePipeline, response_json, mbind, Prog_bind.
    simpl. rewrite E. simpl. rewrite Hok, Hj. reflexivity.
  - intros env page E.
    unfold RemovePipelines.fetchPipelines, response_json, mbind, Prog_bind.
    simpl. rewrite E. simpl. rewrite Hok, Hj. reflexivity.
  - intros env key value N E.
    unfold SetEnvVars.setGitLabVariable, response_json, mbind, Prog_bind.
    simpl. rewrite E. simpl.
    destruct (status r =? 404) eqn:S; [apply Z.eqb_eq in S; contradiction|].
    simpl. rewrite Hok, Hj. reflexivity.
  - intros env key E.
    unfold RemoveEnvVars.deleteVariable, mbind, Prog_bind.
    simpl. rewrite E. simpl. rewrite Hok. reflexivity.
Qed.

Lemma unreadable_error_body_hides_the_failure_witness :
  let bad_gateway :=
    {| status := 502; statusText := "Bad Gateway"; x_total_pages := None;
       text := "<html>"; json := None |} in
  run (RemovePipelines.deletePipeline Examples.project25 (Some (JNum 7)))
    [Resolved bad_gateway]
  = (Raised SyntaxError, [],
     [EvSend (RemovePipelines.delete_request Examples.project25 (Some (JNum 7)));
      EvRecv (RemovePipelines.delete_request Examples.project25 (Some (JNum 7)))
        (Resolved bad_gateway);
      EvLog Error (MsgErrorDeletingPipeline (Some (JNum 7)) SyntaxError)]).
Proof.
  intros bad_gateway.
  apply (unreadable_error_body_hides_the_failure bad_gateway
           [Resolved bad_gateway] []); reflexivity.
Defined.

(* ================================================================== *)
(** ** set-env-vars.ts: updates, creations and their order             *)
(* ================================================================== *)

Import UploadRuns UpsertRuns.

Section UpsertFacts.
Context `{Runtime} {W : Type} `{Backend W}.
Variable env : SetEnvVars.Env.
Variable wanted : string -> string -> Prop.

Abbreviation update_request := (SetEnvVars.update_request env).
Abbreviation create_request := (SetEnvVars.create_request env).
Abbreviation entry_promise := (SetEnvVars.entry_promise env).
Abbreviation dispatch := (SetEnvVars.dispatch env).
Abbreviation Upserting := (UpsertRuns.Upserting env wanted).
Abbreviation entry_task := (UpsertRuns.entry_task env wanted).

Lemma Upserting_app (a b : list Event) :
  Upserting a -> Upserting b -> Upserting (a ++ b).
Proof.
  induction 1 as [|l m t _ IH|key value t Hw _ IH|req res t Hn _ IH
                  |key value res t Hw Hn _ IH]; intros Hb; cbn [app].
  - exact Hb.
  - apply upserting_log; auto.
  - apply upserting_update; auto.
  - apply upserting_answer; auto.
  - apply upserting_create; auto.
Qed.

Lemma advance_quiet (p : Prog bool) :
  Quiet p ->
  forall w : W, exists b logs,
    advance p w = (Settled (Returned b), w, logs) /\
    Upserting logs /\ sent logs = [] /\ received logs = [].
Proof.
  induction 1 as [b|l m k _ IH]; intros w.
  - exists b, []. repeat split; constructor.
  - destruct (IH w) as (b & logs & A & U & S & R).
    exists b, (EvLog l m :: logs). cbn [advance]. rewrite A.
    repeat split; [constructor; exact U|exact S|exact R].
Qed.

(** The promise of an entry is parked on its update request. *)
Lemma entry_promise_updating (key : string) (value : JsonValue) (w : W) :
  wanted key (ToString value) ->
  exists t,
    advance (entry_promise key value) w
    = (t, (handle (update_request key (ToString value)) w).2,
       [EvSend (update_request key (ToString value))]) /\
    UpsertRuns.updating env wanted t.
Proof.
  intros Hw.
  unfold SetEnvVars.entry_promise, SetEnvVars.setGitLabVariable, fetch,
    response_json, mbind, Prog_bind.
  cbn [try_catch bind advance].
  destruct (handle (update_request key (ToString value)) w) as [res w1].
  eexists. split; [reflexivity|].
  exists key, (ToString value), res. eexists. split; [exact Hw|].
  split; [reflexivity|].
  destruct res as [r1|]; cbn [not_found try_catch bind].
  - destruct (status r1 =? 404); cbn [try_catch bind].
    + eexists. split; [reflexivity|].
      intros [r2|]; cbn [try_catch bind].
      * destruct (ok r2); cbn [negb try_catch bind].
        -- repeat constructor.
        -- destruct (json r2); cbn [try_catch bind]; repeat constructor.
      * repeat constructor.
    + destruct (ok r1); cbn [negb try_catch bind].
      * repeat constructor.
      * destruct (json r1); cbn [try_catch bind]; repeat constructor.
  - repeat constructor.
Qed.

(** An arrival at a promise of an entry. *)
Lemma resume_entry_task (t : Task bool) :
  entry_task t ->
  forall w : W,
    let '(t', w', ev) := resume t w in
    entry_task t' /\ Upserting ev /\ only PUT ev = [].
Proof.
  intros [[b ->]|[U|C]] w.
  - simpl. split; [left; eexists; reflexivity|]. split; [constructor|reflexivity].
  - destruct U as (key & value & res & k & Hw & -> & Hk). cbn [resume].
    destruct (not_found res) eqn:N.
    + destruct Hk as (k' & -> & Hq). cbn [advance].
      destruct (handle (create_request key value) w) as [res2 w2].
      split; [|split].
      * right. right. exists key, value, res2, k'. auto.
      * apply upserting_create; [exact Hw|exact N|constructor].
      * reflexivity.
    + destruct (advance_quiet _ Hk w) as (b & logs & -> & U & S & R).
      split; [left; eexists; reflexivity|]. split.
      * apply upserting_answer; [rewrite N; apply andb_false_r|exact U].
      * unfold only. cbn [sent]. rewrite S. reflexivity.
  - destruct C as (key & value & res & k & Hw & -> & Hk). cbn [resume].
    destruct (advance_quiet _ Hk w) as (b & logs & -> & U & S & R).
    split; [left; eexists; reflexivity|]. split.
    + apply upserting_answer; [reflexivity|exact U].
    + unfold only. cbn [sent]. rewrite S. reflexivity.
Qed.

Lemma arrive_entry_tasks (ts : list (Task bool)) :
  Forall entry_task ts ->
  forall (i : nat) (w : W),
    let '(ts', w', ev) := arrive i ts w in
    Forall entry_task ts' /\ Upserting ev /\ only PUT ev = [].
Proof.
  induction 1 as [|t ts Ht Hts IH]; intros i w.
  - simpl. repeat split; constructor.
  - destruct i as [|j]; cbn [arrive].
    + pose proof (resume_entry_task t Ht w) as R.
      destruct (resume t w) as [[t' w'] ev]. destruct R as (Ht' & U & P).
      split; [constructor; assumption|]. split; assumption.
    + specialize (IH j w). destruct (arrive j ts w) as [[ts' w'] ev].
      destruct IH as (Hts' & U & P).
      split; [constructor; assumption|]. split; assumption.
Qed.

Lemma allSettled_entry_tasks (arrivals : list nat) :
  forall (ts : list (Task bool)) (w w' : W) (os : list (Outcome bool))
         (ev : list Event),
    Forall entry_task ts ->
    allSettled arrivals ts w = Some (os, w', ev) ->
    Upserting ev /\ only PUT ev = [].
Proof.
  induction arrivals as [|i later IH]; intros ts w w' os ev Hts A;
    cbn [allSettled] in A; destruct (outcomes ts) as [os0|].
  - injection A as <- <- <-. split; [constructor|reflexivity].
  - discriminate A.
  - injection A as <- <- <-. split; [constructor|reflexivity].
  - pose proof (arrive_entry_tasks ts Hts i w) as R.
    destruct (arrive i ts w) as [[ts1 w1] ev1]. destruct R as (Hts1 & U1 & P1).
    destruct (allSettled later ts1 w1) as [[[os2 w2] ev2]|] eqn:A2;
      [|discriminate A].
    injection A as <- <- <-.
    destruct (IH ts1 w1 w2 os2 ev2 Hts1 A2) as (U2 & P2).
    split; [apply Upserting_app; assumption|].
    rewrite only_app, P1, P2. reflexivity.
Qed.

(** The loop over the entries starts promises of entries and shows only
    warnings and update requests. *)
Lemma dispatch_entry_tasks (entries : list (string * JsonValue)) :
  (forall key value, In (key, value) entries ->
                     SetEnvVars.is_primitive value = true ->
                     wanted key (ToString value)) ->
  forall w : W,
    let '(ts, w', ev) := dispatch entries w in
    Forall entry_task ts /\ Upserting ev.
Proof.
  induction entries as [|[key value] entries IH]; intros Hw w.
  - simpl. split; constructor.
  - cbn [SetEnvVars.dispatch].
    assert (Hw' : forall k v, In (k, v) entries ->
                              SetEnvVars.is_primitive v = true ->
                              wanted k (ToString v)).
    { intros k v Hin. apply Hw. right. exact Hin. }
    destruct (SetEnvVars.is_primitive value) eqn:P.
    + destruct (entry_promise_updating key value w
                  (Hw key value (or_introl eq_refl) P)) as (t & -> & U).
      specialize (IH Hw' (handle (update_request key (ToString value)) w).2).
      destruct (dispatch entries (handle (update_request key (ToString value)) w).2)
        as [[ts w2] ev2].
      destruct IH as [Hts Hev]. split.
      * constructor; [right; left; exact U|exact Hts].
      * cbn [app]. apply upserting_update; [|exact Hev].
        apply (Hw key value (or_introl eq_refl) P).
    + specialize (IH Hw' w). destruct (dispatch entries w) as [[ts w2] ev2].
      destruct IH as [Hts Hev]. split; [exact Hts|constructor; exact Hev].
Qed.

End UpsertFacts.

Section UpsertingShape.
Context `{Runtime}.
Variable env : SetEnvVars.Env.
Variable wanted : string -> string -> Prop.

Abbreviation update_request := (SetEnvVars.update_request env).
Abbreviation create_request := (SetEnvVars.create_request env).
Abbreviation Upserting := (UpsertRuns.Upserting env wanted).

(** After the answer 404 to an update request comes the create request
    of the same variable. *)
Lemma upserting_next (t : list Event) :
  Upserting t ->
  forall pre req res post,
    t = pre ++ EvRecv req res :: post ->
    method req = PUT -> not_found res = true ->
    exists key value post',
      wanted key value /\ req = update_request key value /\
      post = EvSend (create_request key value) :: post'.
Proof.
  induction 1 as [|l m t _ IH|key value t Hw _ IH|req0 res0 t Hn _ IH
                  |key value res0 t Hw Hn _ IH]; intros pre req res post E M N.
  - destruct pre; discriminate E.
  - destruct pre as [|e pre]; [discriminate E|]. injection E as _ E. eauto.
  - destruct pre as [|e pre]; [discriminate E|]. injection E as _ E. eauto.
  - destruct pre as [|e pre].
    + injection E as <- <- <-. unfold is_method in Hn. rewrite M, N in Hn.
      discriminate Hn.
    + injection E as _ E. eauto.
  - destruct pre as [|e pre].
    + injection E as <- <- <-. exists key, value, t. auto.
    + injection E as _ E. destruct pre as [|e' pre]; [discriminate E|].
      injection E as _ E. eauto.
Qed.

(** Before a create request comes the answer 404 to the update request
    of the same variable. *)
Lemma upserting_before (t : list Event) :
  Upserting t ->
  forall pre req post,
    t = pre ++ EvSend req :: post ->
    method req = POST ->
    exists pre' key value res,
      wanted key value /\
      pre = pre' ++ [EvRecv (update_request key value) res] /\
      not_found res = true /\ req = create_request key value.
Proof.
  induction 1 as [|l m t _ IH|key value t Hw _ IH|req0 res0 t Hn _ IH
                  |key value res0 t Hw Hn _ IH]; intros pre req post E M.
  - destruct pre; discriminate E.
  - destruct pre as [|e pre]; [discriminate E|]. injection E as <- E.
    destruct (IH pre req post E M) as (pre' & k & v & res & Hk & -> & Hr & ->).
    exists (EvLog l m :: pre'), k, v, res. auto.
  - destruct pre as [|e pre].
    + injection E as <- _. discriminate M.
    + injection E as <- E.
      destruct (IH pre req post E M) as (pre' & k & v & res & Hk & -> & Hr & ->).
      exists (EvSend (update_request key value) :: pre'), k, v, res. auto.
  - destruct pre as [|e pre]; [discriminate E|]. injection E as <- E.
    destruct (IH pre req post E M) as (pre' & k & v & res & Hk & -> & Hr & ->).
    exists (EvRecv req0 res0 :: pre'), k, v, res. auto.
  - destruct pre as [|e pre]; [discriminate E|]. injection E as <- E.
    destruct pre as [|e' pre].
    + injection E as <- _. exists [], key, value, res0. auto.
    + injection E as <- E.
      destruct (IH pre req post E M) as (pre' & k & v & res & Hk & -> & Hr & ->).
      exists (EvRecv (update_request key value) res0
              :: EvSend (create_request key value) :: pre'), k, v, res. auto.
Qed.

(** Nothing is sent but update and create requests of wanted variables. *)
Lemma upserting_sent (t : list Event) :
  Upserting t ->
  Forall (fun req => exists key value,
            wanted key value /\
            (req = update_request key value \/ req = create_request key value))
         (sent t).
Proof.
  induction 1 as [|l m t _ IH|key value t Hw _ IH|req0 res0 t Hn _ IH
                  |key value res0 t Hw Hn _ IH]; cbn [sent]; try assumption.
  - constructor.
  - constructor; [|exact IH]. exists key, value. auto.
  - constructor; [|exact IH]. exists key, value. auto.
Qed.

End UpsertingShape.

Section UpsertMain.
Context `{Runtime} {W : Type} `{Backend W}.
Variable env : SetEnvVars.Env.

Lemma entries_asked_for (doc : JsonValue) (key : string) (value : JsonValue) :
  In (key, value) (Object_entries doc) ->
  SetEnvVars.is_primitive value = true ->
  asked_for doc key (ToString value).
Proof.
  intros Hin P. exists value. split; [|reflexivity].
  unfold attempts. apply filter_In. split; [exact Hin|exact P].
Qed.

(** A run over an accepted document: the line that announces it, what
    the loop over the entries shows, what the arrivals show. *)
Lemma main_upserts (fs : string -> SetEnvVars.File) (doc : JsonValue)
    (arrivals : list nat) (w : W) :
  accepted (fs (SetEnvVars.ENV_FILE_PATH env)) = Some doc ->
  exists ev1 rest,
    (SetEnvVars.main env fs arrivals w).2
    = EvLog Info (MsgSettingVariables (SetEnvVars.GITLAB_PROJECT_ID env))
      :: ev1 ++ rest /\
    sent ev1 = map (fun entry => SetEnvVars.update_request env entry.1
                                   (ToString entry.2)) (attempts doc) /\
    received ev1 = [] /\
    only PUT rest = [] /\
    UpsertRuns.Upserting env (asked_for doc) ev1 /\
    UpsertRuns.Upserting env (asked_for doc) rest.
Proof.
  intros Hacc.
  destruct (main_unfolds env fs doc arrivals w Hacc) as (ts & w1 & ev1 & D & M).
  pose proof (dispatch_entry_tasks env (asked_for doc) (Object_entries doc)
                (entries_asked_for doc) w) as T.
  pose proof (dispatch_spec env (Object_entries doc) w) as S.
  rewrite D in T, S. cbv zeta in S.
  destruct T as [Hts Hev1]. destruct S as (_ & _ & _ & _ & Hs & Hr & _).
  destruct (allSettled arrivals ts w1) as [[[os w2] ev2]|] eqn:A.
  - destruct M as (_ & _ & ->).
    destruct (allSettled_entry_tasks env (asked_for doc) arrivals ts w1 w2 os ev2
                Hts A) as (U2 & P2).
    exists ev1, (ev2 ++ [EvLog Info (MsgSuccessfullySet (SetEnvVars.counted os)
                                       (SetEnvVars.ENV_FILE_PATH env))]).
    split; [reflexivity|]. split; [exact Hs|]. split; [exact Hr|]. split.
    + rewrite only_app, P2. reflexivity.
    + split; [exact Hev1|]. apply Upserting_app; [exact U2|repeat constructor].
  - rewrite M. exists ev1, []. cbn [snd]. rewrite app_nil_r.
    split; [reflexivity|]. split; [exact Hs|]. split; [exact Hr|].
    split; [reflexivity|]. split; [exact Hev1|constructor].
Qed.

Lemma main_upserting (fs : string -> SetEnvVars.File) (doc : JsonValue)
    (arrivals : list nat) (w : W) :
  accepted (fs (SetEnvVars.ENV_FILE_PATH env)) = Some doc ->
  UpsertRuns.Upserting env (asked_for doc) (SetEnvVars.main env fs arrivals w).2.
Proof.
  intros Hacc.
  destruct (main_upserts fs doc arrivals w Hacc) as (ev1 & rest & -> & _ & _ & _ & U1 & U2).
  constructor. apply Upserting_app; assumption.
Qed.

End UpsertMain.

(** X7.  What set-env-vars.ts writes, for every remote service and every
    order of arrival, over a document whose numbers are integers: each
    request of a run is the update or the create request of an entry of
    the document whose value is a string, a number or a boolean; the value
    it carries is the string itself, [true] or [false] for a boolean, and
    the decimal digits of an integer below 2^53 in absolute value; and it
    asks for a variable that is neither protected nor masked, in the
    configured environment. *)
Theorem only_asked_variables_are_written `{Runtime} {W : Type} `{Backend W}
    (env : SetEnvVars.Env) (fs : string -> SetEnvVars.File) (doc : JsonValue)
    (arrivals : list nat) (w : W) :
  accepted (fs (SetEnvVars.ENV_FILE_PATH env)) = Some doc ->
  Forall (fun req =>
            (exists key value s,
               In (key, value) (Object_entries doc) /\
               Stated.primitive value = true /\
               Stated.written_as value s /\
               payload req "value" = Some (JStr s) /\
               (req = SetEnvVars.update_request env key s \/
                req = SetEnvVars.create_request env key s)) /\
            (method req = PUT \/ method req = POST) /\
            payload req "protected" = Some (JBool false) /\
            payload req "masked" = Some (JBool false) /\
            payload req "environment_scope"
            = Some (JStr (SetEnvVars.GITLAB_ENVIRONMENT env)))
         (sent (SetEnvVars.main env fs arrivals w).2).
Proof.
  intros Hacc.
  pose proof (upserting_sent env (asked_for doc) _
                (main_upserting env fs doc arrivals w Hacc)) as S.
  eapply Forall_impl; [exact S|]. cbv beta.
  intros req (key & value & (v & Hin & ->) & Hreq). split.
  - apply filter_In in Hin as [Hin P]. cbn [snd] in P.
    exists key, v, (ToString v). split; [exact Hin|].
    split; [destruct v; try discriminate P; reflexivity|].
    split; [destruct v as [|[]| | | |]; try discriminate P; cbn; auto|].
    split; [destruct Hreq as [-> | ->]; reflexivity|exact Hreq].
  - destruct Hreq as [-> | ->]; repeat split; auto.
Qed.

Lemma only_asked_variables_are_written_witness :
  let doc := JObj [("A", JStr "1"); ("B", JNum 20); ("C", JArr [])] in
  let t := (SetEnvVars.main Examples.uat
              (fun _ => SetEnvVars.Content "" (Some doc)) [0; 0; 1]%nat
              [Examples.reply 404 JNull; Examples.reply 200 JNull;
               Examples.reply 201 JNull]).2 in
  sent t = [SetEnvVars.update_request Examples.uat "A" "1";
            SetEnvVars.update_request Examples.uat "B" "20";
            SetEnvVars.create_request Examples.uat "A" "1"] /\
  Forall (fun req =>
            (exists key value s,
               In (key, value) (Object_entries doc) /\
               Stated.primitive value = true /\
               Stated.written_as value s /\
               payload req "value" = Some (JStr s) /\
               (req = SetEnvVars.update_request Examples.uat key s \/
                req = SetEnvVars.create_request Examples.uat key s)) /\
            (method req = PUT \/ method req = POST) /\
            payload req "protected" = Some (JBool false) /\
            payload req "masked" = Some (JBool false) /\
            payload req "environment_scope"
            = Some (JStr (SetEnvVars.GITLAB_ENVIRONMENT Examples.uat)))
         (sent t).
Proof.
  intros doc t. split; [reflexivity|].
  apply (only_asked_variables_are_written Examples.uat
           (fun _ => SetEnvVars.Content "" (Some doc)) doc [0; 0; 1]%nat
           [Examples.reply 404 JNull; Examples.reply 200 JNull;
            Examples.reply 201 JNull]).
  reflexivity.
Defined.

(** X8.  Create follows "not found", for every document, every remote
    service and every order of arrival: whenever an update request is
    answered 404, the very next thing the script does is to send the
    create request of the same variable; and a create request is never
    sent otherwise. *)
Theorem create_follows_not_found `{Runtime} {W : Type} `{Backend W}
    (env : SetEnvVars.Env) (fs : string -> SetEnvVars.File)
    (arrivals : list nat) (w : W) :
  let t := (SetEnvVars.main env fs arrivals w).2 in
  (forall pre req res post,
     t = pre ++ EvRecv req res :: post ->
     method req = PUT -> not_found res = true ->
     exists key value post',
       req = SetEnvVars.update_request env key value /\
       post = EvSend (SetEnvVars.create_request env key value) :: post') /\
  (forall pre req post,
     t = pre ++ EvSend req :: post ->
     method req = POST ->
     exists pre' key value res,
       pre = pre' ++ [EvRecv (SetEnvVars.update_request env key value) res] /\
       not_found res = true /\
       req = SetEnvVars.create_request env key value).
Proof.
  cbv zeta.
  destruct (accepted (fs (SetEnvVars.ENV_FILE_PATH env))) as [doc|] eqn:Hacc.
  - pose proof (main_upserting env fs doc arrivals w Hacc) as U. split.
    + intros pre req res post E M N.
      destruct (upserting_next env _ _ U pre req res post E M N)
        as (key & value & post' & _ & -> & ->).
      exists key, value, post'. auto.
    + intros pre req post E M.
      destruct (upserting_before env _ _ U pre req post E M)
        as (pre' & key & value & res & _ & -> & N & ->).
      exists pre', key, value, res. auto.
  - destruct (main_rejects env fs arrivals w Hacc) as (line & ->). cbn [snd].
    split.
    + intros [|e [|e' pre]] req res post E; discriminate E.
    + intros [|e [|e' pre]] req post E; discriminate E.
Qed.

(** X9.  The updates are started side by side: in a run over an accepted
    document the update requests of all the primitive entries leave, in
    the order of the document, before the first answer is read, and what
    is sent after that are create requests only. *)
Theorem updates_leave_before_any_answer `{Runtime} {W : Type} `{Backend W}
    (env : SetEnvVars.Env) (fs : string -> SetEnvVars.File) (doc : JsonValue)
    (arrivals : list nat) (w : W) :
  accepted (fs (SetEnvVars.ENV_FILE_PATH env)) = Some doc ->
  exists started rest,
    (SetEnvVars.main env fs arrivals w).2
    = EvLog Info (MsgSettingVariables (SetEnvVars.GITLAB_PROJECT_ID env))
      :: started ++ rest /\
    sent started = map (fun entry => SetEnvVars.update_request env entry.1
                                       (ToString entry.2)) (attempts doc) /\
    received started = [] /\
    only PUT rest = [].
Proof.
  intros Hacc.
  destruct (main_upserts env fs doc arrivals w Hacc)
    as (ev1 & rest & E & S & R & P & _).
  exists ev1, rest. auto.
Qed.

Lemma updates_leave_before_any_answer_witness :
  exists started rest,
    (SetEnvVars.main Examples.uat
       (fun _ => SetEnvVars.Content "" (Some (JObj [("A", JStr "1"); ("B", JNum 2)])))
       [1; 0; 0]%nat
       [Examples.reply 404 JNull; Examples.reply 200 JNull;
        Examples.reply 201 JNull]).2
    = EvLog Info (MsgSettingVariables "42") :: started ++ rest /\
    sent started = [SetEnvVars.update_request Examples.uat "A" "1";
                    SetEnvVars.update_request Examples.uat "B" "2"] /\
    received started = [] /\
    only PUT rest = [].
Proof.
  apply (updates_leave_before_any_answer Examples.uat
           (fun _ => SetEnvVars.Content ""
                       (Some (JObj [("A", JStr "1"); ("B", JNum 2)])))
           (JObj [("A", JStr "1"); ("B", JNum 2)])).
  reflexivity.
Defined.

(** X10.  Nothing to upload: over an accepted document without a
    primitive entry (the empty object among them) the script sends
    nothing, reports 0 variables and exits with status 0, whatever
    arrives. *)
Theorem nothing_to_upload `{Runtime} {W : Type} `{Backend W}
    (env : SetEnvVars.Env) (fs : string -> SetEnvVars.File) (doc : JsonValue)
    (arrivals : list nat) (w : W) :
  accepted (fs (SetEnvVars.ENV_FILE_PATH env)) = Some doc ->
  attempts doc = [] ->
  exists t,
    SetEnvVars.main env fs arrivals w = (Some 0, w, t) /\
    sent t = [] /\
    last (printed t)
    = Some (MsgSuccessfullySet 0 (SetEnvVars.ENV_FILE_PATH env)).
Proof.
  intros Hacc Hnone.
  destruct (main_unfolds env fs doc arrivals w Hacc) as (ts & w1 & ev1 & D & M).
  pose proof (dispatch_spec env (Object_entries doc) w) as S.
  rewrite D in S. cbv zeta in S.
  destruct S as (_ & _ & _ & _ & Hs & _ & Hd & _).
  unfold attempts in Hnone. rewrite Hnone in Hs, Hd.
  cbn [SetEnvVars.dispatch map] in Hs, Hd. injection Hd as <- <- _.
  assert (A : allSettled arrivals ([] : list (Task bool)) w = Some ([], w, [])).
  { destruct arrivals; reflexivity. }
  rewrite A in M. destruct M as (_ & _ & ->).
  eexists. split; [reflexivity|]. cbn [sent printed]. rewrite sent_app, Hs.
  split; [reflexivity|].
  rewrite printed_app. cbn [app printed]. 
  rewrite app_comm_cons, last_snoc. reflexivity.
Qed.

Lemma nothing_to_upload_witness :
  exists t,
    SetEnvVars.main Examples.uat
      (fun _ => SetEnvVars.Content "{}" (Some (JObj []))) [] ([] : list FetchResult)
    = (Some 0, [], t) /\
    sent t = [] /\
    last (printed t) = Some (MsgSuccessfullySet 0 "uat.env.json").
Proof.
  apply (nothing_to_upload Examples.uat
           (fun _ => SetEnvVars.Content "{}" (Some (JObj []))) (JObj []));
    reflexivity.
Defined.

(* ================================================================== *)
(** ** remove-env-vars.ts: the listing and the start of the deletions  *)
(* ================================================================== *)

Import VariableRuns ListingRuns.

Section ListingLedger.
Context `{Runtime} {W : Type} `{Backend W}.
Variable env : RemoveEnvVars.Env.

Abbreviation page_request := (RemoveEnvVars.page_request env).
Abbreviation fetch_pages := (RemoveEnvVars.fetch_pages env).

(** The loop over the pages, whatever the service answers: what it
    returns is what it had, followed by what the pages handed over. *)
Lemma fetch_pages_ledger (fuel : nat) :
  forall (page : nat) (acc variables : list JsonValue) (w w' : W)
         (t : list Event),
    run (fetch_pages fuel page acc) w = (Returned variables, w', t) ->
    variables = acc ++ listed t /\
    exists m,
      sent t = map page_request (seq page (S m)) /\
      Forall succeeded (received t) /\
      announced page (received t) = repeat true m ++ [false].
Proof.
  induction fuel as [|fuel IH]; intros page acc variables w w' t R.
  - discriminate R.
  - rewrite (fetch_pages_step env) in R. unfold fetch, response_json, iterable in R.
    cbn [run bind] in R.
    destruct (handle (page_request page) w) as [res w1] eqn:E.
    destruct res as [r|]; cbn [bind run] in R; [|discriminate R].
    destruct (ok r) eqn:Hok; cbn [negb bind run] in R; [|discriminate R].
    assert (F : succeeded (Resolved r)).
    { unfold succeeded. simpl. rewrite Hok. reflexivity. }
    destruct (json r) as [v|] eqn:J; cbn [bind run] in R; [|discriminate R].
    destruct (iterate v) as [items|] eqn:I; cbn [bind run] in R; [|discriminate R].
    destruct (RemoveEnvVars.hasMorePages page (RemoveEnvVars.totalPages r)) eqn:M.
    + destruct (run (fetch_pages fuel (S page) (acc ++ items)) w1)
        as [[o w2] t'] eqn:R'.
      injection R as -> <- <-.
      destruct (IH (S page) (acc ++ items) variables w1 w2 t' R')
        as (-> & m & Hs & Ho & Ha).
      cbn [listed sent received announced announces_more method
           RemoveEnvVars.page_request].
      rewrite Hok, J, I, M, Hs, Ha. split; [rewrite app_assoc; reflexivity|].
      exists (S m). repeat split; [constructor; assumption].
    + cbn [run] in R. injection R as <- <- <-.
      cbn [listed sent received announced announces_more method
           RemoveEnvVars.page_request].
      rewrite Hok, J, I, M. split; [rewrite app_nil_r; reflexivity|].
      exists 0%nat. repeat split. constructor; [exact F|constructor].
Qed.

End ListingLedger.

(** X11.  What the lister returns, for every remote service: the
    elements of the pages it received, in the order in which it asked for
    them; the pages asked for are 1, 2, ..., each once and each answered
    with a success; and the loop went on exactly as long as the header
    x-total-pages of the last answer announced more (a missing or empty
    header counting as "1", one that is not a number as no more). *)
Theorem lister_returns_what_it_received `{Runtime} {W : Type} `{Backend W}
    (env : RemoveEnvVars.Env) (fuel : nat) (w w' : W)
    (variables : list JsonValue) (t : list Event) :
  run (RemoveEnvVars.fetchEnvironmentVariables env fuel) w
  = (Returned variables, w', t) ->
  variables = listed t /\
  exists m,
    sent t = map (RemoveEnvVars.page_request env) (seq 1 (S m)) /\
    Forall succeeded (received t) /\
    announced 1 (received t) = repeat true m ++ [false].
Proof.
  unfold RemoveEnvVars.fetchEnvironmentVariables, mbind, Prog_bind.
  cbn [run]. rewrite run_try_catch, run_bind.
  destruct (run (RemoveEnvVars.fetch_pages env fuel 1 []) w) as [[o w1] t1] eqn:R.
  destruct o as [vars|e|]; cbn [run]; [|discriminate|discriminate].
  intros [= <- <- <-].
  destruct (fetch_pages_ledger env fuel 1 [] vars w w1 t1 R) as (-> & m & Hs & Ho & Ha).
  cbn [app listed sent received].
  rewrite listed_app, sent_app, received_app. cbn [listed sent received].
  rewrite !app_nil_r. split; [reflexivity|]. exists m. auto.
Qed.

Lemma lister_returns_what_it_received_witness :
  let items := [Examples.variable "A" "production";
                Examples.variable "B" "production";
                Examples.variable "C" "production"] in
  let w := [Examples.reply_page "2" (take 2 items);
            Examples.reply_page "2" (drop 2 items)] in
  exists t,
    run (RemoveEnvVars.fetchEnvironmentVariables Examples.production 2) w
    = (Returned items, [], t) /\
    items = listed t.
Proof.
  intros items w. eexists. split; [vm_compute; reflexivity|].
  eapply (lister_returns_what_it_received Examples.production 2 w []).
  vm_compute; reflexivity.
Defined.

(** X12.  An environment without variables: when the first page comes
    back empty and announces no further page, the script has sent that one
    request, deletes nothing, prints no summary and exits with status 0. *)
Theorem empty_environment_is_left_alone `{Runtime} {W : Type} `{Backend W}
    (env : RemoveEnvVars.Env) (fuel : nat) (arrivals : list nat) (w w1 : W)
    (r : Response) :
  handle (RemoveEnvVars.page_request env 1) w = (Resolved r, w1) ->
  ok r = true -> json r = Some (JArr []) ->
  RemoveEnvVars.hasMorePages 1 (RemoveEnvVars.totalPages r) = false ->
  let environment := RemoveEnvVars.GITLAB_ENVIRONMENT env in
  RemoveEnvVars.removeAllEnvironmentVariables env (S fuel) arrivals w
  = (Some 0, w1,
     [EvLog Info (MsgStartingRemoval environment);
      EvLog Info (MsgFetchingVariables environment);
      EvLog Info (MsgFetchingPage 1);
      EvSend (RemoveEnvVars.page_request env 1);
      EvRecv (RemoveEnvVars.page_request env 1) (Resolved r);
      EvLog Info (MsgFoundVariables 0 environment);
      EvLog Info (MsgNoVariables environment)]).
Proof.
  intros E Hok J M environment.
  unfold RemoveEnvVars.removeAllEnvironmentVariables,
    RemoveEnvVars.fetchEnvironmentVariables, mbind, Prog_bind.
  rewrite (fetch_pages_step env). unfold fetch, response_json, iterable.
  cbn [run bind try_catch]. rewrite E. cbn [run bind try_catch].
  rewrite Hok. cbn [negb run bind try_catch]. rewrite J.
  cbn [iterate run bind try_catch app]. rewrite M. reflexivity.
Qed.

Lemma empty_environment_is_left_alone_witness :
  (RemoveEnvVars.removeAllEnvironmentVariables Examples.production 1 []
     [Examples.reply_page "1" []]).1
  = (Some 0, []).
Proof.
  rewrite (empty_environment_is_left_alone Examples.production 0 []
             [Examples.reply_page "1" []] []
             {| status := 200; statusText := "OK"; x_total_pages := Some "1";
                text := ""; json := Some (JArr []) |});
    reflexivity.
Defined.

(** X13.  The deletions are started side by side, and none is held back
    by the failure of another: after a listing of K >= 1 variables the
    delete requests of all of them leave, in listing order, before the
    answer to any of them is read, and nothing is sent after that,
    whatever the answers are and in whatever order they arrive. *)
Theorem deletions_are_started_side_by_side `{Runtime} {W : Type} `{Backend W}
    (env : RemoveEnvVars.Env) (fuel : nat) (arrivals : list nat) (w w1 : W)
    (t1 : list Event) (variables : list JsonValue) :
  run (RemoveEnvVars.fetchEnvironmentVariables env fuel) w
  = (Returned variables, w1, t1) ->
  variables <> [] ->
  Forall (fun variable => variable <> JNull) variables ->
  exists started rest,
    (RemoveEnvVars.removeAllEnvironmentVariables env fuel arrivals w).2
    = EvLog Info (MsgStartingRemoval (RemoveEnvVars.GITLAB_ENVIRONMENT env))
      :: t1 ++ EvLog Info (MsgPreparing (length variables)) :: started ++ rest /\
    sent started = map (removal env) variables /\
    received started = [] /\
    sent rest = [].
Proof.
  intros R NE NN.
  destruct (serve (map (removal env) variables) w1) as [ress w2] eqn:Sv.
  destruct (start_deletes_spec env variables w1 w2 ress NN Sv)
    as (tasks & ev & St & F2 & Hlt & Hs & Hr & Hp & He).
  pose proof (serve_length _ _ _ _ Sv) as Hlen. rewrite length_map in Hlen.
  destruct (parked_facts env variables ress Hlen) as (Ps & Pr & Pf & Pj).
  destruct (owed_parked tasks _ F2) as [Ow Pd].
  assert (Hz : (length variables =? 0)%nat = false).
  { destruct variables; [congruence|reflexivity]. }
  unfold RemoveEnvVars.removeAllEnvironmentVariables.
  rewrite R, Hz, St.
  destruct (allSettled arrivals tasks w2) as [[[os w3] ev3]|] eqn:Ha.
  - destruct (allSettled_parked arrivals tasks _ w2 w3 os ev3 Pd Ha)
      as (-> & -> & Hperm).
    rewrite Ow in Hperm.
    assert (Hs3 : sent ev3 = []).
    { apply Permutation_nil. symmetry. rewrite <- Ps.
      apply sent_Permutation. exact Hperm. }
    destruct (0 <? _)%nat; cbn [snd]; eexists ev, _;
      (split; [reflexivity|]); (split; [exact Hs|]); (split; [exact Hr|]);
      rewrite !sent_app, Hs3; reflexivity.
  - cbn [snd]. exists ev, []. rewrite app_nil_r.
    repeat split; assumption.
Qed.

Lemma deletions_are_started_side_by_side_witness :
  let w := [Examples.reply_page "1" [Examples.variable "A" "production";
                                     Examples.variable "B" "production"];
            Examples.reply 500 JNull; Examples.reply 204 JNull] in
  exists started rest,
    (RemoveEnvVars.removeAllEnvironmentVariables Examples.production 5
       [1; 0]%nat w).2
    = EvLog Info (MsgStartingRemoval "production")
      :: (run (RemoveEnvVars.fetchEnvironmentVariables Examples.production 5) w).2
      ++ EvLog Info (MsgPreparing 2) :: started ++ rest /\
    sent started
    = [RemoveEnvVars.delete_request Examples.production (Some (JStr "A"));
       RemoveEnvVars.delete_request Examples.production (Some (JStr "B"))] /\
    received started = [] /\
    sent rest = [].
Proof.
  intros w.
  apply (deletions_are_started_side_by_side Examples.production 5 [1; 0]%nat w
           [Examples.reply 500 JNull; Examples.reply 204 JNull]
           (run (RemoveEnvVars.fetchEnvironmentVariables Examples.production 5) w).2
           [Examples.variable "A" "production"; Examples.variable "B" "production"]).
  - reflexivity.
  - discriminate.
  - repeat constructor; discriminate.
Defined.

(* ================================================================== *)
(** ** What the scripts may send                                       *)
(* ================================================================== *)

Import Footprint.

Lemma Sends_bind {A B : Type} (P : Request -> Prop) (p : Prog A) (f : A -> Prog B) :
  Sends P p -> (forall a, Sends P (f a)) -> Sends P (bind p f).
Proof.
  intros Hp Hf. induction Hp; cbn [bind]; try (constructor; auto; fail).
  apply Hf.
Qed.

Lemma Sends_try_catch {A : Type} (P : Request -> Prop) (p : Prog A)
    (h : JsError -> Prog A) :
  Sends P p -> (forall e, Sends P (h e)) -> Sends P (try_catch p h).
Proof.
  intros Hp Hh. induction Hp; cbn [try_catch]; try (constructor; auto; fail).
  apply Hh.
Qed.

Lemma Sends_fetch (P : Request -> Prop) (req : Request) :
  P req -> Sends P (fetch req).
Proof.
  intros Hreq. unfold fetch. constructor; [exact Hreq|].
  intros [r|]; constructor.
Qed.

Lemma Sends_response_json (P : Request -> Prop) (r : Response) :
  Sends P (response_json r).
Proof. unfold response_json. destruct (json r); constructor. Qed.

Lemma Sends_prop (P : Request -> Prop) (v : JsonValue) (name : string) :
  Sends P (prop v name).
Proof. unfold prop. destruct (get_prop v name); constructor. Qed.

Lemma Sends_iterable (P : Request -> Prop) (v : JsonValue) :
  Sends P (iterable v).
Proof. unfold iterable. destruct (iterate v); constructor. Qed.

Section SendsFacts.
Context {W : Type} `{Backend W}.
Variable P : Request -> Prop.

Lemma run_sends {A : Type} (p : Prog A) :
  Sends P p -> forall w : W, Forall P (sent (run p w).2).
Proof.
  induction 1 as [a|e| |l m k _ IH|ms k _ IH|req k Hreq _ IH]; intros w;
    cbn [run]; try constructor.
  - specialize (IH w). destruct (run k w) as [[o w'] t]. exact IH.
  - specialize (IH w). destruct (run k w) as [[o w'] t]. exact IH.
  - destruct (handle req w) as [res w1]. specialize (IH res w1).
    destruct (run (k res) w1) as [[o w'] t]. cbn [snd sent].
    constructor; [exact Hreq|exact IH].
Qed.

Lemma advance_sends {A : Type} (p : Prog A) :
  Sends P p ->
  forall w : W,
    let '(t, w', ev) := advance p w in task_sends P t /\ Forall P (sent ev).
Proof.
  induction 1 as [a|e| |l m k _ IH|ms k Hk _|req k Hreq Hk _]; intros w;
    cbn [advance]; try (split; constructor).
  - specialize (IH w). destruct (advance k w) as [[t w'] ev]. exact IH.
  - split; [exact Hk|constructor].
  - destruct (handle req w) as [res w1]. split; [apply Hk|].
    repeat constructor. exact Hreq.
Qed.

Lemma resume_sends {A : Type} (t : Task A) :
  task_sends P t ->
  forall w : W,
    let '(t', w', ev) := resume t w in task_sends P t' /\ Forall P (sent ev).
Proof.
  intros Ht w. destruct t as [o|req res k|ms k]; cbn [resume].
  - split; constructor.
  - pose proof (advance_sends (k res) Ht w) as Ad.
    destruct (advance (k res) w) as [[t' w'] ev]. exact Ad.
  - pose proof (advance_sends k Ht w) as Ad.
    destruct (advance k w) as [[t' w'] ev]. exact Ad.
Qed.

Lemma arrive_sends {A : Type} (ts : list (Task A)) :
  Forall (task_sends P) ts ->
  forall (i : nat) (w : W),
    let '(ts', w', ev) := arrive i ts w in
    Forall (task_sends P) ts' /\ Forall P (sent ev).
Proof.
  induction 1 as [|t ts Ht Hts IH]; intros i w.
  - simpl. split; constructor.
  - destruct i as [|j]; cbn [arrive].
    + pose proof (resume_sends t Ht w) as R.
      destruct (resume t w) as [[t' w'] ev]. destruct R as [Ht' Hev].
      split; [constructor; assumption|exact Hev].
    + specialize (IH j w). destruct (arrive j ts w) as [[ts' w'] ev].
      destruct IH as [Hts' Hev]. split; [constructor; assumption|exact Hev].
Qed.

Lemma allSettled_sends {A : Type} (arrivals : list nat) :
  forall (ts : list (Task A)) (w w' : W) (os : list (Outcome A)) (ev : list Event),
    Forall (task_sends P) ts ->
    allSettled arrivals ts w = Some (os, w', ev) ->
    Forall P (sent ev).
Proof.
  induction arrivals as [|i later IH]; intros ts w w' os ev Hts Ha;
    cbn [allSettled] in Ha; destruct (outcomes ts) as [os0|].
  - injection Ha as <- <- <-. constructor.
  - discriminate Ha.
  - injection Ha as <- <- <-. constructor.
  - pose proof (arrive_sends ts Hts i w) as R.
    destruct (arrive i ts w) as [[ts1 w1] ev1]. destruct R as [Hts1 Hev1].
    destruct (allSettled later ts1 w1) as [[[os2 w2] ev2]|] eqn:A2;
      [|discriminate Ha].
    injection Ha as <- <- <-. rewrite sent_app. apply Forall_app.
    split; [exact Hev1|]. eapply IH; eassumption.
Qed.

End SendsFacts.

Lemma prefix_same_head (a b c : string) :
  String.prefix b c = true -> String.prefix (a +:+ b) (a +:+ c) = true.
Proof.
  intros Hbc. induction a as [|x a IH]; simpl; [exact Hbc|].
  destruct (Ascii.ascii_dec x x); [exact IH|congruence].
Qed.


Lemma prefix_weaken (s a b : string) :
  String.prefix s a = true -> String.prefix s (a +:+ b) = true.
Proof.
  revert a. induction s as [|x s IH]; intros a;
    [intros _; destruct (a +:+ b); reflexivity|].
  destruct a as [|y a]; simpl; [discriminate|].
  destruct (Ascii.ascii_dec x y); [apply IH|discriminate].
Qed.

Ltac under_project :=
  split; [simpl; auto|];
  cbn [url]; repeat apply prefix_same_head; reflexivity.

Section PipelineFootprint.
Variable env : RemovePipelines.Env.

Abbreviation mine :=
  (addressed_to (RemovePipelines.GITLAB_API_URL env)
     (RemovePipelines.GITLAB_PROJECT_ID env) (RemovePipelines.GITLAB_TOKEN env)).

Lemma list_request_addressed (page : nat) :
  mine (RemovePipelines.list_request env page).
Proof. under_project. Qed.

Lemma delete_request_addressed (pipelineId : option JsonValue) :
  mine (RemovePipelines.delete_request env pipelineId).
Proof. under_project. Qed.

Lemma script_sends (fuel : nat) : Sends mine (RemovePipelines.script env fuel).
Proof.
  assert (D : forall id, Sends mine (RemovePipelines.deletePipeline env id)).
  { intros id. unfold RemovePipelines.deletePipeline, mbind, Prog_bind.
    apply Sends_try_catch; [|repeat constructor].
    apply Sends_bind; [apply Sends_fetch, delete_request_addressed|].
    intros r. destruct (negb (ok r)); [|repeat constructor].
    apply Sends_bind; [apply Sends_response_json|constructor]. }
  assert (E : forall batch total,
             Sends mine (RemovePipelines.delete_each env batch total)).
  { induction batch as [|item batch IH]; intros total; [constructor|].
    rewrite (delete_each_cons env).
    apply Sends_bind; [apply Sends_prop|]. intros id.
    apply Sends_bind; [apply D|]. intros _.
    apply Sends_bind; [repeat constructor|]. intros _. apply IH. }
  assert (L : forall page, Sends mine (RemovePipelines.fetchPipelines env page)).
  { intros page. unfold RemovePipelines.fetchPipelines, mbind, Prog_bind.
    apply Sends_try_catch; [|repeat constructor].
    apply Sends_bind; [apply Sends_fetch, list_request_addressed|].
    intros r. destruct (negb (ok r)); [|apply Sends_response_json].
    apply Sends_bind; [apply Sends_response_json|constructor]. }
  assert (Pg : forall page total,
             Sends mine (RemovePipelines.pages env fuel page total)).
  { induction fuel as [|fuel' IH]; intros page total; [constructor|].
    rewrite (pages_step env). constructor.
    apply Sends_bind; [apply L|]. intros pipelines.
    apply Sends_bind; [apply Sends_prop|]. intros len.
    destruct (RemovePipelines.is_zero len); [repeat constructor|].
    constructor. apply Sends_bind; [apply Sends_iterable|]. intros items.
    apply Sends_bind; [apply E|]. intros total'.
    destruct (RemovePipelines.is_positive len); [apply IH|constructor]. }
  unfold RemovePipelines.script, RemovePipelines.main, mbind, Prog_bind.
  do 3 constructor. apply Sends_try_catch; [|repeat constructor].
  constructor. apply Sends_bind; [apply Pg|]. intros total. repeat constructor.
Qed.

End PipelineFootprint.

Section UploadFootprint.
Context `{Runtime} {W : Type} `{Backend W}.
Variable env : SetEnvVars.Env.

Abbreviation mine :=
  (addressed_to (SetEnvVars.GITLAB_API_URL env)
     (SetEnvVars.GITLAB_PROJECT_ID env) (SetEnvVars.GITLAB_TOKEN env)).

Lemma entry_promise_sends (key : string) (value : JsonValue) :
  Sends mine (SetEnvVars.entry_promise env key value).
Proof.
  unfold SetEnvVars.entry_promise, SetEnvVars.setGitLabVariable, mbind, Prog_bind.
  apply Sends_try_catch; [|repeat constructor].
  apply Sends_bind; [|repeat constructor].
  apply Sends_try_catch; [|repeat constructor].
  apply Sends_bind.
  { apply Sends_fetch. split; [simpl; auto|].
    cbn [url SetEnvVars.update_request]. apply prefix_weaken.
    unfold SetEnvVars.variables_url.
    repeat apply prefix_same_head; reflexivity. }
  intros r1. destruct (status r1 =? 404).
  - apply Sends_bind; [apply Sends_fetch; under_project|].
    intros r2. destruct (negb (ok r2)); [|repeat constructor].
    apply Sends_bind; [apply Sends_response_json|constructor].
  - destruct (negb (ok r1)); [|repeat constructor].
    apply Sends_bind; [apply Sends_response_json|constructor].
Qed.

Lemma dispatch_sends (entries : list (string * JsonValue)) :
  forall w : W,
    let '(ts, w', ev) := SetEnvVars.dispatch env entries w in
    Forall (task_sends mine) ts /\ Forall mine (sent ev).
Proof.
  induction entries as [|[key value] entries IH]; intros w.
  - simpl. split; constructor.
  - cbn [SetEnvVars.dispatch]. destruct (SetEnvVars.is_primitive value).
    + pose proof (advance_sends mine _ (entry_promise_sends key value) w) as Ad.
      destruct (advance (SetEnvVars.entry_promise env key value) w) as [[t w1] ev1].
      specialize (IH w1).
      destruct (SetEnvVars.dispatch env entries w1) as [[ts w2] ev2].
      destruct Ad as [Ht Hev1]. destruct IH as [Hts Hev2].
      split; [constructor; assumption|].
      rewrite sent_app. apply Forall_app. split; assumption.
    + specialize (IH w).
      destruct (SetEnvVars.dispatch env entries w) as [[ts w2] ev2]. exact IH.
Qed.

Lemma main_sends (fs : string -> SetEnvVars.File) (arrivals : list nat) (w : W) :
  Forall mine (sent (SetEnvVars.main env fs arrivals w).2).
Proof.
  unfold SetEnvVars.main.
  destruct (fs (SetEnvVars.ENV_FILE_PATH env)) as [| |content [doc|]];
    try (cbn [snd sent]; constructor).
  destruct (negb (JsType_eqb (typeof doc) TyObject) || is_null doc);
    [cbn [snd sent]; constructor|].
  pose proof (dispatch_sends (Object_entries doc) w) as D.
  destruct (SetEnvVars.dispatch env (Object_entries doc) w) as [[ts w1] ev1].
  destruct D as [Hts Hev1].
  destruct (allSettled arrivals ts w1) as [[[os w2] ev2]|] eqn:Ha.
  - pose proof (allSettled_sends mine arrivals ts w1 w2 os ev2 Hts Ha) as Hev2.
    destruct (SetEnvVars.first_rejection os); cbn [snd sent];
      rewrite !sent_app; cbn [sent]; rewrite app_nil_r;
      apply Forall_app; split; assumption.
  - cbn [snd sent]. exact Hev1.
Qed.

End UploadFootprint.

Section RemovalFootprint.
Context `{Runtime} {W : Type} `{Backend W}.
Variable env : RemoveEnvVars.Env.

Abbreviation mine :=
  (addressed_to (RemoveEnvVars.GITLAB_API_URL env)
     (RemoveEnvVars.GITLAB_PROJECT_ID env) (RemoveEnvVars.GITLAB_TOKEN env)).

Lemma fetchEnvironmentVariables_sends (fuel : nat) :
  Sends mine (RemoveEnvVars.fetchEnvironmentVariables env fuel).
Proof.
  assert (Pg : forall page acc,
             Sends mine (RemoveEnvVars.fetch_pages env fuel page acc)).
  { induction fuel as [|fuel' IH]; intros page acc; [constructor|].
    rewrite (fetch_pages_step env). constructor.
    apply Sends_bind; [apply Sends_fetch; under_project|]. intros r.
    destruct (negb (ok r)); [constructor|].
    apply Sends_bind; [apply Sends_response_json|]. intros variables.
    apply Sends_bind; [apply Sends_iterable|]. intros items.
    destruct (RemoveEnvVars.hasMorePages _ _); [apply IH|constructor]. }
  unfold RemoveEnvVars.fetchEnvironmentVariables, mbind, Prog_bind.
  constructor. apply Sends_try_catch; [|repeat constructor].
  apply Sends_bind; [apply Pg|]. intros vars. repeat constructor.
Qed.

Lemma deleteVariable_sends (key : option JsonValue) :
  Sends mine (RemoveEnvVars.deleteVariable env key).
Proof.
  unfold RemoveEnvVars.deleteVariable, mbind, Prog_bind.
  constructor. apply Sends_try_catch; [|repeat constructor].
  apply Sends_bind; [apply Sends_fetch; under_project|]. intros r.
  destruct (negb (ok r)); repeat constructor.
Qed.

Lemma start_deletes_sends (variables : list JsonValue) :
  forall w : W,
    let '(started, w', ev) := RemoveEnvVars.start_deletes env variables w in
    Forall mine (sent ev) /\
    forall ts, started = Some ts -> Forall (task_sends mine) ts.
Proof.
  induction variables as [|variable variables IH]; intros w.
  - simpl. split; [constructor|]. intros ts [= <-]. constructor.
  - cbn [RemoveEnvVars.start_deletes].
    destruct (get_prop variable "key") as [key|].
    2:{ split; [constructor|discriminate]. }
    pose proof (advance_sends mine _ (deleteVariable_sends key) w) as Ad.
    destruct (advance (RemoveEnvVars.deleteVariable env key) w) as [[t w1] ev1].
    specialize (IH w1).
    destruct (RemoveEnvVars.start_deletes env variables w1) as [[started w2] ev2].
    destruct Ad as [Ht Hev1]. destruct IH as [Hev2 Hts]. split.
    + rewrite sent_app. apply Forall_app. split; assumption.
    + intros ts E. destruct started as [ts0|]; [|discriminate E].
      injection E as <-. constructor; [exact Ht|]. apply Hts. reflexivity.
Qed.

Lemma removeAllEnvironmentVariables_sends (fuel : nat) (arrivals : list nat)
    (w : W) :
  Forall mine
    (sent (RemoveEnvVars.removeAllEnvironmentVariables env fuel arrivals w).2).
Proof.
  unfold RemoveEnvVars.removeAllEnvironmentVariables.
  pose proof (run_sends mine _ (fetchEnvironmentVariables_sends fuel) w) as L.
  destruct (run (RemoveEnvVars.fetchEnvironmentVariables env fuel) w)
    as [[listed w1] ev1]. cbn [snd] in L.
  assert (Tail : forall ev, Forall mine (sent ev) ->
                            Forall mine (sent (ev1 ++ ev))).
  { intros ev Hev. rewrite sent_app. apply Forall_app. split; assumption. }
  destruct listed as [variables|e|]; cbn [snd sent].
  - destruct (length variables =? 0)%nat; cbn [snd sent];
      [apply Tail; constructor|].
    pose proof (start_deletes_sends variables w1) as S.
    destruct (RemoveEnvVars.start_deletes env variables w1) as [[started w2] ev2].
    destruct S as [Hev2 Hts].
    assert (Tail2 : forall ev, Forall mine (sent ev) ->
                               Forall mine (sent (ev2 ++ ev))).
    { intros ev Hev. rewrite sent_app. apply Forall_app. split; assumption. }
    destruct started as [ts|]; cbn [snd sent].
    2:{ apply Tail. cbn [sent]. apply Tail2. constructor. }
    specialize (Hts ts eq_refl).
    destruct (allSettled arrivals ts w2) as [[[os w3] ev3]|] eqn:Ha.
    + pose proof (allSettled_sends mine arrivals ts w2 w3 os ev3 Hts Ha) as Hev3.
      destruct (0 <? _)%nat; cbn [snd sent]; apply Tail; cbn [sent];
        apply Tail2; rewrite !sent_app; cbn [sent]; rewrite app_nil_r; exact Hev3.
    + cbn [snd sent]. apply Tail. cbn [sent]. rewrite <- (app_nil_r ev2).
      apply Tail2. constructor.
  - apply Tail. constructor.
  - rewrite <- (app_nil_r ev1). apply Tail. constructor.
Qed.

End RemovalFootprint.

(** X14.  The scripts stay within the configured project: whatever the
    remote service answers and in whatever order the answers arrive,
    every request of every script carries the header PRIVATE-TOKEN with
    the configured token, and its URL begins with
    GITLAB_API_URL/projects/GITLAB_PROJECT_ID/. *)
Theorem requests_stay_within_the_project `{Runtime} {W : Type} `{Backend W} :
  (forall (env : RemovePipelines.Env) (fuel : nat) (w : W),
     Forall (addressed_to (RemovePipelines.GITLAB_API_URL env)
               (RemovePipelines.GITLAB_PROJECT_ID env)
               (RemovePipelines.GITLAB_TOKEN env))
            (sent (run (RemovePipelines.script env fuel) w).2)) /\
  (forall (env : SetEnvVars.Env) (fs : string -> SetEnvVars.File)
          (arrivals : list nat) (w : W),
     Forall (addressed_to (SetEnvVars.GITLAB_API_URL env)
               (SetEnvVars.GITLAB_PROJECT_ID env)
               (SetEnvVars.GITLAB_TOKEN env))
            (sent (SetEnvVars.main env fs arrivals w).2)) /\
  (forall (env : RemoveEnvVars.Env) (fuel : nat) (arrivals : list nat) (w : W),
     Forall (addressed_to (RemoveEnvVars.GITLAB_API_URL env)
               (RemoveEnvVars.GITLAB_PROJECT_ID env)
               (RemoveEnvVars.GITLAB_TOKEN env))
            (sent (RemoveEnvVars.removeAllEnvironmentVariables env fuel
                     arrivals w).2)).
Proof.
  split; [|split].
  - intros env fuel w. apply run_sends. apply script_sends.
  - intros env fs arrivals w. apply main_sends.
  - intros env fuel arrivals w. apply removeAllEnvironmentVariables_sends.
Qed.

(* ================================================================== *)
(** ** Runs that come to their end                                     *)
(* ================================================================== *)

Import Patience.

Lemma Within_mono {A : Type} (n : nat) (p : Prog A) :
  Within n p -> forall m, (n <= m)%nat -> Within m p.
Proof.
  induction 1 as [n a|n e|n|n l msg k _ IH|n ms k _ IH|n req k _ IH];
    intros m Hm; try (constructor; auto; fail).
  - destruct m as [|m]; [lia|]. constructor. apply IH. lia.
  - destruct m as [|m]; [lia|]. constructor. intros res. apply IH. lia.
Qed.

Section PatienceFacts.
Context {W : Type} `{Backend W}.

Lemma advance_within {A : Type} (n : nat) (p : Prog A) :
  Within n p -> forall w : W, settles_within n (advance p w).1.1.
Proof.
  induction 1 as [n a|n e|n|n l msg k _ IH|n ms k Hk _|n req k Hk _];
    intros w; cbn [advance]; try exact Logic.I.
  - specialize (IH w). destruct (advance k w) as [[t w'] ev]. exact IH.
  - exists n. split; [reflexivity|exact Hk].
  - destruct (handle req w) as [res w1]. exists n. split; [reflexivity|apply Hk].
Qed.

(** An arrival brings a promise one step nearer to its end. *)
Lemma resume_within {A : Type} (n : nat) (t : Task A) (w : W) :
  settles_within (S n) t -> settles_within n (resume t w).1.1.
Proof.
  destruct t as [o|req res k|ms k]; cbn [resume settles_within].
  - intros _. exact Logic.I.
  - intros (m & [= <-] & Hk). pose proof (advance_within n _ Hk w) as Ad.
    destruct (advance (k res) w) as [[t' w'] ev]. exact Ad.
  - intros (m & [= <-] & Hk). pose proof (advance_within n _ Hk w) as Ad.
    destruct (advance k w) as [[t' w'] ev]. exact Ad.
Qed.

Lemma settles_within_mono {A : Type} (n m : nat) (t : Task A) :
  settles_within n t -> (n <= m)%nat -> settles_within m t.
Proof.
  destruct t as [o|req res k|ms k]; cbn [settles_within]; [auto| |];
    intros (j & -> & Hk) Hm; destruct m as [|m]; try lia;
    exists m; (split; [reflexivity|]); (apply (Within_mono j); [exact Hk|lia]).
Qed.

(** What an arrival leaves of the promises. *)
Lemma arrive_nth {A : Type} (ts : list (Task A)) :
  forall (i j : nat) (w : W),
    nth_error (arrive i ts w).1.1 j
    = if Nat.eq_dec i j
      then option_map (fun t => (resume t w).1.1) (nth_error ts j)
      else nth_error ts j.
Proof.
  induction ts as [|t ts IH]; intros i j w.
  - simpl. destruct j, (Nat.eq_dec i _); reflexivity.
  - destruct i as [|i]; cbn [arrive].
    + destruct (resume t w) as [[t' w'] ev] eqn:R. cbn [fst].
      destruct j as [|j]; cbn [nth_error].
      * destruct (Nat.eq_dec 0%nat 0%nat); [|congruence]. simpl. rewrite R. reflexivity.
      * destruct (Nat.eq_dec 0%nat (S j)); [discriminate|reflexivity].
    + destruct j as [|j].
      * destruct (arrive i ts w) as [[ts' w'] ev]. cbn [fst nth_error].
        destruct (Nat.eq_dec (S i) 0%nat); [discriminate|reflexivity].
      * specialize (IH i j w).
        destruct (arrive i ts w) as [[ts' w'] ev]. cbn [fst nth_error] in *.
        rewrite IH. destruct (Nat.eq_dec i j), (Nat.eq_dec (S i) (S j));
          try reflexivity; lia.
Qed.

Lemma arrive_served {A : Type} (i : nat) (later : list nat) (ts : list (Task A))
    (w : W) :
  served (i :: later) ts -> served later (arrive i ts w).1.1.
Proof.
  intros Sv j t Hj. rewrite arrive_nth in Hj.
  destruct (Nat.eq_dec i j) as [->|Ne].
  - destruct (nth_error ts j) as [t0|] eqn:E; [|discriminate Hj].
    injection Hj as <-. specialize (Sv j t0 E). cbn [count_occ] in Sv.
    destruct (Nat.eq_dec j j); [|congruence]. apply resume_within. exact Sv.
  - specialize (Sv j t Hj). cbn [count_occ] in Sv.
    destruct (Nat.eq_dec i j); [congruence|exact Sv].
Qed.

Lemma served_outcomes {A : Type} (ts : list (Task A)) :
  served [] ts -> exists os, outcomes ts = Some os.
Proof.
  induction ts as [|t ts IH]; intros Sv; [exists []; reflexivity|].
  destruct IH as [os Hos].
  { intros i t' Hi. apply (Sv (S i)). exact Hi. }
  specialize (Sv 0%nat t eq_refl). cbn [count_occ] in Sv.
  destruct t as [o|req res k|ms k]; cbn [settles_within] in Sv.
  - exists (o :: os). cbn [outcomes settled]. rewrite Hos. reflexivity.
  - destruct Sv as (m & C & _). discriminate C.
  - destruct Sv as (m & C & _). discriminate C.
Qed.

(** Promises that get the arrivals they may need all settle. *)
Lemma allSettled_served {A : Type} (arrivals : list nat) :
  forall (ts : list (Task A)) (w : W),
    served arrivals ts -> exists r, allSettled arrivals ts w = Some r.
Proof.
  induction arrivals as [|i later IH]; intros ts w Sv; cbn [allSettled].
  - destruct (served_outcomes ts Sv) as [os ->]. eexists. reflexivity.
  - destruct (outcomes ts) as [os|]; [eexists; reflexivity|].
    pose proof (arrive_served i later ts w Sv) as Sv'.
    destruct (arrive i ts w) as [[ts1 w1] ev1]. cbn [fst] in Sv'.
    destruct (IH ts1 w1 Sv') as [[[os2 w2] ev2] ->]. eexists. reflexivity.
Qed.

End PatienceFacts.
Import UploadRuns.

Lemma served_by_count {A : Type} (n : nat) (arrivals : list nat)
    (ts : list (Task A)) :
  Forall (settles_within n) ts ->
  (forall i, (i < length ts)%nat -> (n <= count_occ Nat.eq_dec arrivals i)%nat) ->
  served arrivals ts.
Proof.
  intros Hts Hc i t Hi.
  assert (Hlt : (i < length ts)%nat) by (apply nth_error_Some; congruence).
  apply (settles_within_mono n); [|apply Hc; exact Hlt].
  rewrite List.Forall_forall in Hts. apply Hts. eapply nth_error_In. exact Hi.
Qed.

Section RemovalPatience.
Context `{Runtime} {W : Type} `{Backend W}.
Variable env : RemoveEnvVars.Env.

Lemma deleteVariable_within (key : option JsonValue) :
  Within 1 (RemoveEnvVars.deleteVariable env key).
Proof.
  unfold RemoveEnvVars.deleteVariable, fetch, mbind, Prog_bind.
  cbn [bind try_catch]. constructor. constructor.
  intros [r|]; cbn [bind try_catch]; [|repeat constructor].
  destruct (negb (ok r)); cbn [bind try_catch]; repeat constructor.
Qed.

Lemma start_deletes_within (variables : list JsonValue) :
  forall (w : W) ts,
    (RemoveEnvVars.start_deletes env variables w).1.1 = Some ts ->
    Forall (settles_within 1) ts /\ length ts = length variables.
Proof.
  induction variables as [|variable variables IH]; intros w ts.
  - simpl. intros [= <-]. split; [constructor|reflexivity].
  - cbn [RemoveEnvVars.start_deletes].
    destruct (get_prop variable "key") as [key|]; [|discriminate].
    pose proof (advance_within 1 _ (deleteVariable_within key) w) as Ad.
    destruct (advance (RemoveEnvVars.deleteVariable env key) w) as [[t w1] ev1].
    specialize (IH w1).
    destruct (RemoveEnvVars.start_deletes env variables w1) as [[started w2] ev2].
    cbn [fst] in *. destruct started as [ts0|]; [|discriminate].
    intros [= <-]. destruct (IH ts0 eq_refl) as [Hts Hl].
    split; [constructor; assumption|simpl; congruence].
Qed.

End RemovalPatience.

(** X15.  remove-env-vars.ts comes to its end once every deletion has
    been answered, in whatever order: when the listing ends and the order
    of arrival names each of the promises started, the script exits with
    a status. *)
Theorem removal_ends_once_answered `{Runtime} {W : Type} `{Backend W}
    (env : RemoveEnvVars.Env) (fuel : nat) (arrivals : list nat) (w : W) :
  (run (RemoveEnvVars.fetchEnvironmentVariables env fuel) w).1.1 <> Unfinished ->
  (forall variables,
     (run (RemoveEnvVars.fetchEnvironmentVariables env fuel) w).1.1
     = Returned variables ->
     forall i, (i < length variables)%nat -> In i arrivals) ->
  exists code,
    (RemoveEnvVars.removeAllEnvironmentVariables env fuel arrivals w).1.1
    = Some code.
Proof.
  intros Fin Cover. unfold RemoveEnvVars.removeAllEnvironmentVariables.
  destruct (run (RemoveEnvVars.fetchEnvironmentVariables env fuel) w)
    as [[listed w1] ev1]. cbn [fst] in *.
  destruct listed as [variables|e|]; [|eexists; reflexivity|congruence].
  destruct (length variables =? 0)%nat; [eexists; reflexivity|].
  pose proof (start_deletes_within env variables w1) as S.
  destruct (RemoveEnvVars.start_deletes env variables w1) as [[started w2] ev2].
  cbn [fst] in S. destruct started as [ts|]; [|eexists; reflexivity].
  destruct (S ts eq_refl) as [Hts Hl].
  destruct (allSettled_served arrivals ts w2) as [[[os w3] ev3] ->].
  { apply (served_by_count 1); [exact Hts|].
    intros i Hi. rewrite Hl in Hi.
    apply (count_occ_In Nat.eq_dec). apply (Cover variables eq_refl i Hi). }
  destruct (0 <? _)%nat; eexists; reflexivity.
Qed.

Lemma removal_ends_once_answered_witness :
  exists code,
    (RemoveEnvVars.removeAllEnvironmentVariables Examples.production 5
       [2; 0; 2; 1]%nat
       [Examples.reply_page "1" [Examples.variable "A" "production";
                                 Examples.variable "B" "production";
                                 Examples.variable "C" "production"];
        Examples.reply 204 JNull; Examples.reply 500 JNull;
        Examples.reply 204 JNull]).1.1
    = Some code.
Proof.
  apply removal_ends_once_answered.
  - vm_compute. discriminate.
  - intros variables E. vm_compute in E. injection E as <-.
    intros i Hi. simpl in Hi.
    destruct i as [|[|[|i]]]; simpl; auto. lia.
Defined.

Section UploadPatience.
Context `{Runtime} {W : Type} `{Backend W}.
Variable env : SetEnvVars.Env.

Lemma entry_promise_within (key : string) (value : JsonValue) :
  Within 2 (SetEnvVars.entry_promise env key value).
Proof.
  unfold SetEnvVars.entry_promise, SetEnvVars.setGitLabVariable, fetch,
    response_json, mbind, Prog_bind.
  cbn [try_catch bind]. constructor. intros [r1|]; cbn [try_catch bind].
  - destruct (status r1 =? 404); cbn [try_catch bind].
    + constructor. intros [r2|]; cbn [try_catch bind].
      * destruct (ok r2); cbn [negb try_catch bind].
        -- repeat constructor.
        -- destruct (json r2); cbn [try_catch bind]; repeat constructor.
      * repeat constructor.
    + destruct (ok r1); cbn [negb try_catch bind].
      * repeat constructor.
      * destruct (json r1); cbn [try_catch bind]; repeat constructor.
  - repeat constructor.
Qed.

Lemma dispatch_within (entries : list (string * JsonValue)) :
  forall w : W,
    Forall (settles_within 2) (SetEnvVars.dispatch env entries w).1.1.
Proof.
  induction entries as [|[key value] entries IH]; intros w.
  - constructor.
  - cbn [SetEnvVars.dispatch]. destruct (SetEnvVars.is_primitive value).
    + pose proof (advance_within 2 _ (entry_promise_within key value) w) as Ad.
      destruct (advance (SetEnvVars.entry_promise env key value) w) as [[t w1] ev1].
      specialize (IH w1).
      destruct (SetEnvVars.dispatch env entries w1) as [[ts w2] ev2].
      constructor; assumption.
    + specialize (IH w).
      destruct (SetEnvVars.dispatch env entries w) as [[ts w2] ev2]. exact IH.
Qed.

End UploadPatience.

(** X16.  set-env-vars.ts comes to its end once the answers are in, in
    whatever order: the promise of an entry awaits two answers at most
    (update, then create), so a run over an order of arrival that names
    each promise twice exits with a status. *)
Theorem upload_ends_once_answered `{Runtime} {W : Type} `{Backend W}
    (env : SetEnvVars.Env) (fs : string -> SetEnvVars.File)
    (arrivals : list nat) (w : W) :
  (forall doc,
     accepted (fs (SetEnvVars.ENV_FILE_PATH env)) = Some doc ->
     forall i, (i < length (attempts doc))%nat ->
               (2 <= count_occ Nat.eq_dec arrivals i)%nat) ->
  exists code, (SetEnvVars.main env fs arrivals w).1.1 = Some code.
Proof.
  intros Cover.
  destruct (accepted (fs (SetEnvVars.ENV_FILE_PATH env))) as [doc|] eqn:Hacc.
  - destruct (main_unfolds env fs doc arrivals w Hacc) as (ts & w1 & ev1 & D & M).
    pose proof (dispatch_within env (Object_entries doc) w) as Hts.
    pose proof (dispatch_spec env (Object_entries doc) w) as S.
    rewrite D in Hts, S. cbn [fst] in Hts. cbv zeta in S.
    destruct S as (_ & Hl & _).
    destruct (allSettled_served arrivals ts w1) as [[[os w2] ev2] A].
    { apply (served_by_count 2); [exact Hts|].
      intros i Hi. apply (Cover doc eq_refl). unfold attempts.
      rewrite <- Hl. exact Hi. }
    rewrite A in M. destruct M as (_ & _ & ->). eexists. reflexivity.
  - destruct (main_rejects env fs arrivals w Hacc) as (line & ->).
    eexists. reflexivity.
Qed.

Lemma upload_ends_once_answered_witness :
  exists code,
    (SetEnvVars.main Examples.uat
       (fun _ => SetEnvVars.Content "" (Some (JObj [("A", JStr "1"); ("B", JNum 2)])))
       [1; 0; 0; 1]%nat
       [Examples.reply 404 JNull; Examples.reply 200 JNull;
        Examples.reply 201 JNull]).1.1
    = Some code.
Proof.
  apply upload_ends_once_answered.
  intros doc E. vm_compute in E. injection E as <-.
  intros i Hi. simpl in Hi.
  destruct i as [|[|i]]; simpl; lia.
Defined.

(* ================================================================== *)
(** ** remove-pipelines.ts against a project that forgets what is      *)
(** ** deleted                                                         *)
(* ================================================================== *)

Import PipelineRuns LiveRuns.

Lemma find_unique {A : Type} (f : A -> bool) (x : A) (l : list A) :
  In x l -> f x = true -> (forall y, In y l -> f y = true -> y = x) ->
  List.find f l = Some x.
Proof.
  induction l as [|a l IH]; intros Hin Hx Hu; [destruct Hin|].
  cbn [List.find]. destruct (f a) eqn:Fa.
  - f_equal. apply Hu; [left; reflexivity|exact Fa].
  - destruct Hin as [->|Hin]; [congruence|].
    apply IH; [exact Hin|exact Hx|]. intros y Hy. apply Hu. right. exact Hy.
Qed.

Lemma strike_NoDup (batch : list Z) :
  forall ids, List.NoDup ids -> List.NoDup (strike batch ids).
Proof.
  induction batch as [|id batch IH]; intros ids ND; [exact ND|].
  cbn [strike]. apply IH. apply List.NoDup_filter. exact ND.
Qed.

Lemma filter_out_absent (id : Z) (ids : list Z) :
  ~ In id ids -> List.filter (fun x => negb (x =? id)) ids = ids.
Proof.
  induction ids as [|a ids IH]; intros Hn; [reflexivity|].
  cbn [List.filter]. destruct (a =? id) eqn:E.
  - apply Z.eqb_eq in E. exfalso. apply Hn. left. exact E.
  - cbn [negb]. f_equal. apply IH. intros Hin. apply Hn. right. exact Hin.
Qed.

(** Deleting the first [n] of a list without repetitions leaves the
    others. *)
Lemma strike_take (n : nat) :
  forall ids, List.NoDup ids -> strike (take n ids) ids = drop n ids.
Proof.
  induction n as [|n IH]; intros ids ND; [reflexivity|].
  destruct ids as [|x ids]; [reflexivity|].
  apply List.NoDup_cons_iff in ND as [Hx ND].
  cbn [take strike List.filter drop]. rewrite Z.eqb_refl. cbn [negb].
  rewrite (filter_out_absent x ids Hx). apply IH. exact ND.
Qed.

Section LiveProjectFacts.
Variable env : RemovePipelines.Env.

#[local] Hint Extern 0 (Backend (list Z)) =>
  exact (live_backend env) : typeclass_instances.

Abbreviation size := (Z.to_nat (RemovePipelines.BATCH_SIZE env)).

Lemma pipelines_url_inj (p q : nat) :
  RemovePipelines.pipelines_url env p = RemovePipelines.pipelines_url env q ->
  p = q.
Proof.
  unfold RemovePipelines.pipelines_url. intros E.
  do 6 apply String.app_inj in E. apply (inj pretty) in E. exact E.
Qed.

Lemma pipeline_url_inj (a b : Z) :
  RemovePipelines.pipeline_url env (Some (JNum a))
  = RemovePipelines.pipeline_url env (Some (JNum b)) ->
  a = b.
Proof.
  unfold RemovePipelines.pipeline_url, ToString_opt, ToString. intros E.
  do 4 apply String.app_inj in E. apply (inj pretty) in E. exact E.
Qed.

(** The live project lists the page that is asked for. *)
Lemma live_lists (page : nat) (ids : list Z) :
  (1 <= page)%nat -> (1 <= size)%nat ->
  handle (RemovePipelines.list_request env page) ids
  = (Examples.reply 200
       (JArr (map Examples.pipeline (Examples.page_of env ids page))), ids).
Proof.
  intros Hp Hs. unfold handle, live_backend, Examples.live_project.
  cbn [method url RemovePipelines.list_request].
  destruct (Examples.asked_page env (RemovePipelines.pipelines_url env page)
              (S (length ids))) as [q|] eqn:F.
  - unfold Examples.asked_page in F. apply List.find_some in F as [_ F].
    apply String.eqb_eq, pipelines_url_inj in F. subst q. reflexivity.
  - unfold Examples.asked_page in F.
    assert (Far : (S (length ids) < page)%nat).
    { destruct (Nat.le_gt_cases page (S (length ids))) as [Hle|Hgt]; [|exact Hgt].
      exfalso.
      assert (Hin : In page (seq 1 (S (length ids)))) by (apply in_seq; lia).
      pose proof (List.find_none _ _ F page Hin) as N. cbv beta in N.
      rewrite String.eqb_refl in N. discriminate N. }
    unfold Examples.page_of.
    rewrite (drop_ge ids ((page - 1) * size)) by nia.
    rewrite take_nil. reflexivity.
Qed.

(** The live project deletes the pipeline that is named. *)
Lemma live_deletes (id : Z) (ids : list Z) :
  In id ids ->
  handle (removal env (Examples.pipeline id)) ids
  = (Examples.reply 204 JNull, List.filter (fun x => negb (x =? id)) ids).
Proof.
  intros Hin. unfold handle, live_backend, Examples.live_project.
  change (removal env (Examples.pipeline id))
    with (RemovePipelines.delete_request env (Some (JNum id))).
  cbn [method url RemovePipelines.delete_request].
  unfold Examples.asked_pipeline.
  rewrite (find_unique _ id ids Hin).
  - reflexivity.
  - apply String.eqb_refl.
  - intros y _ E. apply String.eqb_eq, pipeline_url_inj in E. congruence.
Qed.

Lemma live_serves (batch : list Z) :
  forall ids,
    List.NoDup batch -> incl batch ids ->
    serve (map (removal env) (map Examples.pipeline batch)) ids
    = (repeat (Examples.reply 204 JNull) (length batch), strike batch ids).
Proof.
  induction batch as [|id batch IH]; intros ids ND Hsub; [reflexivity|].
  apply List.NoDup_cons_iff in ND as [Hid ND].
  cbn [map serve]. rewrite live_deletes by (apply Hsub; left; reflexivity).
  rewrite IH; [reflexivity|exact ND|].
  intros y Hy. apply filter_In. split; [apply Hsub; right; exact Hy|].
  apply negb_true_iff, Z.eqb_neq. intros ->. contradiction.
Qed.

End LiveProjectFacts.

Lemma In_take {A : Type} (n : nat) (l : list A) (y : A) :
  In y (take n l) -> In y l.
Proof.
  revert l. induction n as [|n IH]; intros [|a l]; simpl; try tauto.
  intros [->|Hin]; [left; reflexivity|right; apply IH; exact Hin].
Qed.

Lemma NoDup_app_apart {A : Type} (l1 l2 : list A) :
  List.NoDup (l1 ++ l2) -> forall a, In a l1 -> ~ In a l2.
Proof.
  induction l1 as [|x l1 IH]; intros ND a Hin; [destruct Hin|].
  cbn [app] in ND. apply List.NoDup_cons_iff in ND as [Hx ND].
  destruct Hin as [->|Hin].
  - intros H2. apply Hx. apply in_or_app. right. exact H2.
  - apply IH; assumption.
Qed.

Lemma strike_app (batch : list Z) :
  forall kept rest,
    (forall y, In y batch -> ~ In y kept) ->
    strike batch (kept ++ rest) = kept ++ strike batch rest.
Proof.
  induction batch as [|id batch IH]; intros kept rest Hn; [reflexivity|].
  cbn [strike]. rewrite List.filter_app.
  rewrite (filter_out_absent id kept) by (apply Hn; left; reflexivity).
  apply IH. intros y Hy. apply Hn. right. exact Hy.
Qed.

Lemma survivors_length (fuel size : nat) :
  forall ids, (length (survivors fuel size ids) <= length ids)%nat.
Proof.
  induction fuel as [|fuel IH]; intros ids; [reflexivity|].
  cbn [survivors]. destruct ids as [|a ids]; [reflexivity|].
  rewrite length_app, length_take, length_drop.
  specialize (IH (drop (size + size) (a :: ids))). rewrite length_drop in IH.
  lia.
Qed.

Section LiveSweep.
Variable env : RemovePipelines.Env.

Abbreviation size := (Z.to_nat (RemovePipelines.BATCH_SIZE env)).

Hypothesis positive_batch : (1 <= size)%nat.

#[local] Hint Extern 0 (Backend (list Z)) =>
  exact (live_backend env) : typeclass_instances.

Lemma pipelines_not_null (batch : list Z) :
  Forall (fun item => item <> JNull) (map Examples.pipeline batch).
Proof.
  induction batch as [|id batch IH]; constructor; [discriminate|exact IH].
Qed.

Lemma deleted_all (n : nat) :
  Forall succeeded (repeat (Examples.reply 204 JNull) n).
Proof. induction n; constructor; [reflexivity|assumption]. Qed.

(** The loop from page [page] on, when the project holds [kept], which
    earlier rounds have passed over, followed by [rest], which no round
    has reached yet: the loop ends, and of [rest] it leaves every second
    page. *)
Lemma live_rounds (fuel : nat) :
  forall (page total : nat) (kept rest : list Z) (rounds : nat),
    List.NoDup (kept ++ rest) ->
    (1 <= page)%nat ->
    (length kept <= (page - 1) * size)%nat ->
    (rest <> [] -> length kept = ((page - 1) * size)%nat) ->
    (length rest < fuel)%nat ->
    (length rest <= rounds)%nat ->
    exists t,
      run (RemovePipelines.pages env fuel page total) (kept ++ rest)
      = (Returned (total + (length rest - length (survivors rounds size rest)))%nat,
         kept ++ survivors rounds size rest, t) /\
      errors t = [].
Proof.
  induction fuel as [|fuel IH];
    intros page total kept rest rounds ND Hp Hk Hfull Hf Hr; [lia|].
  pose proof (live_lists env page (kept ++ rest) Hp positive_batch) as E.
  destruct rest as [|r rs].
  - assert (B : Examples.page_of env (kept ++ []) page = []).
    { unfold Examples.page_of. rewrite app_nil_r.
      rewrite (drop_ge kept) by exact Hk. apply take_nil. }
    rewrite B in E.
    assert (Hl : lists (Examples.reply 200 (JArr (map Examples.pipeline [])))
                       (map Examples.pipeline [])).
    { eexists. repeat split; reflexivity. }
    rewrite (pages_step env). cbn [run]. rewrite run_bind.
    rewrite (fetchPipelines_lists env page _ _ _ _ E Hl).
    assert (Sv0 : survivors rounds size [] = []) by (destruct rounds; reflexivity).
    rewrite Sv0. simpl. rewrite Nat.add_0_r.
    eexists. split; reflexivity.
  - destruct rounds as [|rounds]; [simpl in Hr; lia|].
    set (rest := r :: rs) in *.
    assert (Hklen : length kept = ((page - 1) * size)%nat)
      by (apply Hfull; discriminate).
    assert (B : Examples.page_of env (kept ++ rest) page = take size rest).
    { unfold Examples.page_of. rewrite <- Hklen, drop_app_length. reflexivity. }
    rewrite B in E.
    set (batch := take size rest) in *.
    assert (Hl : lists (Examples.reply 200 (JArr (map Examples.pipeline batch)))
                       (map Examples.pipeline batch)).
    { eexists. repeat split; reflexivity. }
    assert (NDr : List.NoDup rest) by (apply List.NoDup_app_remove_l in ND; exact ND).
    assert (NDb : List.NoDup batch).
    { unfold batch. rewrite <- (take_drop size rest) in NDr.
      apply List.NoDup_app_remove_r in NDr. exact NDr. }
    assert (Sub : incl batch (kept ++ rest)).
    { intros y Hy. apply in_or_app. right. eapply In_take. exact Hy. }
    assert (Apart : forall y, In y batch -> ~ In y kept).
    { intros y Hy Hky. apply In_take in Hy.
      exact (NoDup_app_apart kept rest ND y Hky Hy). }
    pose proof (live_serves env batch (kept ++ rest) NDb Sub) as Sv.
    rewrite (strike_app batch kept rest Apart) in Sv.
    unfold batch in Sv at 3. rewrite (strike_take size rest NDr) in Sv.
    destruct (delete_each_succeeds env (map Examples.pipeline batch) total
                (kept ++ rest) (kept ++ drop size rest) _
                (pipelines_not_null batch) Sv (deleted_all _))
      as (td & Rd & _ & _ & _ & _ & _ & Hed & _).
    set (kept' := kept ++ take size (drop size rest)).
    set (rest' := drop (size + size) rest).
    assert (Hstate : kept ++ drop size rest = kept' ++ rest').
    { unfold kept', rest'. rewrite <- app_assoc, <- drop_drop, take_drop.
      reflexivity. }
    assert (NDs : List.NoDup (kept' ++ rest')).
    { rewrite <- Hstate, <- (strike_take size rest NDr).
      rewrite <- (strike_app (take size rest) kept rest Apart).
      apply strike_NoDup. exact ND. }
    assert (Lrest : length rest = S (length rs)) by reflexivity.
    assert (Lk' : length kept' = (length kept + Nat.min size (length rest - size))%nat).
    { unfold kept'. rewrite length_app, length_take, length_drop. reflexivity. }
    assert (Lr' : length rest' = (length rest - (size + size))%nat).
    { unfold rest'. apply length_drop. }
    assert (Hpage : ((S page - 1) * size = (page - 1) * size + size)%nat) by nia.
    destruct (IH (S page) (total + length (map Examples.pipeline batch))%nat
                kept' rest' rounds NDs ltac:(lia)) as (tp & Rp & Hep).
    { rewrite Lk', Hpage. lia. }
    { intros NE. rewrite Lk', Hpage.
      assert (length rest' <> 0%nat) by (destruct rest'; [congruence|discriminate]).
      lia. }
    { lia. }
    { lia. }
    assert (Hlb : (1 <= length batch)%nat).
    { unfold batch. rewrite length_take. lia. }
    assert (Hz : RemovePipelines.is_zero
                   (Some (JNum (Z.of_nat (length (map Examples.pipeline batch)))))
                 = false).
    { simpl. apply Z.eqb_neq. rewrite length_map. lia. }
    assert (Hpos : RemovePipelines.is_positive
                     (Some (JNum (Z.of_nat (length (map Examples.pipeline batch)))))
                   = true).
    { simpl. apply Z.ltb_lt. rewrite length_map. lia. }
    rewrite (pages_step env). cbn [run]. rewrite run_bind.
    rewrite (fetchPipelines_lists env page _ _ _ _ E Hl).
    unfold prop, iterable. cbn [get_prop iterate bind].
    simpl String.eqb. cbn [bind]. rewrite Hz. cbn [run bind].
    rewrite run_bind, Rd, Hpos, Hstate, Rp.
    assert (Hsurv : survivors (S rounds) size rest
                    = take size (drop size rest) ++ survivors rounds size rest')
      by reflexivity.
    pose proof (survivors_length rounds size rest') as Ls.
    eexists. split.
    + rewrite Hsurv. unfold kept'. rewrite <- app_assoc.
      f_equal. f_equal. f_equal.
      rewrite length_app, length_take, length_drop, length_map.
      unfold batch. rewrite length_take. lia.
    + simpl. rewrite !errors_app, Hed, Hep. reflexivity.
Qed.

End LiveSweep.

(** X17.  Against a project that forgets what is deleted, the page
    counter of [main] passes over every second page: once a page has been
    deleted the next one has moved up into its place, and the page asked
    for after it is the one after the next.  For pipelines without
    repetition and BATCH_SIZE >= 1 the script ends with status 0 and
    without an error line, it leaves the second, the fourth, ... page of
    the pipelines it found, and the total it reports is the number it
    deleted; with more pipelines than BATCH_SIZE some are left. *)
Theorem live_project_keeps_every_second_page (env : RemovePipelines.Env)
    (ids : list Z) (fuel : nat) :
  1 <= RemovePipelines.BATCH_SIZE env ->
  List.NoDup ids ->
  (length ids < fuel)%nat ->
  let size := Z.to_nat (RemovePipelines.BATCH_SIZE env) in
  let remaining := survivors (length ids) size ids in
  exists t,
    @run (list Z) (live_backend env) Z (RemovePipelines.script env fuel) ids
    = (Returned 0, remaining, t) /\
    errors t = [] /\
    last (printed t)
    = Some (MsgDeletedTotal (length ids - length remaining)
              (RemovePipelines.GITLAB_PROJECT_ID env)) /\
    ((size < length ids)%nat -> remaining <> []).
Proof.
  intros Hb ND Hf size remaining.
  assert (Hs : (1 <= size)%nat) by (unfold size; lia).
  destruct (live_rounds env Hs fuel 1 0 [] ids (length ids) ND (le_n 1))
    as (t & R & He); try (simpl; lia).
  cbn [app] in R.
  rewrite (@script_unfolds (list Z) (live_backend env) env fuel ids), R.
  eexists. split; [reflexivity|]. split; [|split].
  - cbn [app errors]. rewrite errors_app, He. reflexivity.
  - cbn [app printed]. rewrite printed_app. cbn [printed].
    rewrite !app_comm_cons, last_snoc. reflexivity.
  - intros Hmore. unfold remaining.
    destruct ids as [|a ids']; [simpl in Hmore; lia|].
    cbn [length survivors].
    destruct (drop size (a :: ids')) as [|b rest] eqn:D.
    + pose proof (length_drop (a :: ids') size) as L. rewrite D in L.
      simpl in L, Hmore. lia.
    + destruct size as [|k]; [lia|]. discriminate.
Qed.

Lemma live_project_keeps_every_second_page_witness :
  exists t,
    @run (list Z) (live_backend Examples.project25) Z
      (RemovePipelines.script Examples.project25 30) Examples.ids25
    = (Returned 0, [21; 22; 23; 24; 25], t) /\
    errors t = [] /\
    last (printed t) = Some (MsgDeletedTotal 20 "42").
Proof.
  destruct (live_project_keeps_every_second_page Examples.project25
              Examples.ids25 30) as (t & R & He & Hl & _).
  - simpl. lia.
  - apply NoDup_ListNoDup. apply (bool_decide_unpack _). vm_compute. exact Logic.I.
  - vm_compute. lia.
  - exists t. split; [exact R|]. split; [exact He|exact Hl].
Defined.

(* ================================================================== *)
(** ** remove-pipelines.ts: a loop without a bound                     *)
(* ================================================================== *)

Section EndlessPages.
Context {W : Type} `{Backend W}.
Variable env : RemovePipelines.Env.

Lemma serve_granted (reqs : list Request) :
  (forall req w, In req reqs -> succeeded (handle req w).1) ->
  forall w : W, Forall succeeded (serve reqs w).1.
Proof.
  induction reqs as [|req reqs IH]; intros G w; [constructor|].
  cbn [serve]. pose proof (G req w (or_introl eq_refl)) as Hreq.
  destruct (handle req w) as [res w1].
  assert (IH' : Forall succeeded (serve reqs w1).1).
  { apply IH. intros r w' Hin. apply G. right. exact Hin. }
  destruct (serve reqs w1) as [ress w2]. constructor; assumption.
Qed.

Lemma pages_never_end (fuel : nat) :
  (forall page w, exists l items w',
      handle (RemovePipelines.list_request env page) w = (l, w') /\
      lists l items /\ items <> [] /\
      Forall (fun item => item <> JNull) items) ->
  (forall pipelineId w,
      succeeded (handle (RemovePipelines.delete_request env pipelineId) w).1) ->
  forall (page total : nat) (w : W),
    (run (RemovePipelines.pages env fuel page total) w).1.1 = Unfinished.
Proof.
  intros Full Granted.
  induction fuel as [|fuel IH]; intros page total w; [reflexivity|].
  destruct (Full page w) as (l & items & w1 & E & Hl & NE & NN).
  rewrite (pages_step env). cbn [run]. rewrite run_bind.
  rewrite (fetchPipelines_lists env page w w1 l items E Hl).
  destruct (serve (map (removal env) items) w1) as [ress w2] eqn:Sv.
  assert (OK : Forall succeeded ress).
  { assert (G : forall req w', In req (map (removal env) items) ->
                               succeeded (handle req w').1).
    { intros req w' Hin. apply in_map_iff in Hin as (item & <- & _).
      apply Granted. }
    pose proof (serve_granted (map (removal env) items) G w1) as S.
    rewrite Sv in S. exact S. }
  destruct (delete_each_succeeds env items total w1 w2 ress NN Sv OK)
    as (td & Rd & _).
  assert (Hz : RemovePipelines.is_zero (Some (JNum (Z.of_nat (length items))))
               = false).
  { simpl. apply Z.eqb_neq. destruct items; [congruence|simpl; lia]. }
  assert (Hp : RemovePipelines.is_positive (Some (JNum (Z.of_nat (length items))))
               = true).
  { simpl. apply Z.ltb_lt. destruct items; [congruence|simpl; lia]. }
  unfold prop, iterable. cbn [get_prop iterate bind].
  simpl String.eqb. cbn [bind]. rewrite Hz. cbn [run bind].
  rewrite run_bind, Rd, Hp.
  specialize (IH (S page) (total + length items)%nat w2).
  destruct (run (RemovePipelines.pages env fuel (S page) (total + length items)) w2)
    as [[o w3] tp]. cbn [fst] in *. subst o. reflexivity.
Qed.

End EndlessPages.

(** X18.  The loop of [main] has no bound of its own: it ends on an
    empty page or on a failure and on nothing else.  Against a service
    that grants every deletion and never lists an empty page, no number
    of rounds brings the script to its end. *)
Theorem script_never_ends_while_pages_are_full {W : Type} `{Backend W}
    (env : RemovePipelines.Env) :
  (forall page w, exists l items w',
      handle (RemovePipelines.list_request env page) w = (l, w') /\
      lists l items /\ items <> [] /\
      Forall (fun item => item <> JNull) items) ->
  (forall pipelineId w,
      succeeded (handle (RemovePipelines.delete_request env pipelineId) w).1) ->
  forall (fuel : nat) (w : W),
    (run (RemovePipelines.script env fuel) w).1.1 = Unfinished.
Proof.
  intros Full Granted fuel w. rewrite script_unfolds.
  pose proof (pages_never_end env fuel Full Granted 1 0 w) as P.
  destruct (run (RemovePipelines.pages env fuel 1 0) w) as [[o w'] t].
  cbn [fst] in P. subst o. reflexivity.
Qed.

Lemma script_never_ends_while_pages_are_full_witness :
  (@run unit Endless.endless Z (RemovePipelines.script Examples.project25 4) tt).1.1
  = Unfinished.
Proof.
  apply (@script_never_ends_while_pages_are_full unit Endless.endless
           Examples.project25).
  - intros page w. exists (Examples.reply 200 (JArr [Examples.pipeline 7])),
      [Examples.pipeline 7], tt.
    split; [reflexivity|]. split; [eexists; repeat split; reflexivity|].
    split; [discriminate|repeat constructor; discriminate].
  - intros id w. reflexivity.
Defined.
(* ================================================================== *)
(** ** set-env-vars.ts: the entries that are skipped                   *)
(* ================================================================== *)

Section SkippedEntries.
Import Arrivals UploadRuns UpsertRuns.
Context `{Runtime} {W : Type} `{Backend W}.
Variable env : SetEnvVars.Env.

(** The test of the script is the one the specification words. *)
Lemma is_primitive_stated (value : JsonValue) :
  SetEnvVars.is_primitive value = Stated.primitive value.
Proof. destruct value; reflexivity. Qed.

Lemma attempts_stated (doc : JsonValue) :
  attempts doc = Stated.primitive_entries (Object_entries doc).
Proof.
  unfold attempts, Stated.primitive_entries. apply List.filter_ext.
  intros entry. apply is_primitive_stated.
Qed.

Lemma primitive_written (value : JsonValue) :
  Stated.primitive value = true -> Stated.written_as value (ToString value).
Proof.
  destruct value as [|[]| | | |]; try discriminate; intros _; cbn; auto.
Qed.

Lemma updates_of_primitive_entries (kept : list (string * JsonValue)) :
  Forall (fun entry => Stated.primitive entry.2 = true) kept ->
  Forall2 (fun req entry =>
             exists s, Stated.written_as entry.2 s /\
                       req = SetEnvVars.update_request env entry.1 s)
    (map (fun entry => SetEnvVars.update_request env entry.1 (ToString entry.2))
         kept)
    kept.
Proof.
  induction 1 as [|entry kept P _ IH]; [constructor|].
  cbn [map]. constructor; [|exact IH].
  exists (ToString entry.2). split; [apply primitive_written; exact P|reflexivity].
Qed.

End SkippedEntries.

(** C9.  An entry whose value is neither a string, nor a number, nor a
    boolean is skipped with a warning: the run over the document is the
    run over the document without such entries, request for request and
    answer for answer, with the same count printed and the same exit
    status, which is never 1.  The requests that open the run are the
    updates of the entries whose value is a string, a number or a boolean,
    one each and in the order of the document; every request of the run
    is the update or the create request of such an entry, so that nothing
    is sent for an entry that is skipped; and the count printed is at most
    the number of those entries.  When the answers come in in order the
    exit status is 0. *)
Theorem non_primitive_entries_are_skipped `{Runtime} {W : Type} `{Backend W}
    (env : SetEnvVars.Env) (content content' : string)
    (entries : list (string * JsonValue)) (arrivals : list nat) (w : W) :
  let kept := Stated.primitive_entries entries in
  let fs := fun _ : string => SetEnvVars.Content content (Some (JObj entries)) in
  let fs' := fun _ : string => SetEnvVars.Content content' (Some (JObj kept)) in
  (exists code w1 t t',
     SetEnvVars.main env fs arrivals w = (code, w1, t) /\
     SetEnvVars.main env fs' arrivals w = (code, w1, t') /\
     code <> Some 1 /\
     sent t = sent t' /\
     received t = received t' /\
     (code = Some 0 ->
      last (printed t) = last (printed t') /\
      exists n, last (printed t)
                = Some (MsgSuccessfullySet n (SetEnvVars.ENV_FILE_PATH env)) /\
                (n <= length kept)%nat) /\
     Forall2 (fun req entry =>
                exists s, Stated.written_as entry.2 s /\
                          req = SetEnvVars.update_request env entry.1 s)
       (take (length kept) (sent t)) kept /\
     Forall (fun req =>
               exists key value s,
                 In (key, value) entries /\ Stated.primitive value = true /\
                 Stated.written_as value s /\
                 (req = SetEnvVars.update_request env key s \/
                  req = SetEnvVars.create_request env key s))
       (sent t) /\
     forall key value,
       In (key, value) entries -> Stated.primitive value = false ->
       In (EvLog Warn (MsgSkippingNonPrimitive key)) t) /\
  exists w1 t,
    SetEnvVars.main env fs (Arrivals.in_order 2 (length kept)) w = (Some 0, w1, t).
Proof.
  intros kept fs fs'.
  assert (Ek : UploadRuns.attempts (JObj entries) = kept)
    by apply attempts_stated.
  split.
  2:{ destruct (main_runs env fs (JObj entries) w eq_refl) as [_ Hc].
      cbv zeta in Hc. rewrite Ek in Hc. exact Hc. }
  destruct (SetEnvVars.main env fs arrivals w) as [[code w1] t] eqn:M.
  destruct (SetEnvVars.main env fs' arrivals w) as [[code' w1'] t'] eqn:M'.
  destruct (main_runs env fs (JObj entries) w eq_refl) as [Hany _].
  cbv zeta in Hany. rewrite Ek in Hany.
  destruct (Hany arrivals code w1 t M) as [Htake Hcode].
  pose proof (main_upserting env fs (JObj entries) arrivals w eq_refl) as U.
  rewrite M in U. cbn [snd] in U.
  apply (upserting_sent env) in U.
  destruct (main_unfolds env fs (JObj entries) arrivals w eq_refl)
    as (ts & w2 & ev1 & D & Mu).
  destruct (main_unfolds env fs' (JObj kept) arrivals w eq_refl)
    as (ts' & w2' & ev1' & D' & Mu').
  pose proof (dispatch_spec env entries w) as Sp.
  cbn [Object_entries] in D, D'. rewrite D in Sp. cbv zeta in Sp.
  destruct Sp as (_ & _ & _ & _ & _ & _ & Hd & Hw).
  assert (Ek' : List.filter (fun entry => SetEnvVars.is_primitive entry.2)
                   entries = kept) by exact Ek.
  rewrite Ek' in Hd.
  rewrite Hd in D'. injection D' as <- <- <-.
  destruct (sent_without_logs ev1) as [Es Er].
  assert (Hkept : Forall (fun entry => Stated.primitive entry.2 = true) kept).
  { apply List.Forall_forall. intros entry Hin.
    apply filter_In in Hin as [_ P]. exact P. }
  assert (Hwarn : forall key value,
             In (key, value) entries -> Stated.primitive value = false ->
             In (EvLog Warn (MsgSkippingNonPrimitive key)) ev1).
  { intros key value Hin P. eapply Hw; [exact Hin|].
    rewrite is_primitive_stated. exact P. }
  assert (Hsent : Forall (fun req =>
               exists key value s,
                 In (key, value) entries /\ Stated.primitive value = true /\
                 Stated.written_as value s /\
                 (req = SetEnvVars.update_request env key s \/
                  req = SetEnvVars.create_request env key s)) (sent t)).
  { eapply Forall_impl; [exact U|]. cbv beta.
    intros req (key & s & (v & Hin & ->) & Hreq).
    rewrite Ek in Hin. apply filter_In in Hin as [Hin P]. cbn [snd] in P.
    exists key, v, (ToString v). split; [exact Hin|]. split; [exact P|].
    split; [apply primitive_written; exact P|exact Hreq]. }
  assert (Hfirst : Forall2 (fun req entry =>
                exists s, Stated.written_as entry.2 s /\
                          req = SetEnvVars.update_request env entry.1 s)
       (take (length kept) (sent t)) kept).
  { rewrite Htake. apply updates_of_primitive_entries. exact Hkept. }
  destruct (allSettled arrivals ts w2) as [[[os w3] ev2]|].
  - destruct Mu as (_ & _ & Mu). destruct Mu' as (_ & _ & Mu').
    rewrite Mu in M. rewrite Mu' in M'.
    injection M as <- <- <-. injection M' as <- <- <-.
    exists (Some 0), w3. eexists _, _. split; [reflexivity|].
    split; [reflexivity|]. split; [discriminate|].
    split; [cbn [sent]; rewrite !sent_app, Es; reflexivity|].
    split; [cbn [received]; rewrite !received_app, Er; reflexivity|]. split.
    { intros _. split.
      - rewrite !app_comm_cons, !app_assoc, !printed_app. cbn [printed].
        rewrite !last_snoc. reflexivity.
      - destruct Hcode as [Hc|(_ & Hle & Hlast)]; [discriminate Hc|].
        eexists. split; [exact Hlast|]. lia. }
    split; [exact Hfirst|]. split; [exact Hsent|].
    intros key value Hin P. right. apply in_or_app. left.
    eapply Hwarn; eassumption.
  - rewrite Mu in M. rewrite Mu' in M'.
    injection M as <- <- <-. injection M' as <- <- <-.
    exists None, w2. eexists _, _. split; [reflexivity|].
    split; [reflexivity|]. split; [discriminate|].
    split; [cbn [sent]; rewrite Es; reflexivity|].
    split; [cbn [received]; rewrite Er; reflexivity|]. split; [discriminate|].
    split; [exact Hfirst|]. split; [exact Hsent|].
    intros key value Hin P. right. eapply Hwarn; eassumption.
Qed.
Import Arrivals PipelineRuns Observed.

(* ================================================================== *)
(** ** remove-pipelines.ts: the answers the script goes on with        *)
(* ================================================================== *)

Lemma serves_pipelines_granted (req : Request) (res : FetchResult) :
  method req = DELETE -> failed res = false ->
  Stated.serves_pipelines (EvRecv req res).
Proof.
  intros M F. destruct res as [r|]; [|discriminate F]. simpl in *.
  apply negb_false_iff in F. split; [exact F|]. rewrite M. discriminate.
Qed.

Lemma serves_pipelines_succeeded (req : Request) (res : FetchResult) :
  Stated.serves_pipelines (EvRecv req res) -> failed res = false.
Proof.
  destruct res as [r|]; simpl; [|tauto]. intros [-> _]. reflexivity.
Qed.

Lemma empty_listing_zero (v : JsonValue) (len : option JsonValue) :
  get_prop v "length" = Some len ->
  RemovePipelines.is_zero len = true <-> Stated.empty_listing v.
Proof.
  intros G. unfold Stated.empty_listing. rewrite G. split.
  - destruct len as [[]|]; try discriminate. simpl.
    intros E. apply Z.eqb_eq in E. subst. reflexivity.
  - intros [= ->]. reflexivity.
Qed.

Section PipelineAborts.
Context {W : Type} `{Backend W}.
Variable env : RemovePipelines.Env.

Abbreviation delete_request := (RemovePipelines.delete_request env).
Abbreviation deletePipeline := (RemovePipelines.deletePipeline env).
Abbreviation delete_each := (RemovePipelines.delete_each env).
Abbreviation list_request := (RemovePipelines.list_request env).
Abbreviation fetchPipelines := (RemovePipelines.fetchPipelines env).

(** The loop over a batch returns exactly when no element is [null] and
    every deletion is granted; it sends delete requests only. *)
Lemma delete_each_serves (batch : list JsonValue) :
  forall (total : nat) (w : W),
    let '(o, w', t) := run (delete_each batch total) w in
    o <> Unfinished /\
    only GET t = [] /\
    (forall req res, In (EvRecv req res) t -> method req = DELETE) /\
    ((exists n, o = Returned n) ->
     Forall (fun item => item <> JNull) batch /\
     Forall Stated.serves_pipelines t) /\
    (Forall (fun item => item <> JNull) batch ->
     Forall Stated.serves_pipelines t -> exists n, o = Returned n).
Proof.
  induction batch as [|item batch IH]; intros total w.
  - simpl. split; [discriminate|]. split; [reflexivity|].
    split; [intros req res []|]. split; [intros _; split; constructor|eauto].
  - rewrite (delete_each_cons env). unfold prop.
    destruct (get_prop item "id") as [id|] eqn:G.
    2:{ simpl. split; [discriminate|]. split; [reflexivity|].
        split; [intros req res []|]. split; [intros [n C]; discriminate C|].
        intros NN _. inversion NN; subst. destruct item; try congruence;
          simpl in G; discriminate G. }
    assert (Hitem : item <> JNull) by (intros ->; discriminate G).
    cbn [bind]. rewrite run_bind.
    destruct (handle (delete_request id) w) as [res w1] eqn:E.
    destruct (failed res) eqn:F.
    + destruct (deletePipeline_fails env id w w1 res E F) as (e & ->).
      split; [discriminate|]. split; [reflexivity|]. split.
      { intros req' res' [C|[C|[C|[]]]]; try discriminate C.
        injection C as <- _. reflexivity. }
      split; [intros [n C]; discriminate C|].
      intros _ S. inversion S as [|? ? _ S1]; subst.
      inversion S1 as [|? ? Hr _]; subst.
      apply serves_pipelines_succeeded in Hr. congruence.
    + rewrite (deletePipeline_succeeds env id w w1 res E F).
      cbn [bind run RemovePipelines.sleep].
      specialize (IH (S total) w1).
      destruct (run (delete_each batch (S total)) w1) as [[o w2] t].
      destruct IH as (NU & Hg & Hm & Ha & Hb).
      split; [exact NU|]. split; [exact Hg|]. split.
      { intros req' res' [C|[C|[C|[C|Hin]]]]; try discriminate C.
        - injection C as <- _. reflexivity.
        - eapply Hm. exact Hin. }
      split.
      * intros Hn. destruct (Ha Hn) as [NN S].
        split; [constructor; assumption|].
        constructor; [exact Logic.I|].
        constructor; [apply serves_pipelines_granted; [reflexivity|exact F]|].
        constructor; [exact Logic.I|]. constructor; [exact Logic.I|exact S].
      * intros NN S. inversion NN; subst. apply Hb; [assumption|].
        inversion S as [|? ? _ S1]; subst. inversion S1 as [|? ? _ S2]; subst.
        inversion S2 as [|? ? _ S3]; subst. inversion S3 as [|? ? _ S4]; subst.
        exact S4.
Qed.

(** The loop over the pages raises exactly when an answer is not one the
    script goes on with; it is cut short only by the bound on the number
    of pages. *)
Lemma pages_serves (fuel : nat) :
  forall (page total : nat) (w : W),
    let '(o, w', t) := run (RemovePipelines.pages env fuel page total) w in
    ((forall e, o <> Raised e) -> Forall Stated.serves_pipelines t) /\
    (Forall Stated.serves_pipelines t -> forall e, o <> Raised e) /\
    (o = Unfinished -> length (only GET t) = fuel).
Proof.
  induction fuel as [|fuel IH]; intros page total w.
  - simpl. split; [constructor|]. split; [discriminate|reflexivity].
  - rewrite (pages_step env). cbn [run]. rewrite run_bind.
    destruct (handle (list_request page) w) as [res w1] eqn:E.
    assert (Head : forall t',
               Forall Stated.serves_pipelines
                 (EvLog Info (MsgFetchingPipelinePage page)
                  :: [EvSend (list_request page);
                      EvRecv (list_request page) res] ++ t') ->
               Stated.serves_pipelines (EvRecv (list_request page) res) /\
               Forall Stated.serves_pipelines t').
    { intros t' S. inversion S as [|? ? _ S1]; subst.
      inversion S1 as [|? ? _ S2]; subst.
      inversion S2 as [|? ? Hr S3]; subst. split; assumption. }
    destruct (failed res) eqn:F.
    { rewrite (fetchPipelines_fails env page w w1 res E F).
      split; [intros C; exfalso; eapply C; reflexivity|].
      split; [|intros C; discriminate C].
      intros S. destruct (Head _ S) as [Hr _].
      apply serves_pipelines_succeeded in Hr. congruence. }
    destruct res as [r|]; [|discriminate F].
    assert (Hok : ok r = true) by (apply succeeded_ok; exact F).
    destruct (json r) as [v|] eqn:J.
    2:{ rewrite (fetchPipelines_garbled env page w w1 r E Hok J).
        split; [intros C; exfalso; eapply C; reflexivity|].
        split; [|intros C; discriminate C].
        intros S. destruct (Head _ S) as [[_ Hr] _].
        destruct (Hr eq_refl) as (v & C & _). congruence. }
    rewrite (fetchPipelines_returns env page w w1 r v E Hok J).
    assert (Body : forall t',
               Forall Stated.serves_pipelines
                 (EvLog Info (MsgFetchingPipelinePage page)
                  :: [EvSend (list_request page);
                      EvRecv (list_request page) (Resolved r)] ++ t') ->
               (Stated.empty_listing v \/ Stated.walkable v) /\
               Forall Stated.serves_pipelines t').
    { intros t' S. destruct (Head _ S) as [[_ Hr] S'].
      destruct (Hr eq_refl) as (v' & Hj & Hv).
      rewrite J in Hj. injection Hj as <-. split; assumption. }
    assert (Here : forall t',
               Forall Stated.serves_pipelines t' ->
               (Stated.empty_listing v \/ Stated.walkable v) ->
               Forall Stated.serves_pipelines
                 (EvLog Info (MsgFetchingPipelinePage page)
                  :: [EvSend (list_request page);
                      EvRecv (list_request page) (Resolved r)] ++ t')).
    { intros t' S Hv. constructor; [exact Logic.I|].
      constructor; [exact Logic.I|]. constructor; [|exact S].
      split; [exact Hok|]. intros _. exists v. split; assumption. }
    unfold prop. destruct (get_prop v "length") as [len|] eqn:L.
    2:{ simpl. split; [intros C; exfalso; eapply C; reflexivity|].
        split; [|intros C; discriminate C].
        intros S. destruct (Body [] S) as [[Hv|(items & I & _)] _].
        - unfold Stated.empty_listing in Hv. congruence.
        - destruct v; simpl in L, I; discriminate. }
    cbn [bind]. pose proof (empty_listing_zero v len L) as ZE.
    destruct (RemovePipelines.is_zero len) eqn:Z.
    { simpl. split.
      - intros _. apply (Here [EvLog Info MsgNoMorePipelines]);
          [repeat constructor|]. left. apply ZE. reflexivity.
      - split; [discriminate|intros C; discriminate C]. }
    cbn [run]. unfold iterable.
    destruct (iterate v) as [items|] eqn:I.
    2:{ simpl. split; [intros C; exfalso; eapply C; reflexivity|].
        split; [|intros C; discriminate C].
        intros S.
        destruct (Body [EvLog Info (MsgFoundPipelines len page)] S)
          as [[Hv|(items & C & _)] _]; [|congruence].
        apply ZE in Hv. discriminate Hv. }
    cbn [bind]. rewrite run_bind.
    pose proof (delete_each_serves items total w1) as V.
    destruct (run (delete_each items total) w1) as [[od wd] td].
    destruct V as (NU & Vg & _ & Va & Vb).
    pose proof (zero_length_iterates_nothing v len items L I) as ZL.
    rewrite Z in ZL. destruct ZL as [Pos _]. rewrite Pos.
    destruct od as [n|e|]; [| |congruence].
    + specialize (IH (S page) n wd).
      destruct (run (RemovePipelines.pages env fuel (S page) n) wd)
        as [[op wp] tp].
      destruct IH as (Ia & Ib & Ic).
      destruct (Va (ex_intro _ n eq_refl)) as [NN Sd]. split; [|split].
      * intros NR.
        apply (Here (EvLog Info (MsgFoundPipelines len page) :: td ++ tp)).
        -- constructor; [exact Logic.I|]. apply Forall_app. split; [exact Sd|auto].
        -- right. exists items. split; assumption.
      * intros S.
        destruct (Body (EvLog Info (MsgFoundPipelines len page) :: td ++ tp) S)
          as [_ S'].
        inversion S' as [|? ? _ S'']; subst.
        apply Forall_app in S'' as [_ Sp]. auto.
      * intros U. unfold only in *. cbn [app sent]. rewrite sent_app.
        cbn [List.filter is_method method RemovePipelines.list_request].
        rewrite List.filter_app, Vg. cbn [app length]. f_equal. auto.
    + split; [intros C; exfalso; eapply C; reflexivity|].
      split; [|intros C; discriminate C].
      intros S.
      destruct (Body (EvLog Info (MsgFoundPipelines len page) :: td) S)
        as [Hv S'].
      inversion S' as [|? ? _ S'']; subst.
      destruct Hv as [Hv|(items' & I' & NN)].
      * apply ZE in Hv. congruence.
      * rewrite I in I'. injection I' as <-.
        destruct (Vb NN S'') as [n C]. discriminate C.
Qed.

End PipelineAborts.

Section PipelineStopFacts.
Import PipelineStops.
Context {W : Type} `{Backend W}.
Variable env : RemovePipelines.Env.

Abbreviation delete_each := (RemovePipelines.delete_each env).
Abbreviation list_request := (RemovePipelines.list_request env).
Abbreviation fetchPipelines := (RemovePipelines.fetchPipelines env).


Lemma deleted_lines_app (a b : list Event) :
  deleted_lines (a ++ b) = deleted_lines a ++ deleted_lines b.
Proof. unfold deleted_lines. rewrite printed_app, List.filter_app. reflexivity. Qed.

Lemma deleted_lines_batch (batch : list JsonValue) :
  List.filter (fun m => match m with MsgDeletedPipeline _ => true | _ => false end)
    (map (fun item => MsgDeletedPipeline (field "id" item)) batch)
  = map (fun item => MsgDeletedPipeline (field "id" item)) batch.
Proof. induction batch as [|item batch IH]; simpl; congruence. Qed.

Lemma serve_removals_length (batch : list JsonValue) :
  forall (w w' : W) (ress : list FetchResult),
    serve (map (removal env) batch) w = (ress, w') -> length ress = length batch.
Proof.
  induction batch as [|b batch IHb]; intros w w' ress Sd; simpl in Sd.
  - inversion Sd; reflexivity.
  - destruct (handle (removal env b) w) as [r0 w0].
    destruct (serve (map (removal env) batch) w0) as [rs w4] eqn:Sb.
    inversion Sd; subst. simpl. f_equal. eapply IHb; eassumption.
Qed.

(** The loop over pages that are deleted whole, followed by a page on
    which a deletion fails: the loop stops at that deletion. *)
Lemma pages_stop (before : list (list JsonValue)) :
  forall (page total fuel : nat) (w w0 w1 w2 : W)
         (done : list JsonValue) (x : JsonValue) (todo : list JsonValue)
         (ress ressd : list FetchResult) (res : FetchResult),
    Forall (fun b => b <> [] /\ Forall (fun item => item <> JNull) b) before ->
    serve (page_requests env page before) w = (ress, w0) ->
    cleared before (done ++ x :: todo) ress ->
    Forall (fun item => item <> JNull) (done ++ [x]) ->
    serve (map (removal env) done) w0 = (ressd, w1) ->
    Forall succeeded ressd ->
    handle (removal env x) w1 = (res, w2) ->
    failed res = true ->
    (length before < fuel)%nat ->
    exists e t,
      run (RemovePipelines.pages env fuel page total) w = (Raised e, w2, t) /\
      sent t = page_requests env page before ++ map (removal env) (done ++ [x]) /\
      received t = ress ++ ressd ++ [res] /\
      wire t = page_wire env page before ++ deletions env done
               ++ [EvSend (removal env x)] /\
      deleted_lines t
      = map (fun item => MsgDeletedPipeline (field "id" item))
          (concat before ++ done) /\
      errors t = [MsgErrorDeletingPipeline (field "id" x) e].
Proof.
  induction before as [|batch rest IH];
    intros page total fuel w w0 w1 w2 done x todo ress ressd res
           NE Sv An NN Sd OK Ex F Fu.
  - destruct fuel as [|fuel]; [simpl in Fu; lia|].
    simpl in Sv. destruct (handle (list_request page) w) as [l wl] eqn:E.
    injection Sv as <- <-. destruct An as (l' & [= <-] & Hl).
    destruct (delete_each_fails env done x todo total wl w1 w2 ressd res
                NN Sd OK Ex F)
      as (e & t & R & Hs & Hr & Hw & Hp & He).
    exists e. rewrite (pages_step env). cbn [run]. rewrite run_bind.
    rewrite (fetchPipelines_lists env _ _ _ _ _ E Hl).
    assert (Hz : RemovePipelines.is_zero
                   (Some (JNum (Z.of_nat (length (done ++ x :: todo))))) = false).
    { simpl. apply Z.eqb_neq. rewrite length_app. simpl. lia. }
    unfold prop, iterable. cbn [get_prop iterate]. simpl String.eqb.
    cbn [bind]. rewrite Hz. cbn [run bind]. rewrite run_bind, R.
    eexists. split; [reflexivity|].
    unfold deleted_lines.
    cbn [sent received wire printed errors app page_requests page_wire concat].
    rewrite Hs, Hr, Hw, Hp, He. cbn [List.filter].
    rewrite List.filter_app, deleted_lines_batch. cbn [List.filter].
    rewrite !app_nil_r.
    repeat split; reflexivity.
  - destruct fuel as [|fuel]; [simpl in Fu; lia|].
    inversion NE as [|? ? [Hne Hnn] NE']; subst.
    destruct An as (l & ds & more & -> & Hlen & Hl & Hds & Hmore).
    cbn [page_requests] in Sv.
    change (list_request page :: map (removal env) batch
            ++ page_requests env (S page) rest)
      with ([list_request page] ++ (map (removal env) batch
            ++ page_requests env (S page) rest)) in Sv.
    rewrite serve_app in Sv. simpl in Sv.
    destruct (handle (list_request page) w) as [lres wa] eqn:E.
    rewrite serve_app in Sv.
    destruct (serve (map (removal env) batch) wa) as [rd wb] eqn:Sb.
    destruct (serve (page_requests env (S page) rest) wb) as [rm wc] eqn:Sm.
    injection Sv as Hres Happ Hwc. subst wc.
    pose proof (serve_removals_length batch wa wb rd Sb) as Lrd.
    apply app_inj_1 in Happ; [|congruence].
    destruct Happ as [-> ->]. subst lres.
    destruct (delete_each_succeeds env batch total wa wb ds Hnn Sb Hds)
      as (td & Rd & Hsd & Hrd & Hwd & Hld & Hpd & Hed & _).
    assert (Fu' : (length rest < fuel)%nat) by (simpl in Fu; lia).
    destruct (IH (S page) (total + length batch)%nat fuel wb w0 w1 w2
                done x todo more ressd res NE' Sm Hmore NN Sd OK Ex F Fu')
      as (e & tm & Rm & Hsm & Hrm & Hwm & Hdm & Hem).
    exists e. rewrite (pages_step env). cbn [run]. rewrite run_bind.
    rewrite (fetchPipelines_lists env _ _ _ _ _ E Hl).
    destruct Hl as (r & -> & Hok & Hj).
    assert (Hz : RemovePipelines.is_zero (Some (JNum (Z.of_nat (length batch))))
                 = false).
    { simpl. apply Z.eqb_neq. destruct batch; [congruence|simpl; lia]. }
    assert (Hp : RemovePipelines.is_positive (Some (JNum (Z.of_nat (length batch))))
                 = true).
    { simpl. apply Z.ltb_lt. destruct batch; [congruence|simpl; lia]. }
    unfold prop, iterable. cbn [get_prop iterate String.eqb Ascii.eqb Bool.eqb bind].
    simpl String.eqb. cbn [bind]. rewrite Hz. cbn [run bind].
    rewrite run_bind. rewrite Rd. rewrite Hp. rewrite Rm.
    eexists. split; [reflexivity|].
    unfold deleted_lines in *.
    cbn [sent received wire printed errors app page_requests page_wire concat].
    rewrite !sent_app, !received_app, !wire_app, !printed_app, !errors_app.
    cbn [List.filter]. rewrite !List.filter_app.
    rewrite Hsd, Hrd, Hwd, Hpd, Hed, Hsm, Hrm, Hwm, Hdm, Hem.
    rewrite deleted_lines_batch. cbn [List.filter app].
    rewrite <- !app_assoc, !map_app. cbn [app].
    repeat split; reflexivity.
Qed.

Lemma pause_follows_pages (batches : list (list JsonValue)) :
  forall (page : nat) (rest : list Event),
    pause_follows_each_deletion (RemovePipelines.DELAY_MS env)
      (page_wire env page batches ++ rest)
    = pause_follows_each_deletion (RemovePipelines.DELAY_MS env) rest.
Proof.
  induction batches as [|batch batches IH]; intros page rest; [reflexivity|].
  cbn [page_wire app pause_follows_each_deletion method
       RemovePipelines.list_request].
  rewrite <- app_assoc, pause_follows_deletions. apply IH.
Qed.

Lemma only_delete_pages (batches : list (list JsonValue)) :
  forall page : nat,
    List.filter (is_method DELETE) (page_requests env page batches)
    = map (removal env) (concat batches).
Proof.
  induction batches as [|batch batches IH]; intros page; [reflexivity|].
  cbn [page_requests concat List.filter is_method method
       RemovePipelines.list_request].
  destruct (filter_removals env batch) as [FD _].
  rewrite List.filter_app, FD, IH, map_app. reflexivity.
Qed.

End PipelineStopFacts.

(** C5, as amended.  Of the K pipelines the script is handed page after
    page, let the i-th be the first whose deletion fails: [before] are the
    pages deleted whole before the page on which it stands, [done] the
    pipelines of that page before it, [x] the i-th and [todo] those after
    it on that page.  Then exactly i delete requests leave, in listing
    order, the i-1 first are granted, nothing is sent for [todo] and no
    further page is asked for; after each deletion that is granted the
    configured delay elapses before the next request is sent; after the
    failed call there is no pause: the script goes straight to its exit
    with status 1. *)
Theorem deletion_stops_at_first_failure {W : Type} `{Backend W}
    (env : RemovePipelines.Env) (w w0 w1 w2 : W)
    (before : list (list JsonValue))
    (done : list JsonValue) (x : JsonValue) (todo : list JsonValue)
    (ress ressd : list FetchResult) (res : FetchResult) (fuel : nat) :
  Forall (fun batch => batch <> [] /\ Forall (fun item => item <> JNull) batch)
    before ->
  serve (page_requests env 1 before) w = (ress, w0) ->
  PipelineStops.cleared before (done ++ x :: todo) ress ->
  Forall (fun item => item <> JNull) (done ++ [x]) ->
  serve (map (removal env) done) w0 = (ressd, w1) ->
  Forall succeeded ressd ->
  handle (removal env x) w1 = (res, w2) ->
  failed res = true ->
  (length before < fuel)%nat ->
  exists e t,
    run (RemovePipelines.script env fuel) w = (Returned 1, w2, t) /\
    sent t = page_requests env 1 before ++ map (removal env) (done ++ [x]) /\
    only DELETE t = map (removal env) (concat before ++ done ++ [x]) /\
    received t = ress ++ ressd ++ [res] /\
    wire t = EvSleep 5000
             :: page_wire env 1 before ++ deletions env done
             ++ [EvSend (removal env x)] /\
    PipelineStops.deleted_lines t
    = map (fun item => MsgDeletedPipeline (field "id" item))
        (concat before ++ done) /\
    errors t = [MsgErrorDeletingPipeline (field "id" x) e;
                MsgErrorRemovingPipelines e] /\
    pause_follows_each_deletion (RemovePipelines.DELAY_MS env)
      (page_wire env 1 before ++ deletions env done)
    = true /\
    pause_follows_each_deletion (RemovePipelines.DELAY_MS env) (wire t) = false.
Proof.
  intros NE Sv An NN Sd OK Ex F Fu.
  destruct (pages_stop env before 1 0 fuel w w0 w1 w2 done x todo ress ressd res
              NE Sv An NN Sd OK Ex F Fu)
    as (e & t & R & Hs & Hr & Hw & Hd & He).
  exists e. rewrite script_unfolds, R. cbv zeta. eexists. split; [reflexivity|].
  unfold only, PipelineStops.deleted_lines in *.
  cbn [sent received wire printed errors app List.filter].
  rewrite !sent_app, !received_app, !wire_app, !printed_app, !errors_app.
  rewrite !List.filter_app.
  rewrite Hs, Hr, Hw, Hd, He.
  cbn [sent received wire printed errors app List.filter].
  rewrite !app_nil_r.
  repeat split; try reflexivity.
  - rewrite List.filter_app, only_delete_pages.
    destruct (filter_removals env (done ++ [x])) as [-> _].
    rewrite <- map_app. reflexivity.
  - rewrite <- (app_nil_r (deletions env done)).
    rewrite pause_follows_pages. apply pause_follows_deletions.
  - cbn [pause_follows_each_deletion].
    rewrite pause_follows_pages, pause_follows_deletions. reflexivity.
Qed.

Lemma deletion_stops_at_first_failure_witness :
  let w := [Examples.reply 200 (JArr (map Examples.pipeline [7; 8]));
            Examples.reply 204 JNull; Examples.reply 204 JNull;
            Examples.reply 200 (JArr (map Examples.pipeline [9; 10; 11]));
            Examples.reply 204 JNull; Examples.reply 500 JNull] in
  exists t,
    run (RemovePipelines.script Examples.project25 2) w = (Returned 1, [], t) /\
    only DELETE t
    = map (fun id => removal Examples.project25 (Examples.pipeline id))
        [7; 8; 9; 10].
Proof.
  intros w.
  destruct (deletion_stops_at_first_failure Examples.project25 w
              [Examples.reply 204 JNull; Examples.reply 500 JNull]
              [Examples.reply 500 JNull] []
              [map Examples.pipeline [7; 8]]
              [Examples.pipeline 9] (Examples.pipeline 10) [Examples.pipeline 11]
              [Examples.reply 200 (JArr (map Examples.pipeline [7; 8]));
               Examples.reply 204 JNull; Examples.reply 204 JNull;
               Examples.reply 200 (JArr (map Examples.pipeline [9; 10; 11]))]
              [Examples.reply 204 JNull] (Examples.reply 500 JNull) 2)
    as (e & t & R & _ & Hd & _).
  - repeat constructor; discriminate.
  - reflexivity.
  - eexists _, [Examples.reply 204 JNull; Examples.reply 204 JNull], _.
    split; [reflexivity|]. split; [reflexivity|].
    split; [eexists; repeat split; reflexivity|].
    split; [repeat constructor|].
    eexists. split; [reflexivity|]. eexists. repeat split; reflexivity.
  - repeat constructor; discriminate.
  - reflexivity.
  - repeat constructor.
  - reflexivity.
  - reflexivity.
  - simpl. lia.
  - exists t. split; [exact R|exact Hd].
Defined.



Import Arrivals UploadRuns UploadAnswers.

(* ================================================================== *)
(** ** set-env-vars.ts: the count and the answers                      *)
(* ================================================================== *)

Lemma failed_uploads_app (a b : list Event) :
  Stated.failed_uploads (a ++ b)
  = (Stated.failed_uploads a + Stated.failed_uploads b)%nat.
Proof.
  unfold Stated.failed_uploads. rewrite List.filter_app, length_app. reflexivity.
Qed.

Lemma successful_uploads_app (a b : list Event) :
  Stated.successful_uploads (a ++ b)
  = (Stated.successful_uploads a + Stated.successful_uploads b)%nat.
Proof.
  unfold Stated.successful_uploads. rewrite List.filter_app, length_app.
  reflexivity.
Qed.

Lemma not_found_is_failure (res : FetchResult) :
  not_found res = true -> failed res = true.
Proof.
  destruct res as [r|]; simpl; [|reflexivity].
  intros E. apply Z.eqb_eq in E. unfold ok. rewrite E. reflexivity.
Qed.

Section CountFacts.
Context {W : Type} `{Backend W}.

Lemma advance_answers (b : bool) (p : Prog bool) :
  Answers b p ->
  forall w : W,
    exists ev,
      advance p w = (Settled (Returned b), w, ev) /\
      Stated.failed_uploads ev = 0%nat /\
      Stated.successful_uploads ev = 0%nat.
Proof.
  induction 1 as [|l m k _ IH]; intros w.
  - exists []. repeat split.
  - destruct (IH w) as (ev & A & Hf & Hs).
    exists (EvLog l m :: ev). cbn [advance]. rewrite A.
    repeat split; assumption.
Qed.

(** An arrival at a truthful promise: it stays truthful, and it has
    answered [true] exactly when a call was granted, and answered at all
    exactly when a call was granted or refused for good. *)
Lemma resume_truthful (t : Task bool) :
  truthful t ->
  forall w : W,
    let '(t', w', ev) := resume t w in
    truthful t' /\
    won t' = (won t + Stated.successful_uploads ev)%nat /\
    over t' = (over t + Stated.successful_uploads ev
               + Stated.failed_uploads ev)%nat.
Proof.
  intros Ht w. destruct t as [o|req res k|ms k]; simpl in Ht.
  - destruct o as [b| |]; try contradiction.
    unfold Stated.successful_uploads, Stated.failed_uploads. simpl.
    repeat split; lia.
  - cbn [resume].
    destruct (match method req with PUT => not_found res | _ => false end)
      eqn:Again.
    + destruct Ht as (req' & k' & Hk & Hm & Hk').
      rewrite Hk. cbn [advance].
      destruct (handle req' w) as [res' w'].
      assert (F : failed res = true).
      { apply not_found_is_failure. destruct (method req); congruence. }
      split.
      * cbn [truthful]. rewrite Hm. apply Hk'.
      * unfold Stated.successful_uploads, Stated.failed_uploads.
        cbn [List.filter Stated.upload_success Stated.upload_failure].
        rewrite F, Again. simpl. split; reflexivity.
    + destruct (advance_answers _ _ Ht w) as (ev & -> & Hf & Hs).
      split; [exact Logic.I|].
      unfold Stated.successful_uploads, Stated.failed_uploads in *.
      cbn [List.filter Stated.upload_success Stated.upload_failure].
      rewrite Again. destruct (failed res); simpl; rewrite ?Hf, ?Hs; split; reflexivity.
  - contradiction.
Qed.

Lemma arrive_truthful (ts : list (Task bool)) :
  Forall truthful ts ->
  forall (i : nat) (w : W),
    let '(ts', w', ev) := arrive i ts w in
    Forall truthful ts' /\
    wons ts' = (wons ts + Stated.successful_uploads ev)%nat /\
    overs ts' = (overs ts + Stated.successful_uploads ev
                 + Stated.failed_uploads ev)%nat.
Proof.
  induction 1 as [|t ts Ht Hts IH]; intros i w.
  - simpl. repeat split; constructor.
  - destruct i as [|i]; cbn [arrive].
    + pose proof (resume_truthful t Ht w) as R.
      destruct (resume t w) as [[t' w1] ev1]. destruct R as (Ht' & Hw & Ho).
      split; [constructor; assumption|].
      cbn [wons overs]. lia.
    + specialize (IH i w). destruct (arrive i ts w) as [[ts' w1] ev1].
      destruct IH as (Hts' & Hw & Ho).
      split; [constructor; assumption|].
      cbn [wons overs]. lia.
Qed.

Lemma outcomes_truthful (ts : list (Task bool)) (os : list (Outcome bool)) :
  Forall truthful ts ->
  outcomes ts = Some os ->
  SetEnvVars.counted os = wons ts /\ length os = overs ts.
Proof.
  intros Hts. revert os.
  induction Hts as [|t ts Ht _ IH]; intros os Ho.
  - injection Ho as <-. split; reflexivity.
  - cbn [outcomes] in Ho. destruct (settled t) as [o|] eqn:St; [|discriminate].
    destruct (outcomes ts) as [os'|]; [|discriminate]. injection Ho as <-.
    destruct (IH os' eq_refl) as [Hc Hl].
    destruct t as [o'|req res k|ms k]; try discriminate St.
    injection St as ->. simpl in Ht.
    destruct o as [b| |]; try contradiction.
    unfold SetEnvVars.counted in *.
    cbn [List.filter wons overs won over].
    destruct b; cbn [length]; lia.
Qed.

(** Whatever the order of the arrivals: once [Promise.all] is through,
    as many promises have answered [true] as calls were granted, and
    there are as many promises as calls were granted or refused for
    good. *)
Lemma allSettled_truthful (arrivals : list nat) :
  forall (ts : list (Task bool)) (w w' : W) (os : list (Outcome bool))
         (ev : list Event),
    Forall truthful ts ->
    allSettled arrivals ts w = Some (os, w', ev) ->
    SetEnvVars.counted os = (wons ts + Stated.successful_uploads ev)%nat /\
    length os = (overs ts + Stated.successful_uploads ev
                 + Stated.failed_uploads ev)%nat.
Proof.
  induction arrivals as [|i later IH]; intros ts w w' os ev Hts Ha;
    cbn [allSettled] in Ha; destruct (outcomes ts) as [os0|] eqn:Ho.
  - injection Ha as <- <- <-.
    destruct (outcomes_truthful ts os0 Hts Ho) as [Hc Hl].
    cbn. lia.
  - discriminate Ha.
  - injection Ha as <- <- <-.
    destruct (outcomes_truthful ts os0 Hts Ho) as [Hc Hl].
    cbn. lia.
  - pose proof (arrive_truthful ts Hts i w) as Ar.
    destruct (arrive i ts w) as [[ts1 w1] ev1]. destruct Ar as (Hts1 & Hw1 & Ho1).
    destruct (allSettled later ts1 w1) as [[[os1 w2] ev2]|] eqn:Ha'; [|discriminate].
    injection Ha as <- <- <-.
    destruct (IH ts1 w1 w2 os1 ev2 Hts1 Ha') as [Hc Hl].
    rewrite successful_uploads_app, failed_uploads_app. lia.
Qed.

End CountFacts.

Section UploadCounts.
Context `{Runtime} {W : Type} `{Backend W}.
Variable env : SetEnvVars.Env.

(** The promise of an entry is truthful from its first request on. *)
Lemma entry_promise_truthful (key : string) (value : JsonValue) (w : W) :
  exists t w' req,
    advance (SetEnvVars.entry_promise env key value) w = (t, w', [EvSend req]) /\
    truthful t /\ won t = 0%nat /\ over t = 0%nat.
Proof.
  unfold SetEnvVars.entry_promise, SetEnvVars.setGitLabVariable, fetch,
    response_json, mbind, Prog_bind.
  cbn [try_catch bind advance].
  destruct (handle (SetEnvVars.update_request env key (ToString value)) w)
    as [res w'].
  eexists _, _, _. split; [reflexivity|].
  split; [|split; reflexivity].
  cbn [truthful method SetEnvVars.update_request].
  destruct res as [r1|]; cbn [not_found failed try_catch bind].
  - destruct (status r1 =? 404) eqn:E; cbn [try_catch bind].
    + eexists _, _. split; [reflexivity|]. split; [reflexivity|].
      intros [r2|]; cbn [failed try_catch bind].
      * destruct (ok r2); cbn [negb try_catch bind].
        -- repeat constructor.
        -- destruct (json r2); cbn [try_catch bind]; repeat constructor.
      * repeat constructor.
    + destruct (ok r1); cbn [negb try_catch bind].
      * repeat constructor.
      * destruct (json r1); cbn [try_catch bind]; repeat constructor.
  - repeat constructor.
Qed.

Lemma dispatch_truthful (entries : list (string * JsonValue)) :
  forall w : W,
    let '(ts, w', ev) := SetEnvVars.dispatch env entries w in
    Forall truthful ts /\ wons ts = 0%nat /\ overs ts = 0%nat /\
    Stated.successful_uploads ev = 0%nat /\ Stated.failed_uploads ev = 0%nat.
Proof.
  induction entries as [|[key value] entries IH]; intros w.
  - simpl. repeat split; constructor.
  - cbn [SetEnvVars.dispatch].
    destruct (SetEnvVars.is_primitive value).
    + destruct (entry_promise_truthful key value w)
        as (t & w1 & req & -> & Ht & Hw & Ho).
      specialize (IH w1).
      destruct (SetEnvVars.dispatch env entries w1) as [[ts w2] ev2].
      destruct IH as (Hts & Hws & Hos & Hs & Hf).
      split; [constructor; assumption|].
      cbn [wons overs app].
      rewrite Hw, Ho, Hws, Hos. repeat split; assumption.
    + specialize (IH w).
      destruct (SetEnvVars.dispatch env entries w) as [[ts w2] ev2].
      destruct IH as (Hts & Hws & Hos & Hs & Hf).
      repeat split; assumption.
Qed.

(** The count [main] prints is the number of calls that were granted,
    and every entry attempted ends on a call that is either granted or
    refused for good. *)
Lemma main_counts (fs : string -> SetEnvVars.File) (doc : JsonValue)
    (arrivals : list nat) (w w' : W) (t : list Event) :
  accepted (fs (SetEnvVars.ENV_FILE_PATH env)) = Some doc ->
  SetEnvVars.main env fs arrivals w = (Some 0, w', t) ->
  let K := length (attempts doc) in
  K = (Stated.successful_uploads t + Stated.failed_uploads t)%nat /\
  last (printed t)
  = Some (MsgSuccessfullySet (Stated.successful_uploads t)
            (SetEnvVars.ENV_FILE_PATH env)) /\
  failure_lines t = Stated.failed_uploads t.
Proof.
  intros Acc M K.
  destruct (main_unfolds env fs doc arrivals w Acc) as (ts & w1 & ev1 & D & Mu).
  pose proof (dispatch_spec env (Object_entries doc) w) as Sp.
  pose proof (dispatch_truthful (Object_entries doc) w) as Tr.
  rewrite D in Sp, Tr. cbv zeta in Sp.
  destruct Sp as (_ & Hl & _ & Hfl & _).
  destruct Tr as (Hts & Hws & Hos & Hs1 & Hf1).
  destruct (allSettled arrivals ts w1) as [[[os w2] ev2]|] eqn:Ha.
  2:{ rewrite Mu in M. discriminate M. }
  destruct Mu as (Hlo & Hc & Mu). rewrite Mu in M. injection M as <- <-.
  destruct (allSettled_truthful arrivals ts w1 w2 os ev2 Hts Ha) as [Hcount Hlen].
  assert (Hs : Stated.successful_uploads
                 (EvLog Info (MsgSettingVariables (SetEnvVars.GITLAB_PROJECT_ID env))
                  :: ev1 ++ ev2
                  ++ [EvLog Info (MsgSuccessfullySet (SetEnvVars.counted os)
                                    (SetEnvVars.ENV_FILE_PATH env))])
               = Stated.successful_uploads ev2).
  { change (EvLog Info (MsgSettingVariables (SetEnvVars.GITLAB_PROJECT_ID env))
            :: ev1 ++ ev2 ++ ?x)
      with ([EvLog Info (MsgSettingVariables (SetEnvVars.GITLAB_PROJECT_ID env))]
            ++ ev1 ++ ev2 ++ x).
    rewrite !successful_uploads_app, Hs1. cbn. lia. }
  assert (Hf : Stated.failed_uploads
                 (EvLog Info (MsgSettingVariables (SetEnvVars.GITLAB_PROJECT_ID env))
                  :: ev1 ++ ev2
                  ++ [EvLog Info (MsgSuccessfullySet (SetEnvVars.counted os)
                                    (SetEnvVars.ENV_FILE_PATH env))])
               = Stated.failed_uploads ev2).
  { change (EvLog Info (MsgSettingVariables (SetEnvVars.GITLAB_PROJECT_ID env))
            :: ev1 ++ ev2 ++ ?x)
      with ([EvLog Info (MsgSettingVariables (SetEnvVars.GITLAB_PROJECT_ID env))]
            ++ ev1 ++ ev2 ++ x).
    rewrite !failed_uploads_app, Hf1. cbn. lia. }
  assert (Hfail : failure_lines
                    (EvLog Info (MsgSettingVariables
                                   (SetEnvVars.GITLAB_PROJECT_ID env))
                     :: ev1 ++ ev2
                     ++ [EvLog Info (MsgSuccessfullySet (SetEnvVars.counted os)
                                       (SetEnvVars.ENV_FILE_PATH env))])
                  = failure_lines ev2).
  { change (EvLog Info (MsgSettingVariables (SetEnvVars.GITLAB_PROJECT_ID env))
            :: ev1 ++ ev2 ++ ?x)
      with ([EvLog Info (MsgSettingVariables (SetEnvVars.GITLAB_PROJECT_ID env))]
            ++ ev1 ++ ev2 ++ x).
    rewrite !failure_lines_app, Hfl. cbn. lia. }
  rewrite Hs, Hf, Hfail. unfold K.
  fold (attempts doc) in Hl.
  split; [lia|]. split; [|lia].
  rewrite app_comm_cons, app_assoc, printed_app. cbn [printed].
  rewrite last_snoc. do 2 f_equal. lia.
Qed.

End UploadCounts.

(** C4, as amended.  The variable-removal script, over a listing of
    K >= 1 variables, sends the K delete requests whatever the answers
    are, and its summary reports K processed, K - F deleted and F failed,
    F being the number of failed deletions wherever they stand and in
    whatever order the answers come in.  The set-variables script sends
    the update of every one of its K primitive entries, whatever the
    answers are, and prints one count, K - F, F being the number of
    entries whose upload ended on a call that failed (an update answered
    with a failure other than "not found", or a create answered with a
    failure): the count is the number of calls that were granted.  It
    prints one failure line for each of the F entries, and neither K nor
    F.  Both scripts come to their end when the answers come in in
    order. *)
Theorem summary_counts `{Runtime} {W : Type} `{Backend W} :
  (forall (env : RemoveEnvVars.Env) (fuel : nat) (w w1 w2 : W)
          (t1 : list Event) (variables : list JsonValue)
          (ress : list FetchResult),
     run (RemoveEnvVars.fetchEnvironmentVariables env fuel) w
     = (Returned variables, w1, t1) ->
     variables <> [] ->
     Forall (fun variable => variable <> JNull) variables ->
     serve (map (VariableRuns.removal env) variables) w1 = (ress, w2) ->
     let K := length variables in
     let F := length (List.filter failed ress) in
     (forall arrivals code w' t,
        RemoveEnvVars.removeAllEnvironmentVariables env fuel arrivals w
        = (Some code, w', t) ->
        code = (if (0 <? F)%nat then 1 else 0) /\
        w' = w2 /\
        sent t = sent t1 ++ map (VariableRuns.removal env) variables /\
        Permutation (received t) (received t1 ++ ress) /\
        VariableRuns.tally (printed t) = Some (K, (K - F)%nat, F)) /\
     exists t,
       RemoveEnvVars.removeAllEnvironmentVariables env fuel (in_order 1 K) w
       = (Some (if (0 <? F)%nat then 1 else 0), w2, t)) /\
  (forall (env : SetEnvVars.Env) (fs : string -> SetEnvVars.File)
          (doc : JsonValue) (w : W),
     accepted (fs (SetEnvVars.ENV_FILE_PATH env)) = Some doc ->
     let tried := Stated.primitive_entries (Object_entries doc) in
     let K := length tried in
     (forall arrivals code w' t,
        SetEnvVars.main env fs arrivals w = (code, w', t) ->
        Forall2 (fun req entry =>
                   exists s, Stated.written_as entry.2 s /\
                             req = SetEnvVars.update_request env entry.1 s)
          (take K (sent t)) tried /\
        (code = None \/
         code = Some 0 /\
         K = (Stated.successful_uploads t + Stated.failed_uploads t)%nat /\
         last (printed t)
         = Some (MsgSuccessfullySet (K - Stated.failed_uploads t)
                   (SetEnvVars.ENV_FILE_PATH env)) /\
         failure_lines t = Stated.failed_uploads t)) /\
     exists w' t,
       SetEnvVars.main env fs (in_order 2 K) w = (Some 0, w', t)).
Proof.
  split.
  - intros env fuel w w1 w2 t1 variables ress. apply removal_summary.
  - intros env fs doc w Acc tried K.
    assert (Et : attempts doc = tried) by apply attempts_stated.
    destruct (main_runs env fs doc w Acc) as [Hany Hend].
    cbv zeta in Hany, Hend. rewrite Et in Hany, Hend. fold K in Hany, Hend.
    split; [|exact Hend].
    intros arrivals code w' t M.
    destruct (Hany arrivals code w' t M) as [Htake Hcode]. split.
    + rewrite Htake. apply updates_of_primitive_entries.
      apply List.Forall_forall. intros entry Hin.
      apply filter_In in Hin as [_ P]. exact P.
    + destruct Hcode as [->|(-> & _)]; [left; reflexivity|right].
      destruct (main_counts env fs doc arrivals w w' t Acc M) as (Hk & Hl & Hf).
      cbv zeta in Hk. rewrite Et in Hk. fold K in Hk.
      split; [reflexivity|]. split; [exact Hk|]. split; [|exact Hf].
      rewrite Hl. do 2 f_equal. lia.
Qed.

Lemma summary_counts_witness :
  let w := [Examples.reply_page "1" [Examples.variable "A" "production";
                                     Examples.variable "B" "production";
                                     Examples.variable "C" "production"];
            Examples.reply 204 JNull; Examples.reply 500 JNull;
            Examples.reply 204 JNull] in
  let doc := JObj [("A", JStr "1"); ("B", JNum 2)] in
  (exists t,
     RemoveEnvVars.removeAllEnvironmentVariables Examples.production 5
       [2; 0; 1]%nat w
     = (Some 1, [], t) /\
     VariableRuns.tally (printed t) = Some (3, 2, 1)%nat) /\
  (exists t,
     SetEnvVars.main Examples.uat (fun _ => SetEnvVars.Content "" (Some doc))
       [0; 1; 1]%nat
       [Examples.reply 500 JNull; Examples.reply 404 JNull;
        Examples.reply 201 JNull]
     = (Some 0, [], t) /\
     Stated.failed_uploads t = 1%nat /\
     last (printed t) = Some (MsgSuccessfullySet 1 "uat.env.json")).
Proof.
  intros w doc.
  destruct (@summary_counts Examples.plain_runtime _ _) as [S U]. split.
  - destruct (run (RemoveEnvVars.fetchEnvironmentVariables Examples.production 5) w)
      as [[o w1] t1] eqn:R.
    vm_compute in R. injection R as <- <- <-.
    edestruct (S Examples.production 5%nat w) as [Hany _].
    + vm_compute. reflexivity.
    + discriminate.
    + repeat constructor; discriminate.
    + reflexivity.
    + destruct (RemoveEnvVars.removeAllEnvironmentVariables Examples.production 5
                  [2; 0; 1]%nat w) as [[code w'] t] eqn:M.
      assert (Hc : code = Some 1) by (vm_compute in M; congruence).
      subst code.
      destruct (Hany [2; 0; 1]%nat 1 w' t M) as (_ & -> & _ & _ & Ht).
      exists t. split; [reflexivity|exact Ht].
  - destruct (U Examples.uat (fun _ => SetEnvVars.Content "" (Some doc)) doc
                [Examples.reply 500 JNull; Examples.reply 404 JNull;
                 Examples.reply 201 JNull] eq_refl) as [Hany _].
    destruct (SetEnvVars.main Examples.uat
                (fun _ => SetEnvVars.Content "" (Some doc)) [0; 1; 1]%nat
                [Examples.reply 500 JNull; Examples.reply 404 JNull;
                 Examples.reply 201 JNull]) as [[code w'] t] eqn:M.
    destruct (Hany [0; 1; 1]%nat code w' t M) as [_ [Hc|(Hc & Hk & Hl & _)]].
    + vm_compute in M. rewrite Hc in M. discriminate M.
    + assert (Hw : w' = []) by (vm_compute in M; congruence).
      assert (Hf : Stated.failed_uploads t = 1%nat).
      { vm_compute in M. injection M as _ _ <-. reflexivity. }
      subst code w'. exists t. split; [reflexivity|]. split; [exact Hf|].
      rewrite Hl, Hf. reflexivity.
Defined.
Import Arrivals PipelineRuns VariableRuns UploadRuns Observed Patience.

(* ================================================================== *)
(** ** The exit status of the two removal scripts                      *)
(* ================================================================== *)

Lemma serves_pipelines_logs (t : list Event) :
  received t = [] -> Forall Stated.serves_pipelines t.
Proof.
  induction t as [|e t IH]; intros R; [constructor|].
  destruct e; simpl in R; try discriminate R; constructor; auto; exact Logic.I.
Qed.

Lemma serves_variables_logs (t : list Event) :
  received t = [] -> Forall Stated.serves_variables t.
Proof.
  induction t as [|e t IH]; intros R; [constructor|].
  destruct e; simpl in R; try discriminate R; constructor; auto; exact Logic.I.
Qed.

Lemma serves_variables_succeeded (t : list Event) :
  Forall Stated.serves_variables t -> Forall succeeded (received t).
Proof.
  induction 1 as [|e t He _ IH]; [constructor|].
  destruct e as [| |req res|]; simpl; try exact IH.
  constructor; [|exact IH].
  destruct res as [r|]; [|destruct He]. destruct He as [Hok _].
  unfold succeeded. simpl. rewrite Hok. reflexivity.
Qed.

(** What the listings hand over holds no [null] when every answer is one
    the script goes on with. *)
Lemma serves_variables_listed (t : list Event) :
  Forall Stated.serves_variables t ->
  Forall (fun item => item <> JNull) (listed t).
Proof.
  induction 1 as [|e t He _ IH]; [constructor|].
  destruct e as [| |req [r|]|]; simpl; try exact IH.
  destruct He as [Hok Hg]. rewrite Hok.
  destruct (method req) eqn:M; try exact IH.
  destruct (Hg eq_refl) as (v & -> & items & -> & NN).
  apply Forall_app. split; assumption.
Qed.

Lemma no_failure_left (ress : list FetchResult) :
  Forall succeeded ress <-> List.filter failed ress = [].
Proof.
  split.
  - induction 1 as [|res ress Hs _ IH]; [reflexivity|].
    simpl. unfold succeeded in Hs. rewrite Hs. exact IH.
  - induction ress as [|res ress IH]; [constructor|].
    simpl. destruct (failed res) eqn:F; [discriminate|].
    intros E. constructor; [exact F|apply IH; exact E].
Qed.

Section RemovalExit.
Context `{Runtime} {W : Type} `{Backend W}.
Variable env : RemoveEnvVars.Env.

(** The listing raises exactly when an answer is not one it can read. *)
Lemma fetch_pages_serves (fuel : nat) :
  forall (page : nat) (acc : list JsonValue) (w : W),
    let '(o, w', t) := run (RemoveEnvVars.fetch_pages env fuel page acc) w in
    ((forall e, o <> Raised e) ->
     Forall (fun item => item <> JNull) (listed t) ->
     Forall Stated.serves_variables t) /\
    (Forall Stated.serves_variables t -> forall e, o <> Raised e).
Proof.
  induction fuel as [|fuel IH]; intros page acc w.
  - simpl. split; [constructor|discriminate].
  - rewrite (fetch_pages_step env). unfold fetch, response_json, iterable.
    cbn [run bind].
    destruct (handle (RemoveEnvVars.page_request env page) w) as [res w1] eqn:E.
    assert (Head : forall t',
               Forall Stated.serves_variables
                 (EvLog Info (MsgFetchingPage page)
                  :: EvSend (RemoveEnvVars.page_request env page)
                  :: EvRecv (RemoveEnvVars.page_request env page) res :: t') ->
               (exists r v, res = Resolved r /\ ok r = true /\
                            json r = Some v /\ Stated.walkable v) /\
               Forall Stated.serves_variables t').
    { intros t' S. inversion S as [|? ? _ S1]; subst.
      inversion S1 as [|? ? _ S2]; subst.
      inversion S2 as [|? ? Hr S3]; subst.
      split; [|exact S3]. destruct res as [r|]; [|destruct Hr].
      destruct Hr as [Hok Hg]. destruct (Hg eq_refl) as (v & Hj & Hv).
      exists r, v. repeat split; assumption. }
    destruct res as [r|]; cbn [bind].
    2:{ simpl. split; [intros C; exfalso; eapply C; reflexivity|].
        intros S. destruct (Head [] S) as [(r & v & C & _) _]. discriminate C. }
    destruct (ok r) eqn:Hok; cbn [negb].
    2:{ simpl. split; [intros C; exfalso; eapply C; reflexivity|].
        intros S. destruct (Head [] S) as [(r' & v & C & Hok' & _) _].
        injection C as <-. congruence. }
    destruct (json r) as [v|] eqn:J; cbn [bind].
    2:{ simpl. split; [intros C; exfalso; eapply C; reflexivity|].
        intros S. destruct (Head [] S) as [(r' & v & C & _ & Hj & _) _].
        injection C as <-. congruence. }
    destruct (iterate v) as [items|] eqn:I; cbn [bind].
    2:{ simpl. split; [intros C; exfalso; eapply C; reflexivity|].
        intros S.
        destruct (Head [] S) as [(r' & v' & C & _ & Hj & items & Hi & _) _].
        injection C as <-. rewrite J in Hj. injection Hj as <-. congruence. }
    assert (Here : forall t',
               Forall (fun item => item <> JNull) (items ++ listed t') ->
               Forall Stated.serves_variables t' ->
               Forall Stated.serves_variables
                 (EvLog Info (MsgFetchingPage page)
                  :: EvSend (RemoveEnvVars.page_request env page)
                  :: EvRecv (RemoveEnvVars.page_request env page) (Resolved r)
                  :: t')).
    { intros t' NN S. apply Forall_app in NN as [NN _].
      constructor; [exact Logic.I|]. constructor; [exact Logic.I|].
      constructor; [|exact S]. split; [exact Hok|]. intros _.
      exists v. split; [exact J|]. exists items. split; assumption. }
    destruct (RemoveEnvVars.hasMorePages page (RemoveEnvVars.totalPages r)).
    + specialize (IH (S page) (acc ++ items) w1).
      destruct (run (RemoveEnvVars.fetch_pages env fuel (S page) (acc ++ items)) w1)
        as [[o w2] t].
      destruct IH as [Ia Ib]. split.
      * intros NR NN.
        cbn [listed method RemoveEnvVars.page_request] in NN.
        rewrite Hok, J, I in NN.
        apply Here; [exact NN|]. apply Ia; [exact NR|].
        apply Forall_app in NN as [_ NN]. exact NN.
      * intros S. destruct (Head t S) as [_ S']. auto.
    + simpl. split; [|discriminate].
      intros _ NN. rewrite Hok, J, I in NN.
      apply (Here []); [exact NN|constructor].
Qed.

(** The same for the function that wraps the loop. *)
Lemma listing_serves (fuel : nat) (w : W) :
  let '(o, w', t) := run (RemoveEnvVars.fetchEnvironmentVariables env fuel) w in
  ((forall e, o <> Raised e) ->
   Forall (fun item => item <> JNull) (listed t) ->
   Forall Stated.serves_variables t) /\
  (Forall Stated.serves_variables t -> forall e, o <> Raised e) /\
  (forall variables, o = Returned variables -> variables = listed t).
Proof.
  unfold RemoveEnvVars.fetchEnvironmentVariables, mbind, Prog_bind.
  cbn [run]. rewrite run_try_catch, run_bind.
  pose proof (fetch_pages_serves fuel 1 [] w) as V.
  pose proof (fetch_pages_ledger env fuel 1 []) as L.
  destruct (run (RemoveEnvVars.fetch_pages env fuel 1 []) w) as [[o w2] t] eqn:R.
  destruct V as [Va Vb].
  destruct o as [vars|e|]; cbn [run].
  - destruct (L vars w w2 t R) as [-> _]. cbn [app].
    split; [|split].
    + intros _ NN. cbn [listed] in NN. rewrite listed_app in NN.
      cbn [listed] in NN. rewrite app_nil_r in NN.
      constructor; [exact Logic.I|]. apply Forall_app.
      split; [apply Va; [discriminate|exact NN]|repeat constructor].
    + discriminate.
    + intros variables [= <-]. cbn [listed]. rewrite listed_app.
      cbn [listed]. rewrite app_nil_r. reflexivity.
  - split; [intros C; exfalso; eapply C; reflexivity|].
    split; [|discriminate].
    intros S. inversion S as [|? ? _ S1]; subst.
    apply Forall_app in S1 as [St _]. exfalso. eapply Vb; [exact St|reflexivity].
  - split; [|split; discriminate].
    intros _ NN. cbn [listed] in NN.
    constructor; [exact Logic.I|]. apply Va; [discriminate|exact NN].
Qed.

(** The answers to the deletions, as the promises show them, are
    answers the script goes on with when all are successes. *)
Lemma parked_serves (variables : list JsonValue) :
  forall ress : list FetchResult,
    Forall succeeded ress ->
    Forall Stated.serves_variables
      (concat (map snd (parked env variables ress))).
Proof.
  induction variables as [|variable variables IH]; intros [|res ress] OK;
    [constructor|constructor|constructor|].
  inversion OK as [|? ? Hres OK']; subst.
  rewrite (parked_cons env). cbn [map concat snd].
  apply Forall_app. split; [|apply IH; exact OK'].
  unfold delete_events.
  destruct res as [r|]; [|discriminate Hres].
  constructor.
  - split; [apply succeeded_ok; exact Hres|]. discriminate.
  - constructor; [|constructor]. destruct (delete_outcome _ _); exact Logic.I.
Qed.

Lemma only_delete_removals (variables : list JsonValue) :
  List.filter (is_method DELETE) (map (VariableRuns.removal env) variables)
  = map (VariableRuns.removal env) variables.
Proof.
  induction variables as [|variable variables IH]; [reflexivity|].
  cbn [map List.filter is_method method VariableRuns.removal
       RemoveEnvVars.delete_request].
  rewrite IH. reflexivity.
Qed.

(** The exit status of remove-env-vars.ts, whatever the service answers
    and in whatever order the answers come in: 0 only over answers the
    script goes on with, 1 only when one of them is not; and there is a
    status once the listing has ended and every deletion started has been
    answered. *)
Lemma removal_exit (fuel : nat) (arrivals : list nat) (w : W) :
  let '(code, w', t) :=
    RemoveEnvVars.removeAllEnvironmentVariables env fuel arrivals w in
  (code = Some 0 \/ code = Some 1 \/ code = None) /\
  (code = Some 0 -> Forall Stated.serves_variables t) /\
  (code = Some 1 -> ~ Forall Stated.serves_variables t) /\
  ((run (RemoveEnvVars.fetchEnvironmentVariables env fuel) w).1.1 <> Unfinished ->
   (forall i, (i < length (only DELETE t))%nat -> In i arrivals) ->
   code <> None).
Proof.
  pose proof (listing_serves fuel w) as L.
  unfold RemoveEnvVars.removeAllEnvironmentVariables.
  destruct (run (RemoveEnvVars.fetchEnvironmentVariables env fuel) w)
    as [[listing w1] t1] eqn:R.
  destruct L as (La & Lb & Lc). cbn [fst].
  assert (Inner : forall (rest : list Event),
             Forall Stated.serves_variables
               (EvLog Info (MsgStartingRemoval (RemoveEnvVars.GITLAB_ENVIRONMENT env))
                :: t1 ++ rest) ->
             Forall Stated.serves_variables t1 /\
             Forall Stated.serves_variables rest).
  { intros rest S. inversion S as [|? ? _ S1]; subst.
    apply Forall_app in S1. exact S1. }
  destruct listing as [variables|e|].
  - specialize (Lc variables eq_refl). subst variables.
    destruct (length (listed t1) =? 0)%nat eqn:Z.
    { split; [auto|]. split; [|split; [discriminate|discriminate]].
      intros _. constructor; [exact Logic.I|]. apply Forall_app. split.
      - apply La; [discriminate|]. apply Nat.eqb_eq in Z.
        destruct (listed t1); [constructor|discriminate Z].
      - repeat constructor. }
    destruct (RemoveEnvVars.start_deletes env (listed t1) w1)
      as [[started w2] ev2] eqn:St.
    destruct started as [promises|].
    2:{ split; [auto|]. split; [discriminate|]. split; [|discriminate].
        intros _ S. destruct (Inner _ S) as [S1 _].
        apply serves_variables_listed in S1.
        destruct (serve (map (VariableRuns.removal env) (listed t1)) w1)
          as [ress w2'] eqn:Sv.
        destruct (start_deletes_spec env (listed t1) w1 w2' ress S1 Sv)
          as (tasks & ev' & St' & _).
        congruence. }
    pose proof (start_deletes_some env (listed t1) w1 promises w2 ev2 St) as NN.
    destruct (serve (map (VariableRuns.removal env) (listed t1)) w1)
      as [ress w2'] eqn:Sv.
    destruct (start_deletes_spec env (listed t1) w1 w2' ress NN Sv)
      as (tasks & ev' & St' & F2 & Hlt & Hs & Hr & _).
    rewrite St in St'. injection St' as <- <- <-.
    pose proof (serve_length _ _ _ _ Sv) as Hlen. rewrite length_map in Hlen.
    destruct (parked_facts env (listed t1) ress Hlen) as (_ & Pr & _ & Pj).
    destruct (owed_parked promises _ F2) as [Ow Pd].
    destruct (allSettled arrivals promises w2) as [[[results w3] ev3]|] eqn:Ha.
    + destruct (allSettled_parked arrivals promises _ w2 w3 results ev3 Pd Ha)
        as (-> & -> & Hperm).
      rewrite Ow in Hperm. rewrite Pj.
      assert (Hr3 : Permutation (received ev3) ress).
      { etransitivity; [apply received_Permutation; exact Hperm|].
        rewrite Pr. reflexivity. }
      destruct (0 <? length (List.filter failed ress))%nat eqn:Fl.
      * split; [auto|]. split; [discriminate|]. split; [|discriminate].
        intros _ S. destruct (Inner _ S) as [_ S2].
        inversion S2 as [|? ? _ S3]; subst.
        apply Forall_app in S3 as [_ S4]. apply Forall_app in S4 as [S5 _].
        apply serves_variables_succeeded in S5.
        assert (OK : Forall succeeded ress).
        { eapply Permutation_Forall; [exact Hr3|exact S5]. }
        apply no_failure_left in OK. rewrite OK in Fl. discriminate Fl.
      * split; [auto|]. split; [|split; discriminate].
        intros _. apply Nat.ltb_ge in Fl.
        assert (OK : Forall succeeded ress).
        { apply no_failure_left.
          destruct (List.filter failed ress); [reflexivity|simpl in Fl; lia]. }
        constructor; [exact Logic.I|]. apply Forall_app. split.
        { apply La; [discriminate|exact NN]. }
        constructor; [exact Logic.I|]. apply Forall_app. split.
        { apply serves_variables_logs. exact Hr. }
        apply Forall_app. split.
        { eapply Permutation_Forall; [symmetry; exact Hperm|].
          apply parked_serves. exact OK. }
        repeat constructor.
    + split; [auto|]. split; [discriminate|]. split; [discriminate|].
      intros _ Cover _.
      destruct (start_deletes_within env (listed t1) w1 promises) as [Hts Hl].
      { rewrite St. reflexivity. }
      destruct (allSettled_served arrivals promises w2) as [r C].
      { apply (served_by_count 1); [exact Hts|].
        intros i Hi. apply (count_occ_In Nat.eq_dec). apply Cover.
        unfold only. cbn [sent]. rewrite sent_app. cbn [sent].
        rewrite List.filter_app, length_app, Hs.
        rewrite only_delete_removals, length_map. lia. }
      congruence.
  - split; [auto|]. split; [discriminate|]. split; [|discriminate].
    intros _ S. destruct (Inner _ S) as [S1 _].
    eapply Lb; [exact S1|reflexivity].
  - split; [auto|]. split; [discriminate|]. split; [discriminate|].
    intros C. congruence.
Qed.

End RemovalExit.

Section PipelineExit.
Context {W : Type} `{Backend W}.
Variable env : RemovePipelines.Env.

(** The exit status of remove-pipelines.ts, whatever the service
    answers: 1 exactly when an answer is not one the script goes on with;
    the run is cut short only by the bound on the number of pages. *)
Lemma pipelines_exit (fuel : nat) (w : W) :
  let '(o, w', t) := run (RemovePipelines.script env fuel) w in
  (o = Returned 0 \/ o = Returned 1 \/ o = Unfinished) /\
  (o = Returned 1 <-> ~ Forall Stated.serves_pipelines t) /\
  (o = Unfinished -> length (only GET t) = fuel).
Proof.
  rewrite script_unfolds.
  pose proof (pages_serves env fuel 1 0 w) as V.
  destruct (run (RemovePipelines.pages env fuel 1 0) w) as [[o w'] t].
  destruct V as (Va & Vb & Vc). cbv zeta.
  assert (Inner : forall rest,
             Forall Stated.serves_pipelines
               ([EvLog Info (MsgConfirmPipelines
                               (RemovePipelines.GITLAB_PROJECT_ID env));
                 EvLog Info MsgPressCtrlC; EvSleep 5000;
                 EvLog Info (MsgRemovingPipelines
                               (RemovePipelines.GITLAB_PROJECT_ID env))]
                ++ t ++ rest) ->
             Forall Stated.serves_pipelines t).
  { intros rest S. apply Forall_app in S as [_ S].
    apply Forall_app in S as [S _]. exact S. }
  assert (Outer : forall rest,
             Forall Stated.serves_pipelines t -> received rest = [] ->
             Forall Stated.serves_pipelines
               ([EvLog Info (MsgConfirmPipelines
                               (RemovePipelines.GITLAB_PROJECT_ID env));
                 EvLog Info MsgPressCtrlC; EvSleep 5000;
                 EvLog Info (MsgRemovingPipelines
                               (RemovePipelines.GITLAB_PROJECT_ID env))]
                ++ t ++ rest)).
  { intros rest S Hr. apply Forall_app. split; [repeat constructor|].
    apply Forall_app. split; [exact S|]. apply serves_pipelines_logs. exact Hr. }
  destruct o as [n|e|].
  - split; [auto|]. split; [|discriminate]. split; [discriminate|].
    intros C. exfalso. apply C. apply Outer; [|reflexivity].
    apply Va. discriminate.
  - split; [auto|]. split; [|discriminate]. split; [|reflexivity].
    intros _ S. apply Inner in S. eapply Vb; [exact S|reflexivity].
  - split; [auto|]. split; [|].
    + split; [discriminate|]. intros C. exfalso. apply C.
      rewrite <- (app_nil_r t) at 1. apply Outer; [|reflexivity].
      apply Va. discriminate.
    + intros _. unfold only in *. rewrite sent_app. cbn [sent List.filter app].
      apply Vc. reflexivity.
Qed.

End PipelineExit.

(** C2, as amended.  The two removal scripts exit with status 1 whenever
    a call failed or the operation aborted, and with status 0 otherwise:
    the exit status is 1 exactly when one of the answers is not one the
    script goes on with, be it a call that failed or a success whose body
    cannot be read as a listing, and 0 only over answers that are all of
    that kind.  A status is produced: the pipeline script ends unless the
    bound on the number of pages cuts the loop short, and the
    variable-removal script ends as soon as the listing has ended and
    every deletion started has been answered.  The set-variables script
    exits with status 1 exactly when the input document is not accepted,
    before anything is sent; once the document is accepted it exits with
    status 0, whatever the answers are, as soon as every upload has been
    answered. *)
Theorem exit_status_of_the_scripts `{Runtime} {W : Type} `{Backend W} :
  (forall (env : RemovePipelines.Env) (fuel : nat) (w : W),
     let '(o, _, t) := run (RemovePipelines.script env fuel) w in
     (o = Returned 0 \/ o = Returned 1 \/ o = Unfinished) /\
     (o = Returned 1 <-> ~ Forall Stated.serves_pipelines t) /\
     (Exists (fun res => failed res = true) (received t) -> o = Returned 1) /\
     (o = Unfinished -> length (only GET t) = fuel)) /\
  (forall (env : RemoveEnvVars.Env) (fuel : nat) (arrivals : list nat) (w : W),
     let '(code, _, t) :=
       RemoveEnvVars.removeAllEnvironmentVariables env fuel arrivals w in
     (code = Some 0 \/ code = Some 1 \/ code = None) /\
     (code = Some 0 -> Forall Stated.serves_variables t) /\
     (code = Some 1 -> ~ Forall Stated.serves_variables t) /\
     (Exists (fun res => failed res = true) (received t) -> code <> Some 0) /\
     ((run (RemoveEnvVars.fetchEnvironmentVariables env fuel) w).1.1
      <> Unfinished ->
      (forall i, (i < length (only DELETE t))%nat -> In i arrivals) ->
      code = Some 0 \/ code = Some 1)) /\
  (forall (env : SetEnvVars.Env) (fs : string -> SetEnvVars.File)
          (arrivals : list nat) (w : W),
     let '(code, _, t) := SetEnvVars.main env fs arrivals w in
     (accepted (fs (SetEnvVars.ENV_FILE_PATH env)) = None ->
      code = Some 1 /\ sent t = []) /\
     (forall doc,
        accepted (fs (SetEnvVars.ENV_FILE_PATH env)) = Some doc ->
        (code = Some 0 \/ code = None) /\
        ((forall i,
            (i < length (Stated.primitive_entries (Object_entries doc)))%nat ->
            (2 <= count_occ Nat.eq_dec arrivals i)%nat) ->
         code = Some 0))).
Proof.
  split; [|split].
  - intros env fuel w.
    pose proof (pipelines_exit env fuel w) as V.
    pose proof (pipelines_exit_status env fuel w) as V'.
    destruct (run (RemovePipelines.script env fuel) w) as [[o w'] t].
    destruct V as (Va & Vb & Vc). destruct V' as [Vd _]. auto.
  - intros env fuel arrivals w.
    pose proof (removal_exit env fuel arrivals w) as V.
    destruct (RemoveEnvVars.removeAllEnvironmentVariables env fuel arrivals w)
      as [[code w'] t].
    destruct V as (Va & Vb & Vc & Vd).
    split; [exact Va|]. split; [exact Vb|]. split; [exact Vc|]. split.
    + intros Ex C. apply Vb, serves_variables_succeeded in C.
      apply Exists_exists in Ex as (res & Hin & Hf).
      rewrite Forall_forall in C. specialize (C res Hin).
      unfold succeeded in C. congruence.
    + intros Fin Cover. specialize (Vd Fin Cover).
      destruct Va as [Va|[Va|Va]]; auto. contradiction.
  - intros env fs arrivals w.
    destruct (SetEnvVars.main env fs arrivals w) as [[code w'] t] eqn:M. split.
    + intros Rj. destruct (main_rejects env fs arrivals w Rj) as [line Hm].
      rewrite Hm in M. injection M as <- <- <-. split; reflexivity.
    + intros doc Acc.
      destruct (main_runs env fs doc w Acc) as [Hany _].
      destruct (Hany arrivals code w' t M) as [_ Hcode].
      split; [destruct Hcode as [->|[-> _]]; auto|].
      intros Cover.
      destruct (main_unfolds env fs doc arrivals w Acc) as (ts & w1 & ev1 & D & Mu).
      pose proof (dispatch_within env (Object_entries doc) w) as Hts.
      pose proof (dispatch_spec env (Object_entries doc) w) as S.
      rewrite D in Hts, S. cbn [fst] in Hts. cbv zeta in S.
      destruct S as (_ & Hl & _).
      fold (attempts doc) in Hl. rewrite (attempts_stated doc) in Hl.
      destruct (allSettled_served arrivals ts w1) as [[[os w2] ev2] A].
      { apply (served_by_count 2); [exact Hts|].
        intros i Hi. apply Cover. rewrite <- Hl. exact Hi. }
      rewrite A in Mu. destruct Mu as (_ & _ & Mu).
      rewrite Mu in M. injection M as <- _ _. reflexivity.
Qed.

Lemma exit_status_of_the_scripts_witness :
  (run (RemovePipelines.script Examples.project25 5)
     [Examples.reply 200 JNull]).1.1 = Returned 1 /\
  (RemoveEnvVars.removeAllEnvironmentVariables Examples.production 5 [0%nat]
     [Examples.reply_page "1" [Examples.variable "A" "production"];
      Examples.reply 204 JNull]).1.1 = Some 0 /\
  (SetEnvVars.main Examples.uat one_entry [0; 0]%nat
     [Examples.reply 500 JNull]).1.1 = Some 0 /\
  (SetEnvVars.main Examples.uat (fun _ => SetEnvVars.Absent) [0%nat]
     [Examples.reply 500 JNull]).1.1 = Some 1.
Proof.
  destruct (@exit_status_of_the_scripts Examples.plain_runtime _ _)
    as (P & R & S).
  split; [|split; [|split]].
  - specialize (P Examples.project25 5%nat [Examples.reply 200 JNull]).
    destruct (run (RemovePipelines.script Examples.project25 5)
                [Examples.reply 200 JNull]) as [[o w'] t] eqn:E.
    destruct P as (_ & [_ P] & _). apply P.
    vm_compute in E. injection E as _ _ <-. intros C.
    repeat (match goal with
            | C : Forall _ (_ :: _) |- _ =>
                let C1 := fresh in let C2 := fresh in
                inversion C as [|? ? C1 C2]; subst; clear C
            end).
    match goal with
    | C : Stated.serves_pipelines (EvRecv _ _) |- _ =>
        destruct C as [_ C]; destruct (C eq_refl) as (v & [= <-] & [C'|C'])
    end.
    + discriminate C'.
    + destruct C' as (items & C' & _). discriminate C'.
  - specialize (R Examples.production 5%nat [0%nat]
                  [Examples.reply_page "1" [Examples.variable "A" "production"];
                   Examples.reply 204 JNull]).
    destruct (RemoveEnvVars.removeAllEnvironmentVariables Examples.production 5
                [0%nat]
                [Examples.reply_page "1" [Examples.variable "A" "production"];
                 Examples.reply 204 JNull]) as [[code w'] t] eqn:E.
    destruct R as (_ & _ & R1 & _ & R2).
    destruct R2 as [C|C]; [vm_compute; discriminate| |exact C|].
    + vm_compute in E. injection E as _ _ <-.
      intros i Hi. simpl in Hi. destruct i as [|i]; [left; reflexivity|lia].
    + exfalso. apply (R1 C). vm_compute in E. injection E as _ _ <-.
      repeat constructor; try discriminate.
      * intros _. eexists. split; [reflexivity|]. eexists.
        split; [reflexivity|]. repeat constructor. discriminate.
  - specialize (S Examples.uat one_entry [0; 0]%nat [Examples.reply 500 JNull]).
    destruct (SetEnvVars.main Examples.uat one_entry [0; 0]%nat
                [Examples.reply 500 JNull]) as [[c1 w1] t1].
    destruct S as [_ S]. destruct (S _ eq_refl) as [_ S1]. apply S1.
    intros i Hi. simpl in Hi. destruct i as [|i]; [simpl; lia|lia].
  - specialize (S Examples.uat (fun _ => SetEnvVars.Absent) [0%nat]
                  [Examples.reply 500 JNull]).
    destruct (SetEnvVars.main Examples.uat (fun _ => SetEnvVars.Absent) [0%nat]
                [Examples.reply 500 JNull]) as [[c2 w2] t2].
    destruct S as [S _]. exact (proj1 (S eq_refl)).
Defined.
